(** * Risk-adjusted decision and sizing engines of the three trading bots

    A shallow embedding of [strategies/aggressive_v1.py],
    [strategies/conservative_v1.py] and [strategies/flip_v2.py].

    Numbers.  Python floats are idealised as exact rationals ([Q]); Python
    ints (trade counters, streaks) are [Z].  Rounding is therefore not
    modelled: every statement below is about the real-number reading of the
    arithmetic the code performs.

    Effects.  A bot reads two things from outside: the module level random
    generator ([random.random], [random.uniform]) and the system clock
    ([datetime.utcnow]).  Both are streams indexed by the number of reads made
    so far, carried in a [world].  Mutation of [self] is explicit state
    passing; a Python exception is a [Raise] result. *)

From Stdlib Require Import QArith Qabs ZArith List String Bool Lia Lra Psatz.
Import ListNotations.
Open Scope Q_scope.

(** ** Python primitives *)

Inductive exn : Set := ZeroDivisionError | AttributeError.

Inductive result (A : Type) : Type :=
| Ok (a : A)
| Raise (e : exn).
Arguments Ok {A} a.
Arguments Raise {A} e.

Definition bind {A B : Type} (c : result A) (k : A -> result B) : result B :=
  match c with
  | Ok a => k a
  | Raise e => Raise e
  end.

Notation "x <- c ;; k" := (bind c (fun x => k))
  (at level 61, c at next level, right associativity).

(** [x < y], [x <= y] and [x == 0] as the booleans a Python [if] tests. *)
Definition Qltb (x y : Q) : bool := negb (Qle_bool y x).
Definition Qleb (x y : Q) : bool := Qle_bool x y.

(** [a / b]: true division raises on a zero divisor. *)
Definition pydiv (a b : Q) : result Q :=
  if Qeq_bool b 0 then Raise ZeroDivisionError else Ok (a / b).

(** [max(a, b)] keeps its first argument unless the second is strictly
    larger; [min(a, b)] keeps it unless the second is strictly smaller. *)
Definition pymax (a b : Q) : Q := if Qltb a b then b else a.
Definition pymin (a b : Q) : Q := if Qltb b a then b else a.

(** [all([...])] over a list of booleans. *)
Definition all (l : list bool) : bool := forallb (fun b => b) l.

(** [d.get(k, default)] for a dict literal with string keys. *)
Fixpoint dict_get (d : list (string * Q)) (k : string) (default : Q) : Q :=
  match d with
  | [] => default
  | (k', v) :: d' => if String.eqb k k' then v else dict_get d' k default
  end.

(** [o.get(default)] for one optional key of the snapshot. *)
Definition get {A : Type} (o : option A) (default : A) : A :=
  match o with
  | Some v => v
  | None => default
  end.

(** [sum(xs)]: starts from 0 and adds from the left. *)
Definition py_sum (xs : list Q) : Q := fold_left Qplus xs 0.

(** [len(xs)] as the float it becomes under [/]. *)
Definition py_len {A : Type} (xs : list A) : Q := inject_Z (Z.of_nat (List.length xs)).

(** ** The outside world: random generator and clock *)

Record world : Type := {
  rng : nat -> Q;          (* the values [random.random()] returns, in order *)
  rng_used : nat;          (* how many have been consumed *)
  clock : nat -> Z;        (* the instants [datetime.utcnow()] returns *)
  clock_used : nat
}.

Definition random_random (w : world) : Q * world :=
  (rng w (rng_used w),
   {| rng := rng w; rng_used := S (rng_used w);
      clock := clock w; clock_used := clock_used w |}).

(** [random.uniform(a, b)] is [a + (b - a) * random()]: one draw. *)
Definition random_uniform (a b : Q) (w : world) : Q * world :=
  let (u, w') := random_random w in (a + (b - a) * u, w').

Definition utcnow (w : world) : Z * world :=
  (clock w (clock_used w),
   {| rng := rng w; rng_used := rng_used w;
      clock := clock w; clock_used := S (clock_used w) |}).

(** ** Data model *)

(** The metrics dict passed to [trade].  Every key is optional; each reader
    supplies its own default through [get]. *)
Record snapshot : Type := {
  momentum : option Q;
  trend_strength : option Q;
  breakout_score : option Q;
  volatility : option Q;
  volume_spike : option bool;
  volume_ratio : option Q;
  ai_confidence : option Q;
  regime : option string;
  rsi : option Q;
  confluence : option Q;
  support_resistance : option Q;
  spread : option Q;
  volume : option Q;
  volume_profile : option Q;
  position_size : option Q
}.

Inductive trade_kind : Set := WIN | LOSS.

(** One entry of [trade_history].  ['profit'] / ['loss'] is [amount],
    ['profit_pct'] / ['loss_pct'] is [pct]; keys a profile does not write are
    [None].  [timestamp] stands for the [isoformat()] string of the instant. *)
Record trade_record : Type := {
  timestamp : Z;
  kind : trade_kind;
  size : Q;
  amount : Q;
  pct : Q;
  confidence : Q;
  rec_regime : string;
  streak : option Z;
  hot_streak_mult : option Q
}.

(** What [trade] returns.  The code returns a formatted message; it is
    represented by the variant the message announces together with the trade's
    size, amount and percentage. *)
Inductive reason : Set := DailyLimit | TargetReached | DrawdownStop | SignalRejected.

Inductive outcome : Type :=
| Blocked (r : reason)
| Win (sz profit profit_pct : Q)
| Loss (sz loss loss_pct : Q).

Definition is_blocked (o : outcome) : bool :=
  match o with Blocked _ => true | _ => false end.

Definition is_win (o : outcome) : bool :=
  match o with Win _ _ _ => true | _ => false end.

Definition is_loss (o : outcome) : bool :=
  match o with Loss _ _ _ => true | _ => false end.

Definition outcome_size (o : outcome) : option Q :=
  match o with
  | Blocked _ => None
  | Win sz _ _ => Some sz
  | Loss sz _ _ => Some sz
  end.

(** ** AggressiveBot *)

Module Aggressive.

Record config : Type := {
  leverage : Q;
  dd_limit : Q;
  max_position_size : Q;
  risk_multiplier : Q;
  target_return : Q;
  stop_loss : Q;
  take_profit : Q;
  max_daily_trades : Z;
  use_leverage_scaling : bool;
  momentum_trading : bool;
  breakout_focus : bool
}.

Definition default_config : config := {|
  leverage := 3;
  dd_limit := 18 # 100;
  max_position_size := 15 # 100;
  risk_multiplier := 15 # 10;
  target_return := 6 # 100;
  stop_loss := 2 # 100;
  take_profit := 10 # 100;
  max_daily_trades := 15;
  use_leverage_scaling := true;
  momentum_trading := true;
  breakout_focus := true
|}.

Definition emergency_stop_dd : Q := 15 # 100.
Definition size_reduction_dd : Q := 12 # 100.

Record state : Type := {
  capital : Q;
  initial_capital : Q;
  daily_trades : Z;
  consecutive_wins : Z;
  consecutive_losses : Z;
  max_consecutive_wins : Z;
  trade_history : list trade_record;
  peak_capital : Q;
  daily_pnl : Q;
  hot_streak_multiplier : Q
}.

(** [__init__] *)
Definition init (c : Q) : state := {|
  capital := c;
  initial_capital := c;
  daily_trades := 0;
  consecutive_wins := 0;
  consecutive_losses := 0;
  max_consecutive_wins := 0;
  trade_history := [];
  peak_capital := c;
  daily_pnl := 0;
  hot_streak_multiplier := 1
|}.

Definition signal_ok (data : snapshot) : bool :=
  let m := get (momentum data) (1 # 2) in
  let ts := get (trend_strength data) (1 # 2) in
  let bs := get (breakout_score data) (1 # 2) in
  let vol := get (volatility data) (1 # 10) in
  let spike := get (volume_spike data) false in
  let conf := get (ai_confidence data) (1 # 2) in
  let reg := get (regime data) "unknown"%string in
  let momentum_ok := Qltb (6 # 10) (Qabs m) in
  let trend_ok := Qltb (55 # 100) ts in
  let breakout_ok := Qltb (7 # 10) bs in
  let vol_ok := Qltb (4 # 100) vol in
  let confidence_ok := Qltb (6 # 10) conf in
  let volume_ok := spike || Qltb (13 # 10) (get (volume_ratio data) 1) in
  let regime_ok := true in
  (* the regime branch either returns early (None) or fixes the two
     thresholds it may overwrite *)
  let branch : option (bool * bool) :=
    if existsb (String.eqb reg)
         ["high_volatility"; "trending_bull"; "trending_bear"]%string
    then Some (momentum_ok, breakout_ok)
    else if String.eqb reg "sideways"
    then Some (Qltb (75 # 100) (Qabs m), Qltb (8 # 10) bs)
    else if String.eqb reg "low_volatility"
    then (if Qltb vol (3 # 100) then None else Some (momentum_ok, breakout_ok))
    else Some (momentum_ok, breakout_ok) in
  match branch with
  | None => false
  | Some (momentum_ok, breakout_ok) =>
      let r := get (rsi data) 50 in
      let rsi_extreme := Qltb r 25 || Qltb 75 r in
      let confluence_ok := Qltb (65 # 100) (get (confluence data) (1 # 2)) in
      all [momentum_ok; trend_ok; breakout_ok; vol_ok; confidence_ok;
           volume_ok; regime_ok; rsi_extreme; confluence_ok]
  end.

Definition regime_leverage : list (string * Q) :=
  [("trending_bull", 13 # 10); ("trending_bear", 12 # 10);
   ("high_volatility", 14 # 10); ("sideways", 8 # 10);
   ("low_volatility", 9 # 10)]%string.

(** The hot streak multiplier [calculate_position_size] stores in [self]. *)
Definition next_hot_streak (s : state) : Q :=
  if (3 <=? consecutive_wins s)%Z
  then pymin 2 (1 + inject_Z (consecutive_wins s) * (1 # 10))
  else pymax 1 (hot_streak_multiplier s * (95 # 100)).

Definition momentum_mult (data : snapshot) : Q :=
  (8 # 10) + Qabs (get (momentum data) (1 # 2)) * (4 # 10).

(** [final_size] as first assigned in [calculate_position_size], before the
    two bounds are applied. *)
Definition unbounded_size (cfg : config) (data : snapshot) (s : state) : result Q :=
  let base_size := capital s * max_position_size cfg in
  let base_size :=
    match position_size data with
    | Some p => pymax base_size (p * capital s)
    | None => base_size
    end in
  let conf := get (ai_confidence data) (1 # 2) in
  let confidence_mult := (7 # 10) + conf * (6 # 10) in
  let hot := next_hot_streak s in
  let cold_streak_mult :=
    if (2 <=? consecutive_losses s)%Z
    then pymax (3 # 10) (1 - inject_Z (consecutive_losses s) * (15 # 100))
    else 1 in
  let leverage_mult :=
    if use_leverage_scaling cfg
    then
      let vol := get (volatility data) (1 # 10) in
      let reg := get (regime data) "unknown"%string in
      let vol_leverage := pymin (15 # 10) (1 + vol * 2) in
      vol_leverage * dict_get regime_leverage reg 1
    else 1 in
  current_dd <- pydiv (initial_capital s - capital s) (initial_capital s) ;;
  let size_reduction_factor :=
    if Qltb size_reduction_dd current_dd then 1 # 2 else 1 in
  Ok (base_size * confidence_mult * momentum_mult data * hot
      * cold_streak_mult * leverage_mult * size_reduction_factor).

Definition with_hot_streak (s : state) (h : Q) : state := {|
  capital := capital s;
  initial_capital := initial_capital s;
  daily_trades := daily_trades s;
  consecutive_wins := consecutive_wins s;
  consecutive_losses := consecutive_losses s;
  max_consecutive_wins := max_consecutive_wins s;
  trade_history := trade_history s;
  peak_capital := peak_capital s;
  daily_pnl := daily_pnl s;
  hot_streak_multiplier := h
|}.

Definition calculate_position_size (cfg : config) (data : snapshot) (s : state)
  : result (Q * state) :=
  final_size <- unbounded_size cfg data s ;;
  let final_size := pymin final_size (capital s * (20 # 100)) in
  let final_size := pymax final_size (capital s * (2 # 100)) in
  Ok (final_size, with_hot_streak s (next_hot_streak s)).

Definition regime_success_adj : list (string * Q) :=
  [("trending_bull", 12 # 10); ("trending_bear", 115 # 100);
   ("high_volatility", 11 # 10); ("sideways", 9 # 10);
   ("low_volatility", 85 # 100)]%string.

Definition regime_profit_mult : list (string * Q) :=
  [("trending_bull", 15 # 10); ("trending_bear", 13 # 10);
   ("high_volatility", 16 # 10); ("sideways", 1);
   ("low_volatility", 9 # 10)]%string.

Definition regime_loss_adj : list (string * Q) :=
  [("trending_bull", 8 # 10); ("trending_bear", 9 # 10);
   ("high_volatility", 14 # 10); ("sideways", 12 # 10);
   ("low_volatility", 7 # 10)]%string.

Definition success_prob (data : snapshot) (s : state) : Q :=
  let conf := get (ai_confidence data) (1 # 2) in
  let m := Qabs (get (momentum data) (1 # 2)) in
  let ts := get (trend_strength data) (1 # 2) in
  let bs := get (breakout_score data) (1 # 2) in
  let reg := get (regime data) "unknown"%string in
  let base_success_prob := (conf + m + ts + bs) / 4 in
  let streak_bonus := pymin (15 # 100) (inject_Z (consecutive_wins s) * (3 # 100)) in
  let final_success_prob :=
    (base_success_prob + streak_bonus) * dict_get regime_success_adj reg 1 in
  pymin (80 # 100) (pymax (25 # 100) final_success_prob).

Definition trade (cfg : config) (data : snapshot) (s : state) (w : world)
  : result (outcome * state * world) :=
  if (max_daily_trades cfg <=? daily_trades s)%Z
  then Ok (Blocked DailyLimit, s, w)
  else
    current_dd <- pydiv (initial_capital s - capital s) (initial_capital s) ;;
    if Qltb (dd_limit cfg) current_dd
    then Ok (Blocked DrawdownStop, s, w)
    else if negb (signal_ok data)
    then Ok (Blocked SignalRejected, s, w)
    else
      sized <- calculate_position_size cfg data s ;;
      let (trade_size, s) := sized in
      let conf := get (ai_confidence data) (1 # 2) in
      let m := Qabs (get (momentum data) (1 # 2)) in
      let reg := get (regime data) "unknown"%string in
      let final_success_prob := success_prob data s in
      let (u, w) := random_random w in
      if Qltb u final_success_prob
      then
        let (base_profit_pct, w) := random_uniform (5 # 100) (15 # 100) w in
        let confidence_bonus := 1 + (conf - (1 # 2)) * (6 # 10) in
        let momentum_bonus := 1 + m * (4 # 10) in
        let hot_streak_bonus := 1 + inject_Z (consecutive_wins s) * (5 # 100) in
        let final_profit_pct :=
          base_profit_pct * confidence_bonus * momentum_bonus
          * hot_streak_bonus * dict_get regime_profit_mult reg 1 in
        let final_profit_pct := pymin (18 # 100) final_profit_pct in
        let profit := trade_size * final_profit_pct in
        let capital' := capital s + profit in
        let wins' := (consecutive_wins s + 1)%Z in
        let (now, w) := utcnow w in
        let trade_rec := {|
          timestamp := now; kind := WIN; size := trade_size; amount := profit;
          pct := final_profit_pct; confidence := conf; rec_regime := reg;
          streak := Some wins';
          hot_streak_mult := Some (hot_streak_multiplier s) |} in
        Ok (Win trade_size profit final_profit_pct,
            {| capital := capital';
               initial_capital := initial_capital s;
               daily_trades := (daily_trades s + 1)%Z;
               consecutive_wins := wins';
               consecutive_losses := 0;
               max_consecutive_wins := Z.max (max_consecutive_wins s) wins';
               trade_history := trade_history s ++ [trade_rec];
               peak_capital :=
                 if Qltb (peak_capital s) capital' then capital'
                 else peak_capital s;
               daily_pnl := daily_pnl s + profit;
               hot_streak_multiplier := hot_streak_multiplier s |},
            w)
      else
        let base_loss_pct := stop_loss cfg in
        let adjusted_loss_pct := base_loss_pct * dict_get regime_loss_adj reg 1 in
        let adjusted_loss_pct := pymin (6 # 100) adjusted_loss_pct in
        let loss := trade_size * adjusted_loss_pct in
        let losses' := (consecutive_losses s + 1)%Z in
        let (now, w) := utcnow w in
        let trade_rec := {|
          timestamp := now; kind := LOSS; size := trade_size; amount := loss;
          pct := adjusted_loss_pct; confidence := conf; rec_regime := reg;
          streak := Some losses';
          hot_streak_mult := None |} in
        Ok (Loss trade_size loss adjusted_loss_pct,
            {| capital := capital s - loss;
               initial_capital := initial_capital s;
               daily_trades := (daily_trades s + 1)%Z;
               consecutive_wins := 0;
               consecutive_losses := losses';
               max_consecutive_wins := max_consecutive_wins s;
               trade_history := trade_history s ++ [trade_rec];
               peak_capital := peak_capital s;
               daily_pnl := daily_pnl s - loss;
               hot_streak_multiplier :=
                 pymax 1 (hot_streak_multiplier s * (9 # 10)) |},
            w).

Definition reset_daily_stats (s : state) : state := {|
  capital := capital s;
  initial_capital := initial_capital s;
  daily_trades := 0;
  consecutive_wins := consecutive_wins s;
  consecutive_losses := consecutive_losses s;
  max_consecutive_wins := max_consecutive_wins s;
  trade_history := trade_history s;
  peak_capital := peak_capital s;
  daily_pnl := 0;
  hot_streak_multiplier := hot_streak_multiplier s
|}.

(** [get_status]: the numbers behind the dict it returns.  The dict holds
    most of them formatted as strings ([f"{x:.1%}"] and the like); the
    constant entries (['strategy'], ['risk_level'], ['ai_enhanced']) are left
    out. *)
Record status : Type := {
  st_capital : Q;
  st_initial_capital : Q;
  st_total_return : Q;
  st_daily_return : Q;
  st_daily_target : Q;
  st_drawdown : Q;
  st_consecutive_wins : Z;
  st_consecutive_losses : Z;
  st_max_win_streak : Z;
  st_hot_streak_multiplier : Q;
  st_daily_trades : Z;
  st_total_trades : nat;
  st_win_rate : Q;
  st_avg_win : Q;
  st_avg_loss : Q;
  st_peak_capital : Q;
  st_leverage : Q;
  st_timestamp : Z
}.

Definition is_win_record (t : trade_record) : bool :=
  match kind t with WIN => true | LOSS => false end.

Definition is_loss_record (t : trade_record) : bool :=
  match kind t with WIN => false | LOSS => true end.

(** [self.trade_history[-25:] if len(self.trade_history) >= 25 else
    self.trade_history] *)
Definition recent_trades (s : state) : list trade_record :=
  let h := trade_history s in
  if (25 <=? List.length h)%nat then skipn (List.length h - 25) h else h.

Definition win_rate (s : state) : Q :=
  match recent_trades s with
  | [] => 0
  | recent => py_len (filter is_win_record recent) / py_len recent
  end.

Definition avg_win (s : state) : Q :=
  match filter is_win_record (recent_trades s) with
  | [] => 0
  | winning_trades => py_sum (map amount winning_trades) / py_len winning_trades
  end.

Definition avg_loss (s : state) : Q :=
  match filter is_loss_record (recent_trades s) with
  | [] => 0
  | losing_trades => py_sum (map amount losing_trades) / py_len losing_trades
  end.

Definition get_status (cfg : config) (s : state) (w : world) : status * world :=
  let current_dd :=
    if Qltb 0 (initial_capital s)
    then (initial_capital s - capital s) / initial_capital s else 0 in
  let total_return :=
    if Qltb 0 (initial_capital s)
    then (capital s - initial_capital s) / initial_capital s else 0 in
  let daily_return :=
    if Qltb 0 (capital s) then daily_pnl s / capital s else 0 in
  let (now, w) := utcnow w in
  ({| st_capital := capital s;
      st_initial_capital := initial_capital s;
      st_total_return := total_return;
      st_daily_return := daily_return;
      st_daily_target := target_return cfg;
      st_drawdown := current_dd;
      st_consecutive_wins := consecutive_wins s;
      st_consecutive_losses := consecutive_losses s;
      st_max_win_streak := max_consecutive_wins s;
      st_hot_streak_multiplier := hot_streak_multiplier s;
      st_daily_trades := daily_trades s;
      st_total_trades := List.length (trade_history s);
      st_win_rate := win_rate s;
      st_avg_win := avg_win s;
      st_avg_loss := avg_loss s;
      st_peak_capital := peak_capital s;
      st_leverage := leverage cfg;
      st_timestamp := now |},
   w).

End Aggressive.

(** ** ConservativeBot *)

Module Conservative.

Record config : Type := {
  daily_target : Q;
  risk_cap : Q;
  max_drawdown : Q;
  stop_loss : Q;
  max_daily_trades : Z;
  min_confidence : Q;
  min_win_rate_required : Q;
  profit_target : Q;
  safety_first : bool;
  preserve_capital : bool;
  gradual_scaling : bool
}.

Definition default_config : config := {|
  daily_target := 1 # 100;
  risk_cap := 15 # 1000;
  max_drawdown := 3 # 100;
  stop_loss := 5 # 1000;
  max_daily_trades := 4;
  min_confidence := 8 # 10;
  min_win_rate_required := 75 # 100;
  profit_target := 12 # 1000;
  safety_first := true;
  preserve_capital := true;
  gradual_scaling := true
|}.

Definition emergency_stop_dd : Q := 25 # 1000.
Definition size_reduction_dd : Q := 2 # 100.

(** One entry of [daily_history]; [date] stands for the ['%Y-%m-%d'] rendering
    of the instant it was taken at. *)
Record daily_summary : Type := {
  date : Z;
  day_return : Q;
  day_profit : Q;
  day_trades : Z;
  target_achieved : bool;
  day_safety_violations : Z
}.

Record state : Type := {
  capital : Q;
  initial_capital : Q;
  daily_trades : Z;
  daily_profit : Q;
  trade_history : list trade_record;
  daily_history : list daily_summary;
  consecutive_profitable_days : Z;
  total_profitable_days : Z;
  peak_capital : Q;
  safety_violations : Z
}.

Definition init (c : Q) : state := {|
  capital := c;
  initial_capital := c;
  daily_trades := 0;
  daily_profit := 0;
  trade_history := [];
  daily_history := [];
  consecutive_profitable_days := 0;
  total_profitable_days := 0;
  peak_capital := c;
  safety_violations := 0
|}.

Definition can_trade (cfg : config) (metrics : snapshot) : bool :=
  let sp := get (spread metrics) (1 # 1000) in
  let vlm := get (volume metrics) 1000000 in
  let vol := get (volatility metrics) (1 # 10) in
  let conf := get (ai_confidence metrics) (1 # 2) in
  let reg := get (regime metrics) "unknown"%string in
  let spread_ok := Qltb sp (2 # 1000) in
  let volume_ok := Qltb 1000000 vlm in
  let vol_ok := Qltb (1 # 100) vol && Qltb vol (8 # 100) in
  let confidence_ok := Qleb (min_confidence cfg) conf in
  let regime_ok :=
    existsb (String.eqb reg)
      ["trending_bull"; "low_volatility"; "sideways"]%string in
  if String.eqb reg "high_volatility"
  then false
  else
    let sr_ok := Qltb (7 # 10) (get (support_resistance metrics) (1 # 2)) in
    let trend_ok := Qltb (6 # 10) (get (trend_strength metrics) (1 # 2)) in
    let confluence_ok := Qltb (75 # 100) (get (confluence metrics) (1 # 2)) in
    let r := get (rsi metrics) 50 in
    let rsi_ok := Qltb 35 r && Qltb r 65 in
    let volume_profile_ok := Qltb (8 # 10) (get (volume_profile metrics) 1) in
    all [spread_ok; volume_ok; vol_ok; confidence_ok; regime_ok;
         sr_ok; trend_ok; confluence_ok; rsi_ok; volume_profile_ok].

(** [self.daily_profit / self.capital if self.capital > 0 else 0] *)
Definition daily_return (s : state) : Q :=
  if Qltb 0 (capital s) then daily_profit s / capital s else 0.

(** [self.trade_history[-10:] if len(self.trade_history) >= 10 else
    self.trade_history] *)
Definition recent_trades (s : state) : list trade_record :=
  let h := trade_history s in
  if (10 <=? List.length h)%nat then skipn (List.length h - 10) h else h.

Definition is_win_record (t : trade_record) : bool :=
  match kind t with WIN => true | LOSS => false end.

Definition streak_mult (s : state) : Q :=
  match recent_trades s with
  | [] => 1
  | recent =>
      let recent_wins := List.length (filter is_win_record recent) in
      (* the divisor is the length of a non-empty list *)
      let recent_win_rate :=
        inject_Z (Z.of_nat recent_wins) / inject_Z (Z.of_nat (List.length recent)) in
      if Qleb (8 # 10) recent_win_rate then 11 # 10
      else if Qleb (7 # 10) recent_win_rate then 105 # 100
      else 9 # 10
  end.

Definition calculate_position_size (cfg : config) (metrics : snapshot) (s : state)
  : result Q :=
  let base_size := capital s * (1 # 100) in
  let base_size :=
    match position_size metrics with
    | Some p =>
        let ai_size := p * capital s in
        pymin (pymin base_size ai_size) (capital s * risk_cap cfg)
    | None => base_size
    end in
  let conf := get (ai_confidence metrics) (1 # 2) in
  let confidence_mult :=
    if Qltb (8 # 10) conf then 1 + (conf - (8 # 10)) * (1 # 2) else 8 # 10 in
  current_dd <- pydiv (initial_capital s - capital s) (initial_capital s) ;;
  let dd_protection := pymax (3 # 10) (1 - current_dd * 5) in
  let dr := daily_return s in
  let daily_mult :=
    if Qleb (daily_target cfg * (8 # 10)) dr then 1 # 2
    else if Qleb (daily_target cfg * (6 # 10)) dr then 7 # 10
    else 1 in
  let peak_distance :=
    if Qltb 0 (peak_capital s)
    then (peak_capital s - capital s) / peak_capital s
    else 0 in
  let peak_mult := pymax (4 # 10) (1 - peak_distance * 2) in
  let size_reduction_factor :=
    if Qltb size_reduction_dd current_dd then 4 # 10 else 1 in
  let final_size :=
    base_size * confidence_mult * dd_protection * daily_mult * peak_mult
    * streak_mult s * size_reduction_factor in
  let final_size := pymin final_size (capital s * (2 # 100)) in
  let final_size := pymax final_size (capital s * (3 # 1000)) in
  Ok final_size.

Definition regime_adj : list (string * Q) :=
  [("trending_bull", 11 # 10); ("low_volatility", 115 # 100);
   ("sideways", 1); ("trending_bear", 95 # 100);
   ("high_volatility", 0)]%string.

Definition regime_profit_adj : list (string * Q) :=
  [("trending_bull", 115 # 100); ("low_volatility", 11 # 10);
   ("sideways", 1); ("trending_bear", 105 # 100)]%string.

Definition regime_loss_adj : list (string * Q) :=
  [("trending_bull", 8 # 10); ("low_volatility", 7 # 10);
   ("sideways", 1); ("trending_bear", 9 # 10)]%string.

Definition success_prob (metrics : snapshot) : Q :=
  let conf := get (ai_confidence metrics) (1 # 2) in
  let ts := get (trend_strength metrics) (1 # 2) in
  let sr := get (support_resistance metrics) (1 # 2) in
  let reg := get (regime metrics) "unknown"%string in
  let base_success_prob := (65 # 100) + conf * (2 # 10) in
  let trend_bonus := (ts - (1 # 2)) * (1 # 10) in
  let sr_bonus := (sr - (1 # 2)) * (1 # 10) in
  let final_success_prob :=
    (base_success_prob + trend_bonus + sr_bonus)
    * dict_get regime_adj reg (9 # 10) in
  pymin (88 # 100) (pymax (60 # 100) final_success_prob).

Definition with_safety_violation (s : state) : state := {|
  capital := capital s;
  initial_capital := initial_capital s;
  daily_trades := daily_trades s;
  daily_profit := daily_profit s;
  trade_history := trade_history s;
  daily_history := daily_history s;
  consecutive_profitable_days := consecutive_profitable_days s;
  total_profitable_days := total_profitable_days s;
  peak_capital := peak_capital s;
  safety_violations := (safety_violations s + 1)%Z
|}.

Definition trade (cfg : config) (metrics : snapshot) (s : state) (w : world)
  : result (outcome * state * world) :=
  if (max_daily_trades cfg <=? daily_trades s)%Z
  then Ok (Blocked DailyLimit, s, w)
  else if Qleb (daily_target cfg) (daily_return s)
  then Ok (Blocked TargetReached, s, w)
  else
    current_dd <- pydiv (initial_capital s - capital s) (initial_capital s) ;;
    if Qltb (max_drawdown cfg) current_dd
    then Ok (Blocked DrawdownStop, s, w)
    else if negb (can_trade cfg metrics)
    then Ok (Blocked SignalRejected, with_safety_violation s, w)
    else
      pos_size <- calculate_position_size cfg metrics s ;;
      let conf := get (ai_confidence metrics) (1 # 2) in
      let reg := get (regime metrics) "unknown"%string in
      let final_success_prob := success_prob metrics in
      let (u, w) := random_random w in
      if Qltb u final_success_prob
      then
        let (base_profit_pct, w) := random_uniform (8 # 1000) (20 # 1000) w in
        let confidence_bonus := 1 + (conf - (75 # 100)) * (2 # 10) in
        let final_profit_pct :=
          base_profit_pct * confidence_bonus * dict_get regime_profit_adj reg 1 in
        let final_profit_pct := pymin (2 # 100) final_profit_pct in
        let profit := pos_size * final_profit_pct in
        let capital' := capital s + profit in
        let daily_profit' := daily_profit s + profit in
        let (now, w) := utcnow w in
        let trade_rec := {|
          timestamp := now; kind := WIN; size := pos_size; amount := profit;
          pct := final_profit_pct; confidence := conf; rec_regime := reg;
          streak := None; hot_streak_mult := None |} in
        (* the returned message formats daily_profit / capital *)
        _ <- pydiv daily_profit' capital' ;;
        Ok (Win pos_size profit final_profit_pct,
            {| capital := capital';
               initial_capital := initial_capital s;
               daily_trades := (daily_trades s + 1)%Z;
               daily_profit := daily_profit';
               trade_history := trade_history s ++ [trade_rec];
               daily_history := daily_history s;
               consecutive_profitable_days := consecutive_profitable_days s;
               total_profitable_days := total_profitable_days s;
               peak_capital :=
                 if Qltb (peak_capital s) capital' then capital'
                 else peak_capital s;
               safety_violations := safety_violations s |},
            w)
      else
        let base_loss_pct := stop_loss cfg in
        let adjusted_loss_pct := base_loss_pct * dict_get regime_loss_adj reg 1 in
        let adjusted_loss_pct := pymin (8 # 1000) adjusted_loss_pct in
        let loss := pos_size * adjusted_loss_pct in
        let capital' := capital s - loss in
        let daily_profit' := daily_profit s - loss in
        let (now, w) := utcnow w in
        let trade_rec := {|
          timestamp := now; kind := LOSS; size := pos_size; amount := loss;
          pct := adjusted_loss_pct; confidence := conf; rec_regime := reg;
          streak := None; hot_streak_mult := None |} in
        _ <- pydiv daily_profit' capital' ;;
        Ok (Loss pos_size loss adjusted_loss_pct,
            {| capital := capital';
               initial_capital := initial_capital s;
               daily_trades := (daily_trades s + 1)%Z;
               daily_profit := daily_profit';
               trade_history := trade_history s ++ [trade_rec];
               daily_history := daily_history s;
               consecutive_profitable_days := consecutive_profitable_days s;
               total_profitable_days := total_profitable_days s;
               peak_capital := peak_capital s;
               safety_violations := safety_violations s |},
            w).

Definition end_of_day_summary (cfg : config) (s : state) (w : world)
  : daily_summary * state * world :=
  let dr := daily_return s in
  let profitable := Qltb 0 (daily_profit s) in
  let (now, w) := utcnow w in
  let summary := {|
    date := now;
    day_return := dr;
    day_profit := daily_profit s;
    day_trades := daily_trades s;
    target_achieved := Qleb (daily_target cfg) dr;
    day_safety_violations := safety_violations s |} in
  (summary,
   {| capital := capital s;
      initial_capital := initial_capital s;
      daily_trades := 0;
      daily_profit := 0;
      trade_history := trade_history s;
      daily_history := daily_history s ++ [summary];
      consecutive_profitable_days :=
        if profitable then (consecutive_profitable_days s + 1)%Z else 0%Z;
      total_profitable_days :=
        if profitable then (total_profitable_days s + 1)%Z
        else total_profitable_days s;
      peak_capital := peak_capital s;
      safety_violations := 0 |},
   w).

(** [get_status]: the numbers behind the dict it returns (formatted as
    strings there); the constant entries are left out. *)
Record status : Type := {
  st_capital : Q;
  st_initial_capital : Q;
  st_total_return : Q;
  st_daily_return : Q;
  st_daily_target : Q;
  st_target_progress : Q;
  st_drawdown : Q;
  st_max_drawdown_limit : Q;
  st_trades_today : Z;
  st_total_trades : nat;
  st_win_rate : Q;
  st_target_win_rate : Q;
  st_avg_daily_return : Q;
  st_consecutive_profitable_days : Z;
  st_total_profitable_days : Z;
  st_target_achievement_rate : Q;
  st_safety_score : Q;
  st_peak_capital : Q;
  st_timestamp : Z
}.

Definition win_rate (s : state) : Q :=
  match trade_history s with
  | [] => 0
  | h => py_len (filter is_win_record h) / py_len h
  end.

Definition avg_daily_return (s : state) : Q :=
  match daily_history s with
  | [] => 0
  | h => py_sum (map day_return h) / py_len h
  end.

Definition target_achievement_rate (s : state) : Q :=
  match daily_history s with
  | [] => 0
  | h => py_len (filter target_achieved h) / py_len h
  end.

(** [1 - (self.safety_violations / max(1, self.daily_trades +
    self.safety_violations))] *)
Definition safety_score (s : state) : Q :=
  1 - inject_Z (safety_violations s)
      / inject_Z (Z.max 1 (daily_trades s + safety_violations s)).

Definition get_status (cfg : config) (s : state) (w : world) : status * world :=
  let current_dd :=
    if Qltb 0 (initial_capital s)
    then (initial_capital s - capital s) / initial_capital s else 0 in
  let total_return :=
    if Qltb 0 (initial_capital s)
    then (capital s - initial_capital s) / initial_capital s else 0 in
  let dr := daily_return s in
  let (now, w) := utcnow w in
  ({| st_capital := capital s;
      st_initial_capital := initial_capital s;
      st_total_return := total_return;
      st_daily_return := dr;
      st_daily_target := daily_target cfg;
      st_target_progress :=
        if Qltb 0 (daily_target cfg) then dr / daily_target cfg * 100 else 0;
      st_drawdown := current_dd;
      st_max_drawdown_limit := max_drawdown cfg;
      st_trades_today := daily_trades s;
      st_total_trades := List.length (trade_history s);
      st_win_rate := win_rate s;
      st_target_win_rate := min_win_rate_required cfg;
      st_avg_daily_return := avg_daily_return s;
      st_consecutive_profitable_days := consecutive_profitable_days s;
      st_total_profitable_days := total_profitable_days s;
      st_target_achievement_rate := target_achievement_rate s;
      st_safety_score := safety_score s;
      st_peak_capital := peak_capital s;
      st_timestamp := now |},
   w).

End Conservative.

(** ** FlipBotV2 *)

Module Flip.

Record config : Type := {
  risk_mode : string;
  max_dd : Q;
  max_daily_trades : Z
}.

Definition default_config : config := {|
  risk_mode := "full_send";
  max_dd := 20 # 100;
  max_daily_trades := 15
|}.

(** Attributes [__init__] sets to constants. *)
Definition daily_target : Q := 1.
Definition max_position_size : Q := 35 # 100.
Definition stop_loss : Q := 2 # 100.

Record state : Type := {
  capital : Q;
  initial_capital : Q;
  consecutive_losses : Z;
  daily_trades : Z;
  trade_history : list trade_record;
  peak_capital : Q;
  current_streak : Z;
  best_streak : Z
}.

Definition init (c : Q) : state := {|
  capital := c;
  initial_capital := c;
  consecutive_losses := 0;
  daily_trades := 0;
  trade_history := [];
  peak_capital := c;
  current_streak := 0;
  best_streak := 0
|}.

Definition check_signal (market_data : snapshot) : bool :=
  let vol := get (volatility market_data) 0 in
  let breakout := get (breakout_score market_data) 0 in
  let conf := get (ai_confidence market_data) (1 # 2) in
  let m := get (momentum market_data) (1 # 2) in
  let vol_ok := Qltb (3 # 100) vol && Qltb vol (25 # 100) in
  let breakout_ok := Qltb (75 # 100) breakout in
  let confidence_ok := Qltb (6 # 10) conf in
  let momentum_ok := Qltb (4 # 10) (Qabs m) in
  vol_ok && breakout_ok && confidence_ok && momentum_ok.

Definition calculate_position_size (cfg : config) (market_data : snapshot)
  (s : state) : result Q :=
  let conf := get (ai_confidence market_data) (1 # 2) in
  current_return <- pydiv (capital s - initial_capital s) (initial_capital s) ;;
  let remaining_target := pymax 0 (daily_target - current_return) in
  let trades_left := Z.max 1 (max_daily_trades cfg - daily_trades s) in
  let base_size :=
    if Qltb 0 remaining_target
    then
      (* trades_left >= 1: the division cannot raise *)
      let target_per_trade := remaining_target / inject_Z trades_left in
      capital s * pymin target_per_trade max_position_size
    else capital s * (5 # 100) in
  let confidence_mult := (7 # 10) + conf * (6 # 10) in
  let streak_mult :=
    if (0 <? current_streak s)%Z
    then pymin (15 # 10) (1 + inject_Z (current_streak s) * (1 # 10))
    else 1 in
  let loss_mult :=
    if (2 <=? consecutive_losses s)%Z
    then pymax (1 # 2) (1 - inject_Z (consecutive_losses s) * (15 # 100))
    else 1 in
  let final_size := base_size * confidence_mult * streak_mult * loss_mult in
  let final_size := pymin final_size (capital s * max_position_size) in
  let final_size := pymax final_size (capital s * (2 # 100)) in
  Ok final_size.

Definition trade (cfg : config) (market_data : snapshot) (s : state) (w : world)
  : result (outcome * state * world) :=
  if (max_daily_trades cfg <=? daily_trades s)%Z
  then Ok (Blocked DailyLimit, s, w)
  else
    current_return <- pydiv (capital s - initial_capital s) (initial_capital s) ;;
    if Qleb daily_target current_return
    then Ok (Blocked TargetReached, s, w)
    else
      current_dd <- pydiv (initial_capital s - capital s) (initial_capital s) ;;
      if Qltb (max_dd cfg) current_dd
      then Ok (Blocked DrawdownStop, s, w)
      else if negb (check_signal market_data)
      then Ok (Blocked SignalRejected, s, w)
      else
        trade_size <- calculate_position_size cfg market_data s ;;
        let conf := get (ai_confidence market_data) (1 # 2) in
        let success_prob := (55 # 100) + conf * (25 # 100) in
        let (u, w) := random_random w in
        if Qltb u success_prob
        then
          let (v, w) := random_uniform (8 # 100) (25 # 100) w in
          let profit_pct := v * (1 + conf * (1 # 2)) in
          let profit_pct := pymin (35 # 100) profit_pct in
          let profit := trade_size * profit_pct in
          let capital' := capital s + profit in
          let streak' := (current_streak s + 1)%Z in
          (* the returned message formats the new return and progress *)
          new_return <- pydiv (capital' - initial_capital s) (initial_capital s) ;;
          _ <- pydiv new_return daily_target ;;
          Ok (Win trade_size profit profit_pct,
              {| capital := capital';
                 initial_capital := initial_capital s;
                 consecutive_losses := 0;
                 daily_trades := (daily_trades s + 1)%Z;
                 trade_history := trade_history s;
                 peak_capital :=
                   if Qltb (peak_capital s) capital' then capital'
                   else peak_capital s;
                 current_streak := streak';
                 best_streak := Z.max (best_streak s) streak' |},
              w)
        else
          let (v, w) := random_uniform (8 # 10) (12 # 10) w in
          let loss_pct := stop_loss * v in
          let loss_pct := pymin (4 # 100) loss_pct in
          let loss := trade_size * loss_pct in
          let capital' := capital s - loss in
          _ <- pydiv (capital' - initial_capital s) (initial_capital s) ;;
          Ok (Loss trade_size loss loss_pct,
              {| capital := capital';
                 initial_capital := initial_capital s;
                 consecutive_losses := (consecutive_losses s + 1)%Z;
                 daily_trades := (daily_trades s + 1)%Z;
                 trade_history := trade_history s;
                 peak_capital := peak_capital s;
                 current_streak := 0;
                 best_streak := best_streak s |},
              w).

(** [get_status]: the numbers behind the dict it returns (formatted as
    strings there); the constant entries are left out.  It reads no clock. *)
Record status : Type := {
  st_capital : Q;
  st_total_return : Q;
  st_daily_progress : Q;
  st_drawdown : Q;
  st_streak : Z;
  st_trades : Z
}.

Definition get_status (s : state) : status :=
  let current_dd :=
    if Qltb 0 (initial_capital s)
    then (initial_capital s - capital s) / initial_capital s else 0 in
  let total_return :=
    if Qltb 0 (initial_capital s)
    then (capital s - initial_capital s) / initial_capital s else 0 in
  let progress := total_return / daily_target * 100 in
  {| st_capital := capital s;
     st_total_return := total_return;
     st_daily_progress := progress;
     st_drawdown := current_dd;
     st_streak := current_streak s;
     st_trades := daily_trades s |}.

End Flip.

(** ** The three engines behind one interface

    The classes share no base class; callers rely on the common method and
    attribute names.  [bot] is an instance of one of the three classes (its
    constructor arguments and its mutable attributes), and the functions
    below dispatch on the class the way the method call does. *)

Inductive bot : Type :=
| AggressiveBot (cfg : Aggressive.config) (s : Aggressive.state)
| ConservativeBot (cfg : Conservative.config) (s : Conservative.state)
| FlipBotV2 (cfg : Flip.config) (s : Flip.state).

(** [Class(capital, **kwargs)] *)
Inductive constructed (c : Q) : bot -> Prop :=
| new_aggressive cfg : constructed c (AggressiveBot cfg (Aggressive.init c))
| new_conservative cfg : constructed c (ConservativeBot cfg (Conservative.init c))
| new_flip cfg : constructed c (FlipBotV2 cfg (Flip.init c)).

Definition capital (b : bot) : Q :=
  match b with
  | AggressiveBot _ s => Aggressive.capital s
  | ConservativeBot _ s => Conservative.capital s
  | FlipBotV2 _ s => Flip.capital s
  end.

Definition initial_capital (b : bot) : Q :=
  match b with
  | AggressiveBot _ s => Aggressive.initial_capital s
  | ConservativeBot _ s => Conservative.initial_capital s
  | FlipBotV2 _ s => Flip.initial_capital s
  end.

Definition peak_capital (b : bot) : Q :=
  match b with
  | AggressiveBot _ s => Aggressive.peak_capital s
  | ConservativeBot _ s => Conservative.peak_capital s
  | FlipBotV2 _ s => Flip.peak_capital s
  end.

Definition daily_trades (b : bot) : Z :=
  match b with
  | AggressiveBot _ s => Aggressive.daily_trades s
  | ConservativeBot _ s => Conservative.daily_trades s
  | FlipBotV2 _ s => Flip.daily_trades s
  end.

Definition max_daily_trades (b : bot) : Z :=
  match b with
  | AggressiveBot cfg _ => Aggressive.max_daily_trades cfg
  | ConservativeBot cfg _ => Conservative.max_daily_trades cfg
  | FlipBotV2 cfg _ => Flip.max_daily_trades cfg
  end.

Definition trade_history (b : bot) : list trade_record :=
  match b with
  | AggressiveBot _ s => Aggressive.trade_history s
  | ConservativeBot _ s => Conservative.trade_history s
  | FlipBotV2 _ s => Flip.trade_history s
  end.

(** The configured maximum drawdown: [dd_limit], [max_drawdown], [max_dd]. *)
Definition drawdown_limit (b : bot) : Q :=
  match b with
  | AggressiveBot cfg _ => Aggressive.dd_limit cfg
  | ConservativeBot cfg _ => Conservative.max_drawdown cfg
  | FlipBotV2 cfg _ => Flip.max_dd cfg
  end.

(** [(initial_capital - capital) / initial_capital], as every [trade]
    computes it. *)
Definition drawdown (b : bot) : result Q :=
  pydiv (initial_capital b - capital b) (initial_capital b).

(** Integer attributes of an instance, looked up by name; a name the class
    never assigns raises. *)
Definition getattr (b : bot) (name : string) : result Z :=
  match b with
  | AggressiveBot cfg s =>
      if String.eqb name "daily_trades" then Ok (Aggressive.daily_trades s)
      else if String.eqb name "consecutive_wins" then Ok (Aggressive.consecutive_wins s)
      else if String.eqb name "consecutive_losses" then Ok (Aggressive.consecutive_losses s)
      else if String.eqb name "max_consecutive_wins" then Ok (Aggressive.max_consecutive_wins s)
      else if String.eqb name "max_daily_trades" then Ok (Aggressive.max_daily_trades cfg)
      else Raise AttributeError
  | ConservativeBot cfg s =>
      if String.eqb name "daily_trades" then Ok (Conservative.daily_trades s)
      else if String.eqb name "consecutive_profitable_days"
      then Ok (Conservative.consecutive_profitable_days s)
      else if String.eqb name "total_profitable_days"
      then Ok (Conservative.total_profitable_days s)
      else if String.eqb name "safety_violations" then Ok (Conservative.safety_violations s)
      else if String.eqb name "max_daily_trades" then Ok (Conservative.max_daily_trades cfg)
      else Raise AttributeError
  | FlipBotV2 cfg s =>
      if String.eqb name "daily_trades" then Ok (Flip.daily_trades s)
      else if String.eqb name "consecutive_losses" then Ok (Flip.consecutive_losses s)
      else if String.eqb name "current_streak" then Ok (Flip.current_streak s)
      else if String.eqb name "best_streak" then Ok (Flip.best_streak s)
      else if String.eqb name "max_daily_trades" then Ok (Flip.max_daily_trades cfg)
      else Raise AttributeError
  end.

(** The attribute that counts consecutive wins: [current_streak] in
    FlipBotV2, [consecutive_wins] elsewhere. *)
Definition win_streak_attr (b : bot) : string :=
  match b with
  | FlipBotV2 _ _ => "current_streak"
  | _ => "consecutive_wins"
  end.

(** The signal gate: [signal_ok], [can_trade], [check_signal]. *)
Definition gate (b : bot) (data : snapshot) : bool :=
  match b with
  | AggressiveBot _ _ => Aggressive.signal_ok data
  | ConservativeBot cfg _ => Conservative.can_trade cfg data
  | FlipBotV2 _ _ => Flip.check_signal data
  end.

(** [calculate_position_size(data)]: the notional it returns. *)
Definition calculate_position_size (b : bot) (data : snapshot) : result Q :=
  match b with
  | AggressiveBot cfg s =>
      r <- Aggressive.calculate_position_size cfg data s ;; Ok (fst r)
  | ConservativeBot cfg s => Conservative.calculate_position_size cfg data s
  | FlipBotV2 cfg s => Flip.calculate_position_size cfg data s
  end.

(** [bot.trade(data)] *)
Definition trade (data : snapshot) (b : bot) (w : world)
  : result (outcome * bot * world) :=
  match b with
  | AggressiveBot cfg s =>
      r <- Aggressive.trade cfg data s w ;;
      let '(o, s', w') := r in Ok (o, AggressiveBot cfg s', w')
  | ConservativeBot cfg s =>
      r <- Conservative.trade cfg data s w ;;
      let '(o, s', w') := r in Ok (o, ConservativeBot cfg s', w')
  | FlipBotV2 cfg s =>
      r <- Flip.trade cfg data s w ;;
      let '(o, s', w') := r in Ok (o, FlipBotV2 cfg s', w')
  end.

(** [getattr(bot, name)()] for the methods that take no argument.
    [get_status] only reads the instance (and, in two of the classes, the
    clock for its ['timestamp'] entry); the dict it returns is not modelled. *)
Definition call (name : string) (b : bot) (w : world) : result (bot * world) :=
  match b with
  | AggressiveBot cfg s =>
      if String.eqb name "reset_daily_stats"
      then Ok (AggressiveBot cfg (Aggressive.reset_daily_stats s), w)
      else if String.eqb name "get_status"
      then Ok (b, snd (utcnow w))
      else Raise AttributeError
  | ConservativeBot cfg s =>
      if String.eqb name "end_of_day_summary"
      then let '(_, s', w') := Conservative.end_of_day_summary cfg s w in
           Ok (ConservativeBot cfg s', w')
      else if String.eqb name "get_status"
      then Ok (b, snd (utcnow w))
      else Raise AttributeError
  | FlipBotV2 cfg s =>
      if String.eqb name "get_status"
      then Ok (b, w)
      else Raise AttributeError
  end.

(** The no-argument methods each class defines. *)
Definition methods (b : bot) : list string :=
  match b with
  | AggressiveBot _ _ => ["reset_daily_stats"; "get_status"]
  | ConservativeBot _ _ => ["end_of_day_summary"; "get_status"]
  | FlipBotV2 _ _ => ["get_status"]
  end%string.

(** A caller's session: a sequence of [trade] calls interleaved with calls
    of the other methods.  The first exception ends it. *)
Inductive op : Type :=
| Trade (data : snapshot)
| Call (name : string).

Definition supported (b : bot) (o : op) : Prop :=
  match o with
  | Trade _ => True
  | Call name => In name (methods b)
  end.

Fixpoint run (ops : list op) (b : bot) (w : world)
  : result (list outcome * bot * world) :=
  match ops with
  | [] => Ok ([], b, w)
  | Trade data :: ops' =>
      r <- trade data b w ;;
      let '(o, b', w') := r in
      r' <- run ops' b' w' ;;
      let '(outs, b'', w'') := r' in Ok (o :: outs, b'', w'')
  | Call name :: ops' =>
      r <- call name b w ;;
      let '(b', w') := r in run ops' b' w'
  end.

(** Documented sizing bounds, as fractions of current capital. *)
Definition min_pct (b : bot) : Q :=
  match b with
  | AggressiveBot _ _ => 2 # 100
  | ConservativeBot _ _ => 3 # 1000
  | FlipBotV2 _ _ => 2 # 100
  end.

Definition max_pct (b : bot) : Q :=
  match b with
  | AggressiveBot _ _ => 20 # 100
  | ConservativeBot _ _ => 2 # 100
  | FlipBotV2 _ _ => 35 # 100
  end.

(** Largest loss percentage a losing trade can apply. *)
Definition loss_cap (b : bot) : Q :=
  match b with
  | AggressiveBot _ _ => 6 # 100
  | ConservativeBot _ _ => 8 # 1000
  | FlipBotV2 _ _ => 4 # 100
  end.

(** Random draws one call consumes, by outcome: the branch draw, and the
    payoff draw where the branch makes one. *)
Definition draws (b : bot) (o : outcome) : nat :=
  match o with
  | Blocked _ => 0
  | Win _ _ _ => 2
  | Loss _ _ _ =>
      match b with
      | FlipBotV2 _ _ => 2
      | _ => 1
      end
  end.

(** The values [random.random()] may return. *)
Definition unit_interval (w : world) : Prop :=
  forall n : nat, 0 <= rng w n /\ rng w n < 1.

(** Two worlds whose random generators agree; the clocks are unrelated. *)
Definition same_rng (w1 w2 : world) : Prop :=
  (forall n : nat, rng w1 n = rng w2 n) /\ rng_used w1 = rng_used w2.

(** What two worlds' clocks have in common, seen through [view]: from now
    on the k-th reading of one and the k-th reading of the other look the
    same.  With [view] constant any two clocks agree; with [view] the
    identity the clocks return the same instants. *)
Definition clocks_agree (view : Z -> Z) (w1 w2 : world) : Prop :=
  forall k : nat,
    view (clock w1 (clock_used w1 + k)) = view (clock w2 (clock_used w2 + k)).

Definition restamp_record (view : Z -> Z) (t : trade_record) : trade_record := {|
  timestamp := view (timestamp t);
  kind := kind t;
  size := size t;
  amount := amount t;
  pct := pct t;
  confidence := confidence t;
  rec_regime := rec_regime t;
  streak := streak t;
  hot_streak_mult := hot_streak_mult t
|}.

Definition restamp_day (view : Z -> Z) (d : Conservative.daily_summary)
  : Conservative.daily_summary := {|
  Conservative.date := view (Conservative.date d);
  Conservative.day_return := Conservative.day_return d;
  Conservative.day_profit := Conservative.day_profit d;
  Conservative.day_trades := Conservative.day_trades d;
  Conservative.target_achieved := Conservative.target_achieved d;
  Conservative.day_safety_violations := Conservative.day_safety_violations d
|}.

(** The instance with [view] applied to every clock reading it stored.
    FlipBotV2 never reads the clock and never writes its history. *)
Definition restamp (view : Z -> Z) (b : bot) : bot :=
  match b with
  | AggressiveBot cfg s =>
      AggressiveBot cfg {|
        Aggressive.capital := Aggressive.capital s;
        Aggressive.initial_capital := Aggressive.initial_capital s;
        Aggressive.daily_trades := Aggressive.daily_trades s;
        Aggressive.consecutive_wins := Aggressive.consecutive_wins s;
        Aggressive.consecutive_losses := Aggressive.consecutive_losses s;
        Aggressive.max_consecutive_wins := Aggressive.max_consecutive_wins s;
        Aggressive.trade_history :=
          map (restamp_record view) (Aggressive.trade_history s);
        Aggressive.peak_capital := Aggressive.peak_capital s;
        Aggressive.daily_pnl := Aggressive.daily_pnl s;
        Aggressive.hot_streak_multiplier := Aggressive.hot_streak_multiplier s |}
  | ConservativeBot cfg s =>
      ConservativeBot cfg {|
        Conservative.capital := Conservative.capital s;
        Conservative.initial_capital := Conservative.initial_capital s;
        Conservative.daily_trades := Conservative.daily_trades s;
        Conservative.daily_profit := Conservative.daily_profit s;
        Conservative.trade_history :=
          map (restamp_record view) (Conservative.trade_history s);
        Conservative.daily_history :=
          map (restamp_day view) (Conservative.daily_history s);
        Conservative.consecutive_profitable_days :=
          Conservative.consecutive_profitable_days s;
        Conservative.total_profitable_days := Conservative.total_profitable_days s;
        Conservative.peak_capital := Conservative.peak_capital s;
        Conservative.safety_violations := Conservative.safety_violations s |}
  | FlipBotV2 cfg s => b
  end.

(** The instance with every clock reading it stored blanked out. *)
Definition erase_clock (b : bot) : bot := restamp (fun _ => 0%Z) b.

(** What a caller sees of a session: the outcomes, the final instance
    through [view], and how many random numbers were drawn; or the
    exception. *)
Definition observe (view : Z -> Z) (r : result (list outcome * bot * world))
  : result (list outcome * bot * nat) :=
  match r with
  | Ok (outs, b, w) => Ok (outs, restamp view b, rng_used w)
  | Raise e => Raise e
  end.

(** ** Sample inputs *)

Definition no_metrics : snapshot := {|
  momentum := None; trend_strength := None; breakout_score := None;
  volatility := None; volume_spike := None; volume_ratio := None;
  ai_confidence := None; regime := None; rsi := None; confluence := None;
  support_resistance := None; spread := None; volume := None;
  volume_profile := None; position_size := None
|}.

(** A snapshot that passes [AggressiveBot.signal_ok]. *)
Definition sample_aggressive : snapshot := {|
  momentum := Some (8 # 10); trend_strength := Some (7 # 10);
  breakout_score := Some (9 # 10); volatility := Some (5 # 100);
  volume_spike := Some true; volume_ratio := None;
  ai_confidence := Some (7 # 10); regime := Some "trending_bull"%string;
  rsi := Some 80; confluence := Some (7 # 10);
  support_resistance := None; spread := None; volume := None;
  volume_profile := None; position_size := None
|}.

(** A snapshot that passes [ConservativeBot.can_trade] with the default
    [min_confidence]. *)
Definition sample_conservative : snapshot := {|
  momentum := None; trend_strength := Some (7 # 10); breakout_score := None;
  volatility := Some (5 # 100); volume_spike := None; volume_ratio := None;
  ai_confidence := Some (9 # 10); regime := Some "trending_bull"%string;
  rsi := Some 50; confluence := Some (8 # 10);
  support_resistance := Some (8 # 10); spread := Some (1 # 1000);
  volume := Some 2000000; volume_profile := Some (9 # 10);
  position_size := None
|}.

(** A snapshot that passes [FlipBotV2.check_signal]. *)
Definition sample_flip : snapshot := {|
  momentum := Some (5 # 10); trend_strength := None;
  breakout_score := Some (8 # 10); volatility := Some (1 # 10);
  volume_spike := None; volume_ratio := None;
  ai_confidence := Some (7 # 10); regime := None; rsi := None;
  confluence := None; support_resistance := None; spread := None;
  volume := None; volume_profile := None; position_size := None
|}.

(** The snapshot [data] with its ['momentum'] entry replaced. *)
Definition set_momentum (data : snapshot) (m : option Q) : snapshot := {|
  momentum := m;
  trend_strength := trend_strength data;
  breakout_score := breakout_score data;
  volatility := volatility data;
  volume_spike := volume_spike data;
  volume_ratio := volume_ratio data;
  ai_confidence := ai_confidence data;
  regime := regime data;
  rsi := rsi data;
  confluence := confluence data;
  support_resistance := support_resistance data;
  spread := spread data;
  volume := volume data;
  volume_profile := volume_profile data;
  position_size := position_size data
|}.

(** A generator that always returns [u], with a clock that starts at [t0]
    and ticks by one. *)
Definition constant_world (u : Q) (t0 : Z) : world := {|
  rng := fun _ => u;
  rng_used := 0;
  clock := fun n => (t0 + Z.of_nat n)%Z;
  clock_used := 0
|}.

(** An AggressiveBot 20% below its initial capital. *)
Definition drawn_down_aggressive : bot :=
  AggressiveBot Aggressive.default_config {|
    Aggressive.capital := 80;
    Aggressive.initial_capital := 100;
    Aggressive.daily_trades := 3;
    Aggressive.consecutive_wins := 0;
    Aggressive.consecutive_losses := 2;
    Aggressive.max_consecutive_wins := 1;
    Aggressive.trade_history := [];
    Aggressive.peak_capital := 101;
    Aggressive.daily_pnl := - (21);
    Aggressive.hot_streak_multiplier := 1 |}.

(** A FlipBotV2 that has used up its fifteen trades. *)
Definition flip_at_limit : bot :=
  FlipBotV2 Flip.default_config {|
    Flip.capital := 10000;
    Flip.initial_capital := 10000;
    Flip.consecutive_losses := 0;
    Flip.daily_trades := 15;
    Flip.trade_history := [];
    Flip.peak_capital := 10000;
    Flip.current_streak := 0;
    Flip.best_streak := 0 |}.

(** Trades of a session that were not blocked. *)
Definition executed (outs : list outcome) : nat :=
  List.length (filter (fun o => negb (is_blocked o)) outs).

(** A FlipBotV2 allowed a single trade a day. *)
Definition one_trade_flip : bot :=
  FlipBotV2 {| Flip.risk_mode := "full_send"; Flip.max_dd := 20 # 100;
               Flip.max_daily_trades := 1 |}
            (Flip.init 10000).

(** The two streak counters of an instance: consecutive wins and
    consecutive losses. *)
Definition streaks (b : bot) : result (Z * Z) :=
  wins <- getattr b (win_streak_attr b) ;;
  losses <- getattr b "consecutive_losses" ;;
  Ok (wins, losses).

(** An instance in working order: positive initial and current capital
    and, where there is one, a win counter that is not negative. *)
Definition healthy (b : bot) : Prop :=
  0 < initial_capital b /\ 0 < capital b
  /\ match b with
     | AggressiveBot _ s => (0 <= Aggressive.consecutive_wins s)%Z
     | _ => True
     end.

(** Calls a session may make on [b]: methods the class has, and [trade]
    with any snapshot, except that a snapshot given to ConservativeBot must
    carry a confidence that is not negative (the data model has it in
    [0, 1]). *)
Definition admissible (b : bot) (o : op) : Prop :=
  match o with
  | Trade data =>
      match b with
      | ConservativeBot _ _ => 0 <= get (ai_confidence data) (1 # 2)
      | _ => True
      end
  | Call name => In name (methods b)
  end.

(** The least factor a single trade can multiply capital by:
    one minus the largest position fraction times the largest loss
    percentage. *)
Definition worst_case_factor (b : bot) : Q := 1 - max_pct b * loss_cap b.

(** ** Further views of an instance *)

(** The day's profit and loss: [daily_pnl] in AggressiveBot, [daily_profit]
    in ConservativeBot; FlipBotV2 keeps none. *)
Definition daily_pnl (b : bot) : result Q :=
  match b with
  | AggressiveBot _ s => Ok (Aggressive.daily_pnl s)
  | ConservativeBot _ s => Ok (Conservative.daily_profit s)
  | FlipBotV2 _ _ => Raise AttributeError
  end.

(** The success probability of an accepted trade lies between these two
    values: the bounds of the final clamp in AggressiveBot and
    ConservativeBot, and [0.55 + 0.25 * confidence] at the gate's least
    confidence and at confidence 1 in FlipBotV2. *)
Definition win_floor (b : bot) : Q :=
  match b with
  | AggressiveBot _ _ => 25 # 100
  | ConservativeBot _ _ => 60 # 100
  | FlipBotV2 _ _ => 70 # 100
  end.

Definition win_ceiling (b : bot) : Q :=
  match b with
  | AggressiveBot _ _ => 80 # 100
  | ConservativeBot _ _ => 88 # 100
  | FlipBotV2 _ _ => 80 # 100
  end.

(** The snapshot [data] with its ['regime'] entry replaced. *)
Definition set_regime (data : snapshot) (r : option string) : snapshot := {|
  momentum := momentum data;
  trend_strength := trend_strength data;
  breakout_score := breakout_score data;
  volatility := volatility data;
  volume_spike := volume_spike data;
  volume_ratio := volume_ratio data;
  ai_confidence := ai_confidence data;
  regime := r;
  rsi := rsi data;
  confluence := confluence data;
  support_resistance := support_resistance data;
  spread := spread data;
  volume := volume data;
  volume_profile := volume_profile data;
  position_size := position_size data
|}.

(** The state of an AggressiveBot with another trade history. *)
Definition aggressive_with_history (s : Aggressive.state) (h : list trade_record)
  : Aggressive.state := {|
  Aggressive.capital := Aggressive.capital s;
  Aggressive.initial_capital := Aggressive.initial_capital s;
  Aggressive.daily_trades := Aggressive.daily_trades s;
  Aggressive.consecutive_wins := Aggressive.consecutive_wins s;
  Aggressive.consecutive_losses := Aggressive.consecutive_losses s;
  Aggressive.max_consecutive_wins := Aggressive.max_consecutive_wins s;
  Aggressive.trade_history := h;
  Aggressive.peak_capital := Aggressive.peak_capital s;
  Aggressive.daily_pnl := Aggressive.daily_pnl s;
  Aggressive.hot_streak_multiplier := Aggressive.hot_streak_multiplier s
|}.

(** What a trade record says about the trade, and what the outcomes of a
    session say about its executed trades, in order. *)
Definition entry (r : trade_record) : trade_kind * Q * Q * Q :=
  (kind r, size r, amount r, pct r).

Definition logged (outs : list outcome) : list (trade_kind * Q * Q * Q) :=
  flat_map (fun o =>
              match o with
              | Blocked _ => []
              | Win sz profit profit_pct => [(WIN, sz, profit, profit_pct)]
              | Loss sz loss loss_pct => [(LOSS, sz, loss, loss_pct)]
              end) outs.

(** The counters of an instance are in order: nothing is negative, the
    best streak is at least the current one, and profitable days in a row
    are at most the profitable days in all. *)
Definition counters_ok (b : bot) : Prop :=
  (0 <= daily_trades b)%Z
  /\ match b with
     | AggressiveBot _ s =>
         (0 <= Aggressive.consecutive_wins s <= Aggressive.max_consecutive_wins s)%Z
         /\ (0 <= Aggressive.consecutive_losses s)%Z
     | ConservativeBot _ s =>
         (0 <= Conservative.safety_violations s)%Z
         /\ (0 <= Conservative.consecutive_profitable_days s
                <= Conservative.total_profitable_days s)%Z
     | FlipBotV2 _ s =>
         (0 <= Flip.current_streak s <= Flip.best_streak s)%Z
         /\ (0 <= Flip.consecutive_losses s)%Z
     end.

(** The drawdown and the total return [get_status] reports. *)
Definition reported_drawdown (b : bot) (w : world) : Q :=
  match b with
  | AggressiveBot cfg s => Aggressive.st_drawdown (fst (Aggressive.get_status cfg s w))
  | ConservativeBot cfg s =>
      Conservative.st_drawdown (fst (Conservative.get_status cfg s w))
  | FlipBotV2 _ s => Flip.st_drawdown (Flip.get_status s)
  end.

Definition reported_return (b : bot) (w : world) : Q :=
  match b with
  | AggressiveBot cfg s =>
      Aggressive.st_total_return (fst (Aggressive.get_status cfg s w))
  | ConservativeBot cfg s =>
      Conservative.st_total_return (fst (Conservative.get_status cfg s w))
  | FlipBotV2 _ s => Flip.st_total_return (Flip.get_status s)
  end.

(** The configured stop loss: a keyword argument of AggressiveBot and
    ConservativeBot, the constant 0.02 in FlipBotV2. *)
Definition stop_loss (b : bot) : Q :=
  match b with
  | AggressiveBot cfg _ => Aggressive.stop_loss cfg
  | ConservativeBot cfg _ => Conservative.stop_loss cfg
  | FlipBotV2 _ _ => Flip.stop_loss
  end.

(** The outcomes that stand for a snapshot the gate turned down. *)
Definition is_rejected (o : outcome) : bool :=
  match o with
  | Blocked SignalRejected => true
  | _ => false
  end.

(** The snapshot [data] with its ['ai_confidence'] entry replaced. *)
Definition set_confidence (data : snapshot) (c : option Q) : snapshot := {|
  momentum := momentum data;
  trend_strength := trend_strength data;
  breakout_score := breakout_score data;
  volatility := volatility data;
  volume_spike := volume_spike data;
  volume_ratio := volume_ratio data;
  ai_confidence := c;
  regime := regime data;
  rsi := rsi data;
  confluence := confluence data;
  support_resistance := support_resistance data;
  spread := spread data;
  volume := volume data;
  volume_profile := volume_profile data;
  position_size := position_size data
|}.

(** A ConservativeBot configuration that accepts any confidence and any
    drawdown, as the keyword arguments [min_confidence] and [max_drawdown]
    allow. *)
Definition permissive_conservative : Conservative.config := {|
  Conservative.daily_target := 1 # 100;
  Conservative.risk_cap := 15 # 1000;
  Conservative.max_drawdown := 1000000000;
  Conservative.stop_loss := 5 # 1000;
  Conservative.max_daily_trades := 4;
  Conservative.min_confidence := - (1000000000);
  Conservative.min_win_rate_required := 75 # 100;
  Conservative.profit_target := 12 # 1000;
  Conservative.safety_first := true;
  Conservative.preserve_capital := true;
  Conservative.gradual_scaling := true
|}.

(** [sample_conservative] with a hugely negative confidence. *)
Definition negative_confidence : snapshot :=
  set_confidence sample_conservative (Some (- (100000000))).

(** A clock that never runs backwards. *)
Definition monotone_clock (w : world) : Prop :=
  forall n m : nat, (n <= m)%nat -> (clock w n <= clock w m)%Z.

(** Instants, oldest first, that never go back. *)
Fixpoint chronological (ts : list Z) : Prop :=
  match ts with
  | [] => True
  | t :: rest => Forall (Z.le t) rest /\ chronological rest
  end.

(** The capital the drawdown stop protects: the worst single trade taken
    at the drawdown limit. *)
Definition capital_floor (b : bot) : Q :=
  worst_case_factor b * (1 - drawdown_limit b) * initial_capital b.

(** * Properties *)

(** ** Comparisons, [min] and [max] *)

Lemma Qltb_true (x y : Q) : Qltb x y = true <-> x < y.
Proof.
  unfold Qltb. rewrite negb_true_iff. split; intro H.
  - apply Qnot_le_lt. intro K. apply Qle_bool_iff in K. congruence.
  - destruct (Qle_bool y x) eqn:E; trivial. apply Qle_bool_iff in E. lra.
Qed.

Lemma Qltb_false (x y : Q) : Qltb x y = false <-> y <= x.
Proof.
  unfold Qltb. rewrite negb_false_iff. apply Qle_bool_iff.
Qed.

Lemma Qleb_true (x y : Q) : Qleb x y = true <-> x <= y.
Proof. apply Qle_bool_iff. Qed.

Lemma Qleb_false (x y : Q) : Qleb x y = false <-> y < x.
Proof.
  unfold Qleb. split; intro H.
  - apply Qnot_le_lt. intro K. apply Qle_bool_iff in K. congruence.
  - destruct (Qle_bool x y) eqn:E; trivial. apply Qle_bool_iff in E. lra.
Qed.

Lemma Qeq_bool_false (x y : Q) : Qeq_bool x y = false <-> ~ x == y.
Proof.
  split.
  - apply Qeq_bool_neq.
  - intro H. destruct (Qeq_bool x y) eqn:E; trivial.
    apply Qeq_bool_iff in E. contradiction.
Qed.

(** Turn the boolean tests found in the context into order facts. *)
Ltac qprop :=
  repeat match goal with
  | H : Qltb _ _ = true |- _ => apply Qltb_true in H
  | H : Qltb _ _ = false |- _ => apply Qltb_false in H
  | H : Qleb _ _ = true |- _ => apply Qleb_true in H
  | H : Qleb _ _ = false |- _ => apply Qleb_false in H
  | H : Qeq_bool _ _ = true |- _ => apply Qeq_bool_iff in H
  | H : Qeq_bool _ _ = false |- _ => apply Qeq_bool_false in H
  | H : (_ <=? _)%Z = true |- _ => apply Z.leb_le in H
  | H : (_ <=? _)%Z = false |- _ => apply Z.leb_gt in H
  | H : (_ <? _)%Z = true |- _ => apply Z.ltb_lt in H
  | H : (_ <? _)%Z = false |- _ => apply Z.ltb_ge in H
  end.

Lemma pymin_le_l (a b : Q) : pymin a b <= a.
Proof. unfold pymin. destruct (Qltb b a) eqn:E; qprop; lra. Qed.

Lemma pymin_le_r (a b : Q) : pymin a b <= b.
Proof. unfold pymin. destruct (Qltb b a) eqn:E; qprop; lra. Qed.

Lemma pymin_glb (a b c : Q) : c <= a -> c <= b -> c <= pymin a b.
Proof. unfold pymin. destruct (Qltb b a); trivial. Qed.

Lemma pymax_ge_l (a b : Q) : a <= pymax a b.
Proof. unfold pymax. destruct (Qltb a b) eqn:E; qprop; lra. Qed.

Lemma pymax_ge_r (a b : Q) : b <= pymax a b.
Proof. unfold pymax. destruct (Qltb a b) eqn:E; qprop; lra. Qed.

Lemma pymax_lub (a b c : Q) : a <= c -> b <= c -> pymax a b <= c.
Proof. unfold pymax. destruct (Qltb a b); trivial. Qed.

Lemma pydiv_ok (a b : Q) : ~ b == 0 -> pydiv a b = Ok (a / b).
Proof.
  intro H. unfold pydiv. apply Qeq_bool_false in H. now rewrite H.
Qed.

Lemma pydiv_inv (a b q : Q) : pydiv a b = Ok q -> ~ b == 0 /\ q = a / b.
Proof.
  unfold pydiv. destruct (Qeq_bool b 0) eqn:E; [discriminate|].
  intro H. injection H as <-. qprop. now split.
Qed.

Lemma inject_Z_nonneg (z : Z) : (0 <= z)%Z -> 0 <= inject_Z z.
Proof. intro H. change 0 with (inject_Z 0). now rewrite <- Zle_Qle. Qed.

(** A table lookup returns a table entry or the default. *)
Lemma dict_get_ind (P : Q -> Prop) (d : list (string * Q)) (k : string) (default : Q) :
  Forall (fun kv => P (snd kv)) d -> P default -> P (dict_get d k default).
Proof.
  intros Hd Hdef. induction Hd as [|[k' v] d' Hv _ IH]; simpl; trivial.
  destruct (String.eqb k k'); trivial.
Qed.

(** ** Case analysis of one [trade] call *)

(** Expose the branches of a [trade] equation [H] and name the tests that
    select each of them. *)
Ltac split_trade H :=
  cbv beta iota zeta delta [bind random_random random_uniform utcnow] in H;
  repeat match type of H with
  | (if ?c then _ else _) = _ => destruct c eqn:?
  | match ?c with Ok _ => _ | Raise _ => _ end = _ => destruct c eqn:?
  | (let (_, _) := ?c in _) = _ => destruct c eqn:?
  end;
  try discriminate H.

Section AggressiveFacts.
Import Aggressive.

Lemma aggr_trade_rejected cfg data s w :
  ~ initial_capital s == 0 -> signal_ok data = false ->
  exists r, trade cfg data s w = Ok (Blocked r, s, w).
Proof.
  intros Hic Hsig. unfold trade.
  destruct (max_daily_trades cfg <=? daily_trades s)%Z; [eauto|].
  rewrite (pydiv_ok _ _ Hic). cbv beta iota delta [bind].
  destruct (Qltb (dd_limit cfg) _); [eauto|].
  rewrite Hsig. simpl. eauto.
Qed.

Lemma aggr_trade_blocked cfg data s w r s' w' :
  trade cfg data s w = Ok (Blocked r, s', w') -> s' = s /\ w' = w.
Proof.
  intro H. unfold trade in H. split_trade H; injection H as; subst; auto.
Qed.

End AggressiveFacts.

Section ConservativeFacts.
Import Conservative.

Lemma cons_trade_rejected cfg data s w :
  ~ initial_capital s == 0 -> can_trade cfg data = false ->
  exists r s', trade cfg data s w = Ok (Blocked r, s', w)
    /\ (s' = s \/ s' = with_safety_violation s).
Proof.
  intros Hic Hsig. unfold trade.
  destruct (max_daily_trades cfg <=? daily_trades s)%Z; [eauto|].
  destruct (Qleb (daily_target cfg) (daily_return s)); [eauto|].
  rewrite (pydiv_ok _ _ Hic). cbv beta iota delta [bind].
  destruct (Qltb (max_drawdown cfg) _); [eauto|].
  rewrite Hsig. simpl. eauto.
Qed.

Lemma cons_trade_blocked cfg data s w r s' w' :
  trade cfg data s w = Ok (Blocked r, s', w') ->
  (s' = s \/ s' = with_safety_violation s) /\ w' = w.
Proof.
  intro H. unfold trade in H. split_trade H; injection H as; subst; auto.
Qed.

End ConservativeFacts.

Section FlipFacts.
Import Flip.

Lemma flip_trade_rejected cfg data s w :
  ~ initial_capital s == 0 -> check_signal data = false ->
  exists r, trade cfg data s w = Ok (Blocked r, s, w).
Proof.
  intros Hic Hsig. unfold trade.
  destruct (max_daily_trades cfg <=? daily_trades s)%Z; [eauto|].
  rewrite !(pydiv_ok _ _ Hic). cbv beta iota delta [bind].
  destruct (Qleb daily_target _); [eauto|].
  destruct (Qltb (max_dd cfg) _); [eauto|].
  rewrite Hsig. simpl. eauto.
Qed.

Lemma flip_trade_blocked cfg data s w r s' w' :
  trade cfg data s w = Ok (Blocked r, s', w') -> s' = s /\ w' = w.
Proof.
  intro H. unfold trade in H. split_trade H; injection H as; subst; auto.
Qed.

End FlipFacts.

(** ** One [trade] call at the interface *)

Lemma aggr_sizing_state cfg data s q s1 :
  Aggressive.calculate_position_size cfg data s = Ok (q, s1) ->
  s1 = Aggressive.with_hot_streak s (Aggressive.next_hot_streak s).
Proof.
  unfold Aggressive.calculate_position_size, bind.
  destruct (Aggressive.unbounded_size cfg data s); [|discriminate].
  intro H. now injection H as _ <-.
Qed.

(** Reduce projections applied to explicit records, and nothing else. *)
Ltac fields :=
  cbn [capital initial_capital peak_capital daily_trades max_daily_trades
       trade_history drawdown_limit is_win is_blocked is_loss outcome_size
       Aggressive.with_hot_streak Conservative.with_safety_violation
       Aggressive.capital Aggressive.initial_capital Aggressive.daily_trades
       Aggressive.consecutive_wins Aggressive.consecutive_losses
       Aggressive.max_consecutive_wins Aggressive.trade_history
       Aggressive.peak_capital Aggressive.daily_pnl
       Aggressive.hot_streak_multiplier
       Conservative.capital Conservative.initial_capital
       Conservative.daily_trades Conservative.daily_profit
       Conservative.trade_history Conservative.daily_history
       Conservative.consecutive_profitable_days
       Conservative.total_profitable_days Conservative.peak_capital
       Conservative.safety_violations
       Flip.capital Flip.initial_capital Flip.consecutive_losses
       Flip.daily_trades Flip.trade_history Flip.peak_capital
       Flip.current_streak Flip.best_streak
       rng rng_used clock clock_used andb orb negb fst snd] in *.

(** Split a hypothesis [H : trade data b w = Ok (o, b', w')] into the
    branches of the three [trade] methods. *)
Ltac trade_cases H :=
  match type of H with
  | trade _ ?b _ = _ => destruct b
  end;
  unfold trade in H;
  split_trade H;
  injection H as <- <- <-;
  match goal with
  | E : Aggressive.trade _ _ _ _ = _ |- _ =>
      unfold Aggressive.trade in E; split_trade E; injection E as; subst;
      try match goal with
      | S : Aggressive.calculate_position_size _ _ _ = Ok (_, ?s1) |- _ =>
          pose proof (aggr_sizing_state _ _ _ _ _ S); subst s1
      end
  | E : Conservative.trade _ _ _ _ = _ |- _ =>
      unfold Conservative.trade in E; split_trade E; injection E as; subst
  | E : Flip.trade _ _ _ _ = _ |- _ =>
      unfold Flip.trade in E; split_trade E; injection E as; subst
  end;
  fields.

Lemma trade_peak data b w o b' w' :
  trade data b w = Ok (o, b', w') ->
  peak_capital b' =
    if is_win o && Qltb (peak_capital b) (capital b')
    then capital b' else peak_capital b.
Proof.
  intro H. trade_cases H; reflexivity.
Qed.

(** What no [trade] call changes. *)
Lemma trade_fixed data b w o b' w' :
  trade data b w = Ok (o, b', w') ->
  initial_capital b' = initial_capital b
  /\ drawdown_limit b' = drawdown_limit b
  /\ max_daily_trades b' = max_daily_trades b
  /\ methods b' = methods b
  /\ win_streak_attr b' = win_streak_attr b
  /\ min_pct b' = min_pct b /\ max_pct b' = max_pct b
  /\ loss_cap b' = loss_cap b
  /\ rng w' = rng w.
Proof.
  intro H. trade_cases H; repeat split.
Qed.

(** A blocked call leaves the instance alone, except that ConservativeBot
    counts a rejected signal in [safety_violations]. *)
Lemma trade_blocked data b w r b' w' :
  trade data b w = Ok (Blocked r, b', w') ->
  w' = w
  /\ capital b' = capital b
  /\ peak_capital b' = peak_capital b
  /\ daily_trades b' = daily_trades b
  /\ trade_history b' = trade_history b
  /\ (forall name, name <> "safety_violations"%string ->
        getattr b' name = getattr b name).
Proof.
  intro H. destruct b; unfold trade in H; split_trade H;
    injection H as Ho Hb Hw; subst.
  - apply aggr_trade_blocked in Heqr0 as [-> ->]. repeat split.
  - apply cons_trade_blocked in Heqr0 as [[-> | ->] ->]; repeat split.
    intros name Hname. unfold getattr; fields.
    destruct (String.eqb_spec name "safety_violations"); [contradiction|].
    reflexivity.
  - apply flip_trade_blocked in Heqr0 as [-> ->]. repeat split.
Qed.

Lemma trade_daily data b w o b' w' :
  trade data b w = Ok (o, b', w') ->
  daily_trades b' = (daily_trades b + (if is_blocked o then 0 else 1))%Z
  /\ (is_blocked o = false -> (daily_trades b < max_daily_trades b)%Z).
Proof.
  intro H. trade_cases H; qprop; split;
    try reflexivity; try discriminate; try (intros _; assumption);
    try (symmetry; apply Z.add_0_r).
Qed.

Lemma trade_daily_limit data b w :
  (max_daily_trades b <= daily_trades b)%Z ->
  trade data b w = Ok (Blocked DailyLimit, b, w).
Proof.
  intro H. apply Z.leb_le in H.
  destruct b; unfold trade, Aggressive.trade, Conservative.trade, Flip.trade;
    cbn [max_daily_trades daily_trades] in H; rewrite H; reflexivity.
Qed.

Lemma trade_draws data b w o b' w' :
  trade data b w = Ok (o, b', w') ->
  rng_used w' = (rng_used w + draws b o)%nat.
Proof.
  intro H. trade_cases H; cbn [draws]; lia.
Qed.

(** ** The other methods *)

Lemma call_fixed name b w b' w' :
  call name b w = Ok (b', w') ->
  capital b' = capital b
  /\ initial_capital b' = initial_capital b
  /\ peak_capital b' = peak_capital b
  /\ trade_history b' = trade_history b
  /\ drawdown_limit b' = drawdown_limit b
  /\ max_daily_trades b' = max_daily_trades b
  /\ methods b' = methods b
  /\ win_streak_attr b' = win_streak_attr b
  /\ rng w' = rng w /\ rng_used w' = rng_used w.
Proof.
  intro H. destruct b; unfold call in H;
    repeat match type of H with
    | (if ?c then _ else _) = _ => destruct c
    end;
    try discriminate H; injection H as <- <-; repeat split.
Qed.

Lemma call_supported name b w :
  In name (methods b) -> exists b' w', call name b w = Ok (b', w').
Proof.
  intro H. destruct b; cbn [methods In] in H;
    repeat match type of H with
    | _ \/ _ => destruct H as [<- | H]
    end; try contradiction; cbn; eauto.
Qed.

(** ** Sessions *)

Lemma run_trade_inv data ops b w outs b' w' :
  run (Trade data :: ops) b w = Ok (outs, b', w') ->
  exists o b1 w1 outs',
    trade data b w = Ok (o, b1, w1)
    /\ run ops b1 w1 = Ok (outs', b', w')
    /\ outs = o :: outs'.
Proof.
  cbn [run]. unfold bind at 1.
  destruct (trade data b w) as [[[o b1] w1]|]; [|discriminate].
  unfold bind. destruct (run ops b1 w1) as [[[outs' b2] w2]|] eqn:E; [|discriminate].
  intro H. injection H as <- <- <-. now exists o, b1, w1, outs'.
Qed.

Lemma run_call_inv name ops b w outs b' w' :
  run (Call name :: ops) b w = Ok (outs, b', w') ->
  exists b1 w1,
    call name b w = Ok (b1, w1) /\ run ops b1 w1 = Ok (outs, b', w').
Proof.
  cbn [run]. unfold bind.
  destruct (call name b w) as [[b1 w1]|]; [|discriminate].
  intro H. now exists b1, w1.
Qed.

(** A relation between the instance and world before and after that is
    reflexive, transitive and holds across every single call holds across a
    whole session. *)
Lemma run_rel (R : bot * world -> bot * world -> Prop) :
  (forall x, R x x) ->
  (forall x y z, R x y -> R y z -> R x z) ->
  (forall data b w o b' w', trade data b w = Ok (o, b', w') -> R (b, w) (b', w')) ->
  (forall name b w b' w', call name b w = Ok (b', w') -> R (b, w) (b', w')) ->
  forall ops b w outs b' w',
    run ops b w = Ok (outs, b', w') -> R (b, w) (b', w').
Proof.
  intros Hrefl Htrans Htrade Hcall ops.
  induction ops as [|[data|name] ops IH]; intros b w outs b' w' H.
  - injection H as _ <- <-. apply Hrefl.
  - apply run_trade_inv in H as (o & b1 & w1 & outs' & H1 & H2 & _).
    eapply Htrans; [eapply Htrade|eapply IH]; eassumption.
  - apply run_call_inv in H as (b1 & w1 & H1 & H2).
    eapply Htrans; [eapply Hcall|eapply IH]; eassumption.
Qed.

Lemma supported_same b b' o :
  methods b' = methods b -> supported b o -> supported b' o.
Proof. intros E. destruct o; cbn; [trivial|now rewrite E]. Qed.

Lemma trade_drawdown_stop data b w d :
  drawdown b = Ok d -> drawdown_limit b < d ->
  exists r b', trade data b w = Ok (Blocked r, b', w).
Proof.
  unfold drawdown. intros Hd Hlim.
  destruct (pydiv_inv _ _ _ Hd) as [Hic _].
  apply Qltb_true in Hlim.
  destruct b; fields; unfold trade.
  - unfold Aggressive.trade.
    destruct (_ <=? _)%Z; [cbn; eauto|].
    rewrite Hd. cbn [bind]. rewrite Hlim. cbn; eauto.
  - unfold Conservative.trade.
    destruct (_ <=? _)%Z; [cbn; eauto|].
    destruct (Qleb _ _); [cbn; eauto|].
    rewrite Hd. cbn [bind]. rewrite Hlim. cbn; eauto.
  - unfold Flip.trade.
    destruct (_ <=? _)%Z; [cbn; eauto|].
    rewrite (pydiv_ok _ _ Hic). cbn [bind].
    destruct (Qleb _ _); [cbn; eauto|].
    rewrite Hd. cbn [bind]. rewrite Hlim. cbn; eauto.
Qed.

(** C1.  Once the drawdown exceeds the configured maximum, every later
    [trade] call of the session returns a Blocked outcome whatever the
    snapshot, and capital, hence the drawdown, stays where it is: no call of
    the instance's own methods clears the condition. *)
Theorem drawdown_breach_blocks_every_trade :
  forall (b : bot) (d : Q) (ops : list op) (w : world),
    drawdown b = Ok d ->
    drawdown_limit b < d ->
    Forall (supported b) ops ->
    exists outs b' w',
      run ops b w = Ok (outs, b', w')
      /\ Forall (fun o => is_blocked o = true) outs
      /\ capital b' = capital b
      /\ drawdown b' = Ok d.
Proof.
  intros b d ops. revert b.
  induction ops as [|[data|name] ops IH]; intros b w Hd Hlim Hops.
  - exists [], b, w. repeat split; trivial.
  - inversion Hops as [|? ? _ Hops']; subst.
    destruct (trade_drawdown_stop data b w d Hd Hlim) as (r & b1 & Ht).
    destruct (trade_blocked _ _ _ _ _ _ Ht) as (_ & Hc & _).
    destruct (trade_fixed _ _ _ _ _ _ Ht) as (Hi & Hl & _ & Hm & _).
    destruct (IH b1 w) as (outs & b' & w' & Hr & Hb & Hc' & Hd').
    + unfold drawdown in *. now rewrite Hi, Hc.
    + now rewrite Hl.
    + eapply Forall_impl; [|exact Hops']. intro o. now apply supported_same.
    + exists (Blocked r :: outs), b', w'. repeat split.
      * cbn [run]. rewrite Ht. cbn [bind]. rewrite Hr. reflexivity.
      * now constructor.
      * congruence.
      * exact Hd'.
  - inversion Hops as [|? ? Hn Hops']; subst.
    destruct (call_supported name b w Hn) as (b1 & w1 & Hcall).
    destruct (call_fixed _ _ _ _ _ Hcall) as (Hc & Hi & _ & _ & Hl & _ & Hm & _).
    destruct (IH b1 w1) as (outs & b' & w' & Hr & Hb & Hc' & Hd').
    + unfold drawdown in *. now rewrite Hi, Hc.
    + now rewrite Hl.
    + eapply Forall_impl; [|exact Hops']. intro o. now apply supported_same.
    + exists outs, b', w'. repeat split; trivial.
      * cbn [run]. rewrite Hcall. exact Hr.
      * congruence.
Qed.

Lemma drawdown_breach_blocks_every_trade_witness :
  exists outs b' w',
    run [Trade sample_aggressive; Call "reset_daily_stats"; Trade no_metrics]
        drawn_down_aggressive (constant_world 0 0) = Ok (outs, b', w')
    /\ Forall (fun o => is_blocked o = true) outs
    /\ capital b' = capital drawn_down_aggressive
    /\ drawdown b' = Ok ((100 - 80) / 100).
Proof.
  apply (drawdown_breach_blocks_every_trade drawn_down_aggressive).
  - reflexivity.
  - vm_compute. reflexivity.
  - repeat constructor.
Defined.

(** What a blocked call leaves behind: the instance as it was, except that
    ConservativeBot counts a rejection by its safety filters. *)
Lemma trade_blocked_state data b w r b' w' :
  trade data b w = Ok (Blocked r, b', w') ->
  b' = match r, b with
       | SignalRejected, ConservativeBot cfg s =>
           ConservativeBot cfg (Conservative.with_safety_violation s)
       | _, _ => b
       end.
Proof.
  intro H. destruct b; unfold trade in H; split_trade H;
    injection H as Ho Hb Hw; subst.
  - apply aggr_trade_blocked in Heqr0 as [-> ->]. now destruct r.
  - unfold Conservative.trade in Heqr0. split_trade Heqr0;
      injection Heqr0 as <- <- <-; reflexivity.
  - apply flip_trade_blocked in Heqr0 as [-> ->]. now destruct r.
Qed.

(** C2.  With an initial capital that is not zero, a snapshot that fails
    the signal gate gets a Blocked outcome and no random number is drawn.
    AggressiveBot and FlipBotV2 are left exactly as they were.
    ConservativeBot is left as it was when an earlier check answers (daily
    limit, target, drawdown); when its safety filters answer, it adds one to
    [safety_violations] and changes nothing else.  In every case capital,
    peak capital, the trade history, the daily trade count and every other
    integer attribute are unchanged. *)
Theorem rejected_signal_leaves_state :
  forall (b : bot) (data : snapshot) (w : world),
    ~ initial_capital b == 0 ->
    gate b data = false ->
    exists r b',
      trade data b w = Ok (Blocked r, b', w)
      /\ b' = match r, b with
              | SignalRejected, ConservativeBot cfg s =>
                  ConservativeBot cfg (Conservative.with_safety_violation s)
              | _, _ => b
              end
      /\ capital b' = capital b
      /\ peak_capital b' = peak_capital b
      /\ daily_trades b' = daily_trades b
      /\ trade_history b' = trade_history b
      /\ (forall name, name <> "safety_violations"%string ->
            getattr b' name = getattr b name).
Proof.
  intros b data w Hic Hgate.
  assert (exists r b', trade data b w = Ok (Blocked r, b', w)) as (r & b' & Ht).
  { destruct b; cbn [gate initial_capital] in *; unfold trade.
    - destruct (aggr_trade_rejected cfg data s w Hic Hgate) as (r & ->).
      cbn; eauto.
    - destruct (cons_trade_rejected cfg data s w Hic Hgate) as (r & s' & -> & _).
      cbn; eauto.
    - destruct (flip_trade_rejected cfg data s w Hic Hgate) as (r & ->).
      cbn; eauto. }
  exists r, b'. split; [exact Ht|].
  split; [exact (trade_blocked_state _ _ _ _ _ _ Ht)|].
  now destruct (trade_blocked _ _ _ _ _ _ Ht) as (_ & H).
Qed.

Lemma rejected_signal_leaves_state_witness :
  exists r b',
    trade no_metrics (FlipBotV2 Flip.default_config (Flip.init 10000))
          (constant_world 0 0)
      = Ok (Blocked r, b', constant_world 0 0)
    /\ b' = match r, FlipBotV2 Flip.default_config (Flip.init 10000) with
            | SignalRejected, ConservativeBot cfg s =>
                ConservativeBot cfg (Conservative.with_safety_violation s)
            | _, _ => FlipBotV2 Flip.default_config (Flip.init 10000)
            end
    /\ capital b' = 10000
    /\ peak_capital b' = 10000
    /\ daily_trades b' = 0%Z
    /\ trade_history b' = []
    /\ (forall name, name <> "safety_violations"%string ->
          getattr b' name =
          getattr (FlipBotV2 Flip.default_config (Flip.init 10000)) name).
Proof.
  apply (rejected_signal_leaves_state
           (FlipBotV2 Flip.default_config (Flip.init 10000))).
  - vm_compute. discriminate.
  - reflexivity.
Defined.

(** A call rejected by the gate is not always without effect: a
    ConservativeBot turned down by its safety filters has counted the
    rejection, and an instance with an initial capital of zero raises before
    it reaches the gate. *)
Lemma gate_rejection_changes_state :
  (exists b',
      gate (ConservativeBot Conservative.default_config (Conservative.init 10000))
           no_metrics = false
      /\ trade no_metrics
               (ConservativeBot Conservative.default_config (Conservative.init 10000))
               (constant_world 0 0)
         = Ok (Blocked SignalRejected, b', constant_world 0 0)
      /\ getattr (ConservativeBot Conservative.default_config
                    (Conservative.init 10000)) "safety_violations" = Ok 0%Z
      /\ getattr b' "safety_violations" = Ok 1%Z)
  /\ gate (AggressiveBot Aggressive.default_config (Aggressive.init 0))
          no_metrics = false
  /\ trade no_metrics
           (AggressiveBot Aggressive.default_config (Aggressive.init 0))
           (constant_world 0 0)
     = Raise ZeroDivisionError.
Proof.
  split; [eexists|]; vm_compute; repeat split.
Qed.

(** C6.  [peak_capital] is moved only by a winning trade, exactly when the
    new capital exceeds it and then to that capital; losses, blocked calls,
    the daily reset and the status query leave it alone.  Across a session it
    never decreases. *)
Theorem peak_capital_never_decreases :
  forall b : bot,
    (forall data w o b' w',
        trade data b w = Ok (o, b', w') ->
        peak_capital b' =
          (if is_win o && Qltb (peak_capital b) (capital b')
           then capital b' else peak_capital b)
        /\ peak_capital b <= peak_capital b')
    /\ (forall name w b' w',
          call name b w = Ok (b', w') -> peak_capital b' = peak_capital b)
    /\ (forall ops w outs b' w',
          run ops b w = Ok (outs, b', w') -> peak_capital b <= peak_capital b').
Proof.
  assert (Hstep : forall data b w o b' w',
             trade data b w = Ok (o, b', w') ->
             peak_capital b <= peak_capital b').
  { intros data b w o b' w' H. rewrite (trade_peak _ _ _ _ _ _ H).
    destruct (is_win o); cbn [andb]; [|lra].
    destruct (Qltb _ _) eqn:E; qprop; lra. }
  intro b. split; [|split].
  - intros data w o b' w' H. split; [exact (trade_peak _ _ _ _ _ _ H)|eapply Hstep; eauto].
  - intros name w b' w' H. now destruct (call_fixed _ _ _ _ _ H) as (_ & _ & -> & _).
  - intros ops w outs b' w' H.
    refine (run_rel (fun x y => peak_capital (fst x) <= peak_capital (fst y))
              _ _ _ _ ops b w outs b' w' H).
    + intro x. lra.
    + intros x y z. lra.
    + intros. cbn [fst]. eapply Hstep; eauto.
    + intros name b0 w0 b1 w1 Hc. cbn [fst].
      destruct (call_fixed _ _ _ _ _ Hc) as (_ & _ & -> & _). lra.
Qed.

Lemma peak_capital_never_decreases_witness :
  match
    run [Trade sample_aggressive; Call "reset_daily_stats"; Trade sample_aggressive]
        (AggressiveBot Aggressive.default_config (Aggressive.init 10000))
        (constant_world (1 # 2) 0)
  with
  | Ok (_, b', _) => 10000 <= peak_capital b'
  | Raise _ => False
  end.
Proof.
  destruct (run _ _ _) as [[[outs b'] w']|e] eqn:E.
  - exact (proj2 (proj2 (peak_capital_never_decreases
             (AggressiveBot Aggressive.default_config (Aggressive.init 10000))))
             _ _ _ _ _ E).
  - vm_compute in E. discriminate E.
Defined.

(** C7, as the code has it.  A blocked call draws nothing.  A winning trade
    draws twice: the branch draw and the profit percentage.  A losing trade
    draws twice in FlipBotV2 (its loss percentage is sampled) and once in
    AggressiveBot and ConservativeBot, whose loss percentage is the
    configured stop loss scaled by the regime table.  The generator itself is
    not replaced. *)
Theorem random_draws_per_trade :
  forall (data : snapshot) (b : bot) (w : world) o b' w',
    trade data b w = Ok (o, b', w') ->
    rng_used w' = (rng_used w + draws b o)%nat /\ rng w' = rng w.
Proof.
  intros data b w o b' w' H. split.
  - exact (trade_draws _ _ _ _ _ _ H).
  - now destruct (trade_fixed _ _ _ _ _ _ H) as (_ & _ & _ & _ & _ & _ & _ & _ & ->).
Qed.

Lemma random_draws_per_trade_witness :
  match
    trade sample_flip (FlipBotV2 Flip.default_config (Flip.init 10000))
          (constant_world (99 # 100) 0)
  with
  | Ok (o, b', w') =>
      rng_used w' = (0 + draws (FlipBotV2 Flip.default_config (Flip.init 10000)) o)%nat
      /\ rng w' = (fun _ => 99 # 100)
  | Raise _ => False
  end.
Proof.
  destruct (trade _ _ _) as [[[o b'] w']|e] eqn:E.
  - exact (random_draws_per_trade _ _ _ _ _ _ E).
  - vm_compute in E. discriminate E.
Defined.

(** C7 as stated fails: a losing AggressiveBot trade, and a losing
    ConservativeBot trade, is not blocked and consumes one draw, not two. *)
Lemma loss_without_payoff_draw :
  match
    trade sample_aggressive
          (AggressiveBot Aggressive.default_config (Aggressive.init 10000))
          (constant_world (99 # 100) 0)
  with
  | Ok (o, _, w') =>
      is_loss o = true /\ rng_used w' = 1%nat /\ rng_used w' <> (0 + 2)%nat
  | Raise _ => False
  end
  /\
  match
    trade sample_conservative
          (ConservativeBot Conservative.default_config (Conservative.init 10000))
          (constant_world (99 # 100) 0)
  with
  | Ok (o, _, w') =>
      is_loss o = true /\ rng_used w' = 1%nat /\ rng_used w' <> (0 + 2)%nat
  | Raise _ => False
  end.
Proof.
  vm_compute. repeat split; discriminate.
Qed.

(** ** Daily limit *)

Lemma run_trades_daily snaps :
  forall b w outs b' w',
    run (map Trade snaps) b w = Ok (outs, b', w') ->
    daily_trades b' = (daily_trades b + Z.of_nat (executed outs))%Z
    /\ max_daily_trades b' = max_daily_trades b.
Proof.
  induction snaps as [|data snaps IH]; intros b w outs b' w' H.
  - injection H as <- <- <-. cbn. split; [lia|reflexivity].
  - cbn [map] in H.
    apply run_trade_inv in H as (o & b1 & w1 & outs' & H1 & H2 & ->).
    destruct (IH _ _ _ _ _ H2) as [IH1 IH2].
    destruct (trade_daily _ _ _ _ _ _ H1) as [Hd _].
    destruct (trade_fixed _ _ _ _ _ _ H1) as (_ & _ & Hm & _).
    split; [|congruence].
    rewrite IH1, Hd. unfold executed. cbn [filter].
    destruct (is_blocked o); cbn [negb List.length]; lia.
Qed.

Lemma trade_daily_limit_inv data b w o b' w' :
  trade data b w = Ok (o, b', w') ->
  o = Blocked DailyLimit -> (max_daily_trades b <= daily_trades b)%Z.
Proof.
  intros H Ho. trade_cases H; qprop; try discriminate Ho; assumption.
Qed.

Lemma flip_call_inert cfg s name w b' w' :
  call name (FlipBotV2 cfg s) w = Ok (b', w') -> b' = FlipBotV2 cfg s.
Proof.
  unfold call. destruct (String.eqb name "get_status"); [|discriminate].
  intro H. now injection H as <- _.
Qed.

(** C4, as the code has it.  Every trade that is not blocked adds exactly
    one to [daily_trades]; after [max_daily_trades] of them in a period that
    started at zero the next call is blocked for the daily limit whatever the
    snapshot.  AggressiveBot ([reset_daily_stats]) and ConservativeBot
    ([end_of_day_summary]) set [daily_trades] back to 0 without touching
    capital or the trade history, after which the daily limit no longer
    blocks.  FlipBotV2 has no such method: its only other method changes
    nothing. *)
Theorem daily_limit_and_reset :
  (forall data b w o b' w',
      trade data b w = Ok (o, b', w') ->
      daily_trades b' = (daily_trades b + (if is_blocked o then 0 else 1))%Z)
  /\ (forall b snaps w outs b' w',
        daily_trades b = 0%Z ->
        run (map Trade snaps) b w = Ok (outs, b', w') ->
        Z.of_nat (executed outs) = max_daily_trades b ->
        forall data, trade data b' w' = Ok (Blocked DailyLimit, b', w'))
  /\ (forall b name w,
        In name ["reset_daily_stats"; "end_of_day_summary"]%string ->
        In name (methods b) ->
        exists b' w',
          call name b w = Ok (b', w')
          /\ daily_trades b' = 0%Z
          /\ capital b' = capital b
          /\ trade_history b' = trade_history b
          /\ ((0 < max_daily_trades b)%Z ->
              forall data w1 o b2 w2,
                trade data b' w1 = Ok (o, b2, w2) -> o <> Blocked DailyLimit))
  /\ (forall cfg s name w b' w',
        call name (FlipBotV2 cfg s) w = Ok (b', w') -> b' = FlipBotV2 cfg s).
Proof.
  split; [|split; [|split]].
  - intros data b w o b' w' H. now destruct (trade_daily _ _ _ _ _ _ H).
  - intros b snaps w outs b' w' H0 Hrun Hcount data.
    destruct (run_trades_daily _ _ _ _ _ _ Hrun) as [Hd Hm].
    apply trade_daily_limit. rewrite Hd, Hm, H0, Hcount. lia.
  - intros b name w Hname Hmeth.
    destruct (call_supported name b w Hmeth) as (b' & w' & Hcall).
    exists b', w'. split; [exact Hcall|].
    destruct (call_fixed _ _ _ _ _ Hcall) as (Hc & _ & _ & Hh & _ & Hm & _).
    assert (Hz : daily_trades b' = 0%Z).
    { destruct b; cbn [methods In] in Hmeth;
        repeat (destruct Hmeth as [<- | Hmeth]); try contradiction;
        try (exfalso; cbn in Hname; intuition discriminate);
        cbn in Hcall; injection Hcall as <- _; reflexivity. }
    repeat split; trivial.
    intros Hpos data w1 o b2 w2 Ht Ho.
    pose proof (trade_daily_limit_inv _ _ _ _ _ _ Ht Ho). lia.
  - intros cfg s name w b' w' H. eapply flip_call_inert; eassumption.
Qed.

Lemma daily_limit_and_reset_witness :
  match run (map Trade [sample_flip]) one_trade_flip (constant_world 0 0) with
  | Ok (_, b', w') => trade no_metrics b' w' = Ok (Blocked DailyLimit, b', w')
  | Raise _ => False
  end.
Proof.
  destruct (run _ _ _) as [[[outs b'] w']|e] eqn:E.
  - refine (proj1 (proj2 daily_limit_and_reset)
              one_trade_flip [sample_flip] _ outs b' w' eq_refl E _ no_metrics).
    vm_compute in E. injection E as <- _ _. reflexivity.
  - vm_compute in E. discriminate E.
Defined.

(** C4 as stated fails for the flip profile: a FlipBotV2 at its limit is
    blocked, and no method it has sets [daily_trades] back to 0; the three
    reset names raise AttributeError. *)
Lemma flip_has_no_daily_reset :
  trade sample_flip flip_at_limit (constant_world 0 0)
    = Ok (Blocked DailyLimit, flip_at_limit, constant_world 0 0)
  /\ call "reset_daily_counters" flip_at_limit (constant_world 0 0)
       = Raise AttributeError
  /\ call "reset_daily_stats" flip_at_limit (constant_world 0 0)
       = Raise AttributeError
  /\ call "end_of_day_summary" flip_at_limit (constant_world 0 0)
       = Raise AttributeError
  /\ ~ (exists name b' w',
          call name flip_at_limit (constant_world 0 0) = Ok (b', w')
          /\ daily_trades b' = 0%Z).
Proof.
  repeat split; try reflexivity.
  intros (name & b' & w' & Hcall & Hz).
  apply flip_call_inert in Hcall. subst b'. discriminate Hz.
Qed.

(** ** Streaks *)

Lemma streaks_aggressive cfg s :
  streaks (AggressiveBot cfg s)
  = Ok (Aggressive.consecutive_wins s, Aggressive.consecutive_losses s).
Proof. reflexivity. Qed.

Lemma streaks_flip cfg s :
  streaks (FlipBotV2 cfg s) = Ok (Flip.current_streak s, Flip.consecutive_losses s).
Proof. reflexivity. Qed.

Lemma streaks_conservative cfg s :
  streaks (ConservativeBot cfg s) = Raise AttributeError.
Proof. reflexivity. Qed.

Ltac streak_forms :=
  repeat match goal with
  | H : context [streaks (AggressiveBot _ _)] |- _ => rewrite streaks_aggressive in H
  | H : context [streaks (FlipBotV2 _ _)] |- _ => rewrite streaks_flip in H
  | H : context [streaks (ConservativeBot _ _)] |- _ => rewrite streaks_conservative in H
  | |- context [streaks (AggressiveBot _ _)] => rewrite streaks_aggressive
  | |- context [streaks (FlipBotV2 _ _)] => rewrite streaks_flip
  end; fields.

Lemma trade_streaks data b w o b' w' wi lo :
  streaks b = Ok (wi, lo) ->
  trade data b w = Ok (o, b', w') ->
  streaks b' =
    Ok (match o with
        | Win _ _ _ => ((wi + 1)%Z, 0%Z)
        | Loss _ _ _ => (0%Z, (lo + 1)%Z)
        | Blocked _ => (wi, lo)
        end).
Proof.
  intros Hs H. trade_cases H; streak_forms; try discriminate Hs;
    injection Hs as <- <-; reflexivity.
Qed.

Lemma call_streaks name b w b' w' :
  call name b w = Ok (b', w') -> streaks b' = streaks b.
Proof.
  intro H. destruct b; unfold call in H;
    repeat match type of H with
    | (if ?c then _ else _) = _ => destruct c
    end;
    try discriminate H; injection H as <- <-; reflexivity.
Qed.

Lemma streaks_constructed c b :
  constructed c b -> forall wi lo, streaks b = Ok (wi, lo) -> wi = 0%Z \/ lo = 0%Z.
Proof.
  intros [cfg|cfg|cfg] wi lo H; cbn in H; try discriminate H;
    injection H as <- <-; now left.
Qed.

(** C5, as the code has it.  AggressiveBot ([consecutive_wins]) and FlipBotV2
    ([current_streak]) keep a win counter and a loss counter: a WIN adds one
    to the first and zeroes the second, a LOSS zeroes the first and adds one
    to the second, a blocked call keeps both, and in every state a session
    reaches from a new instance at most one of them is nonzero.
    ConservativeBot has neither attribute. *)
Theorem streak_counters_exclusive :
  (forall c b0 ops w outs b w',
      constructed c b0 ->
      run ops b0 w = Ok (outs, b, w') ->
      forall wi lo, streaks b = Ok (wi, lo) -> wi = 0%Z \/ lo = 0%Z)
  /\ (forall data b w o b' w' wi lo,
        streaks b = Ok (wi, lo) ->
        trade data b w = Ok (o, b', w') ->
        streaks b' =
          Ok (match o with
              | Win _ _ _ => ((wi + 1)%Z, 0%Z)
              | Loss _ _ _ => (0%Z, (lo + 1)%Z)
              | Blocked _ => (wi, lo)
              end))
  /\ (forall cfg s,
        streaks (AggressiveBot cfg s)
        = Ok (Aggressive.consecutive_wins s, Aggressive.consecutive_losses s))
  /\ (forall cfg s,
        streaks (FlipBotV2 cfg s)
        = Ok (Flip.current_streak s, Flip.consecutive_losses s))
  /\ (forall cfg s, streaks (ConservativeBot cfg s) = Raise AttributeError).
Proof.
  split; [|split; [|repeat split]].
  - intros c b0 ops w outs b w' Hnew Hrun.
    refine (run_rel
              (fun x y =>
                 (forall wi lo, streaks (fst x) = Ok (wi, lo) -> wi = 0%Z \/ lo = 0%Z) ->
                 forall wi lo, streaks (fst y) = Ok (wi, lo) -> wi = 0%Z \/ lo = 0%Z)
              _ _ _ _ ops b0 w outs b w' Hrun _).
    + auto.
    + auto.
    + cbn [fst]. intros data b1 w1 o b2 w2 Ht P wi lo Hs.
      destruct (streaks b1) as [[wi1 lo1]|e] eqn:E.
      * rewrite (trade_streaks _ _ _ _ _ _ _ _ E Ht) in Hs.
        specialize (P _ _ eq_refl).
        destruct o; injection Hs as <- <-; auto.
      * exfalso. clear P. trade_cases Ht; streak_forms; discriminate.
    + cbn [fst]. intros name b1 w1 b2 w2 Hc P wi lo Hs.
      rewrite (call_streaks _ _ _ _ _ Hc) in Hs. eauto.
    + cbn [fst]. now apply (streaks_constructed c).
  - intros data b w o b' w' wi lo Hs Ht. eapply trade_streaks; eassumption.
Qed.

Lemma streak_counters_exclusive_witness :
  match
    trade sample_aggressive
          (AggressiveBot Aggressive.default_config (Aggressive.init 10000))
          (constant_world 0 0)
  with
  | Ok (o, b', _) =>
      streaks b' =
        Ok (match o with
            | Win _ _ _ => ((0 + 1)%Z, 0%Z)
            | Loss _ _ _ => (0%Z, (0 + 1)%Z)
            | Blocked _ => (0%Z, 0%Z)
            end)
  | Raise _ => False
  end.
Proof.
  destruct (trade _ _ _) as [[[o b'] w']|e] eqn:E.
  - exact (proj1 (proj2 streak_counters_exclusive) sample_aggressive
             (AggressiveBot Aggressive.default_config (Aggressive.init 10000))
             (constant_world 0 0) o b' w' 0%Z 0%Z eq_refl E).
  - vm_compute in E. discriminate E.
Defined.

(** C5 as stated fails for the conservative profile: after a winning
    ConservativeBot trade there is no win counter that was incremented and
    no loss counter that was reset. *)
Lemma conservative_has_no_streak_counters :
  match
    trade sample_conservative
          (ConservativeBot Conservative.default_config (Conservative.init 10000))
          (constant_world 0 0)
  with
  | Ok (o, b', _) =>
      is_win o = true
      /\ getattr b' (win_streak_attr b') = Raise AttributeError
      /\ getattr b' "consecutive_wins" = Raise AttributeError
      /\ getattr b' "consecutive_losses" = Raise AttributeError
  | Raise _ => False
  end.
Proof.
  vm_compute. repeat split.
Qed.

(** ** Position sizing *)

(** The last two assignments of every [calculate_position_size]:
    [min] against the upper bound, then [max] against the lower one. *)
Lemma clamp_bounds (x lo hi : Q) :
  lo <= hi -> lo <= pymax (pymin x hi) lo /\ pymax (pymin x hi) lo <= hi.
Proof.
  intro H. split.
  - apply pymax_ge_r.
  - apply pymax_lub; [apply pymin_le_r|exact H].
Qed.

Lemma sizing_bounds b data sz :
  0 <= capital b ->
  calculate_position_size b data = Ok sz ->
  min_pct b * capital b <= sz /\ sz <= max_pct b * capital b.
Proof.
  intros Hc H. destruct b; cbn [capital min_pct max_pct] in *;
    unfold calculate_position_size in H.
  - unfold Aggressive.calculate_position_size, bind in H.
    destruct (Aggressive.unbounded_size cfg data s) as [x|]; [|discriminate].
    injection H as <-. cbn [fst].
    destruct (clamp_bounds x (Aggressive.capital s * (2 # 100))
                (Aggressive.capital s * (20 # 100))); [lra|]. lra.
  - unfold Conservative.calculate_position_size, bind in H.
    destruct (pydiv _ _) as [dd|]; [|discriminate].
    injection H as <-.
    match goal with
    | |- _ <= pymax (pymin ?x _) _ /\ _ =>
        destruct (clamp_bounds x (Conservative.capital s * (3 # 1000))
                    (Conservative.capital s * (2 # 100))); [lra|]
    end. lra.
  - unfold Flip.calculate_position_size, bind in H.
    destruct (pydiv _ _) as [cr|]; [|discriminate].
    injection H as <-.
    match goal with
    | |- _ <= pymax (pymin ?x _) _ /\ _ =>
        destruct (clamp_bounds x (Flip.capital s * (2 # 100))
                    (Flip.capital s * Flip.max_position_size));
          unfold Flip.max_position_size in *; [lra|]
    end. lra.
Qed.

Lemma trade_size data b w o b' w' sz :
  trade data b w = Ok (o, b', w') ->
  outcome_size o = Some sz ->
  calculate_position_size b data = Ok sz.
Proof.
  intros H Ho. trade_cases H; try discriminate Ho; injection Ho as <-;
    unfold calculate_position_size;
    match goal with
    | S : _ = Ok _ |- context [Aggressive.calculate_position_size ?c ?d ?s] =>
        match type of S with
        | Aggressive.calculate_position_size c d s = _ => rewrite S
        end
    | S : _ = Ok _ |- Conservative.calculate_position_size ?c ?d ?s = _ => exact S
    | S : _ = Ok _ |- Flip.calculate_position_size ?c ?d ?s = _ => exact S
    end; reflexivity.
Qed.

(** The lower bound is the last assignment and holds whatever the capital. *)
Lemma sizing_lower_bound b data sz :
  calculate_position_size b data = Ok sz -> min_pct b * capital b <= sz.
Proof.
  intro H. destruct b; cbn [capital min_pct] in *;
    unfold calculate_position_size in H.
  - unfold Aggressive.calculate_position_size, bind in H.
    destruct (Aggressive.unbounded_size cfg data s) as [x|]; [|discriminate].
    injection H as <-. cbn [fst].
    match goal with
    | |- _ <= pymax ?a ?b => pose proof (pymax_ge_r a b)
    end. lra.
  - unfold Conservative.calculate_position_size, bind in H.
    destruct (pydiv _ _) as [dd|]; [|discriminate].
    injection H as <-.
    match goal with
    | |- _ <= pymax ?a ?b => pose proof (pymax_ge_r a b)
    end. lra.
  - unfold Flip.calculate_position_size, bind in H.
    destruct (pydiv _ _) as [cr|]; [|discriminate].
    injection H as <-.
    match goal with
    | |- _ <= pymax ?a ?b => pose proof (pymax_ge_r a b)
    end. lra.
Qed.

Lemma pct_gap b : min_pct b < max_pct b.
Proof. destruct b; cbn [min_pct max_pct]; unfold Flip.max_position_size; lra. Qed.

(** C3.  The notional of every accepted trade is the value
    [calculate_position_size] returns.  It is never below the profile's
    minimum fraction of current capital (2% aggressive, 0.3% conservative,
    2% flip).  While capital is not negative it is at most the maximum
    fraction (20%, 2%, 35%); once capital is negative the two bounds cross
    and the notional is above the maximum fraction of capital. *)
Theorem accepted_notional_within_bounds :
  forall (b : bot) (data : snapshot) (w : world) o b' w' (sz : Q),
    trade data b w = Ok (o, b', w') ->
    outcome_size o = Some sz ->
    calculate_position_size b data = Ok sz
    /\ min_pct b * capital b <= sz
    /\ (0 <= capital b -> sz <= max_pct b * capital b)
    /\ (capital b < 0 -> max_pct b * capital b < sz).
Proof.
  intros b data w o b' w' sz Ht Ho.
  pose proof (trade_size _ _ _ _ _ _ _ Ht Ho) as Hs.
  pose proof (sizing_lower_bound _ _ _ Hs) as Hl.
  split; [exact Hs|]. split; [exact Hl|]. split.
  - intro Hc. now apply (sizing_bounds b data sz Hc Hs).
  - intro Hc. pose proof (pct_gap b). nra.
Qed.

Lemma accepted_notional_within_bounds_witness :
  match
    trade sample_conservative
          (ConservativeBot Conservative.default_config (Conservative.init 10000))
          (constant_world 0 0)
  with
  | Ok (o, _, _) =>
      match outcome_size o with
      | Some sz => (3 # 1000) * 10000 <= sz /\ sz <= (2 # 100) * 10000
      | None => False
      end
  | Raise _ => False
  end.
Proof.
  destruct (trade _ _ _) as [[[o b'] w']|e] eqn:E.
  - destruct (outcome_size o) as [sz|] eqn:Ho.
    + destruct (accepted_notional_within_bounds
                  (ConservativeBot Conservative.default_config
                     (Conservative.init 10000))
                  sample_conservative (constant_world 0 0) o b' w' sz E Ho)
        as (_ & Hl & Hu & _).
      split; [exact Hl|]. apply Hu. vm_compute. discriminate.
    + vm_compute in E. injection E as <- _ _. discriminate Ho.
  - vm_compute in E. discriminate E.
Defined.

(** The upper bound does fail in a state a session reaches.  A
    ConservativeBot built with capital 10000, configured to accept any
    confidence and any drawdown, wins a trade on a snapshot with a hugely
    negative confidence; the profit is negative and capital ends below zero.
    The next accepted trade is sized at 0.3% of that capital, which is above
    2% of it. *)
Lemma notional_above_bound_at_negative_capital :
  match
    trade negative_confidence
          (ConservativeBot permissive_conservative (Conservative.init 10000))
          (constant_world 0 0)
  with
  | Ok (o1, b1, w1) =>
      is_win o1 = true /\ capital b1 < 0
      /\ match trade sample_conservative b1 w1 with
         | Ok (o2, _, _) =>
             match outcome_size o2 with
             | Some sz => ~ sz <= max_pct b1 * capital b1
             | None => False
             end
         | Raise _ => False
         end
  | Raise _ => False
  end.
Proof.
  vm_compute. split; [reflexivity|]. split; [reflexivity|].
  intro H. apply H. reflexivity.
Qed.

(** ** Momentum in position sizing *)

Lemma aggr_momentum_linear cfg s data m1 m2 x1 x2 :
  Aggressive.unbounded_size cfg (set_momentum data m1) s = Ok x1 ->
  Aggressive.unbounded_size cfg (set_momentum data m2) s = Ok x2 ->
  x1 * ((8 # 10) + Qabs (get m2 (1 # 2)) * (4 # 10))
  == x2 * ((8 # 10) + Qabs (get m1 (1 # 2)) * (4 # 10)).
Proof.
  unfold Aggressive.unbounded_size, Aggressive.momentum_mult, bind.
  cbn [set_momentum momentum position_size ai_confidence volatility regime].
  destruct (pydiv _ _) as [dd|]; [|discriminate].
  intros H1 H2. injection H1 as <-. injection H2 as <-. ring.
Qed.

(** C8, as the code has it.  AggressiveBot multiplies its size by
    [0.8 + 0.4 * |momentum|] before the final bounds are applied: sizes
    computed for snapshots that differ only in momentum are in the ratio of
    these factors.  FlipBotV2's [calculate_position_size] does not read
    momentum: such snapshots get the same size. *)
Theorem momentum_multiplier :
  (forall data,
      Aggressive.momentum_mult data
      = (8 # 10) + Qabs (get (momentum data) (1 # 2)) * (4 # 10))
  /\ (forall cfg s data m1 m2 x1 x2,
        Aggressive.unbounded_size cfg (set_momentum data m1) s = Ok x1 ->
        Aggressive.unbounded_size cfg (set_momentum data m2) s = Ok x2 ->
        x1 * Aggressive.momentum_mult (set_momentum data m2)
        == x2 * Aggressive.momentum_mult (set_momentum data m1))
  /\ (forall cfg s data m1 m2,
        calculate_position_size (FlipBotV2 cfg s) (set_momentum data m1)
        = calculate_position_size (FlipBotV2 cfg s) (set_momentum data m2)).
Proof.
  split; [reflexivity|split].
  - intros cfg s data m1 m2 x1 x2 H1 H2.
    exact (aggr_momentum_linear cfg s data m1 m2 x1 x2 H1 H2).
  - reflexivity.
Qed.

Lemma momentum_multiplier_witness :
  match
    Aggressive.unbounded_size Aggressive.default_config
      (set_momentum sample_aggressive (Some (7 # 10))) (Aggressive.init 10000),
    Aggressive.unbounded_size Aggressive.default_config
      (set_momentum sample_aggressive (Some (- (1)))) (Aggressive.init 10000)
  with
  | Ok x1, Ok x2 =>
      x1 * Aggressive.momentum_mult (set_momentum sample_aggressive (Some (- (1))))
      == x2 * Aggressive.momentum_mult (set_momentum sample_aggressive (Some (7 # 10)))
  | _, _ => False
  end.
Proof.
  destruct (Aggressive.unbounded_size _ (set_momentum _ (Some (7 # 10))) _)
    as [x1|e1] eqn:E1.
  - destruct (Aggressive.unbounded_size _ (set_momentum _ (Some (- (1)))) _)
      as [x2|e2] eqn:E2.
    + exact (proj1 (proj2 momentum_multiplier) _ _ _ _ _ _ _ E1 E2).
    + vm_compute in E2. discriminate E2.
  - vm_compute in E1. discriminate E1.
Defined.

(** C8 as stated fails for the flip profile: two accepted snapshots that
    differ only in momentum get the same, nonzero, size from FlipBotV2,
    although the linear momentum factor differs between them. *)
Lemma flip_size_ignores_momentum :
  gate (FlipBotV2 Flip.default_config (Flip.init 10000)) sample_flip = true
  /\ gate (FlipBotV2 Flip.default_config (Flip.init 10000))
          (set_momentum sample_flip (Some (9 # 10))) = true
  /\ calculate_position_size (FlipBotV2 Flip.default_config (Flip.init 10000))
       sample_flip
     = calculate_position_size (FlipBotV2 Flip.default_config (Flip.init 10000))
         (set_momentum sample_flip (Some (9 # 10)))
  /\ match calculate_position_size
             (FlipBotV2 Flip.default_config (Flip.init 10000)) sample_flip with
     | Ok sz => 0 < sz
     | Raise _ => False
     end
  /\ ~ Aggressive.momentum_mult sample_flip
       == Aggressive.momentum_mult (set_momentum sample_flip (Some (9 # 10))).
Proof.
  repeat split; vm_compute; discriminate.
Qed.

(** ** Capital stays positive *)

Lemma andb_all_true (l : list bool) : all l = true -> Forall (fun b => b = true) l.
Proof.
  unfold all. induction l as [|b l IH]; cbn [forallb]; intro H; constructor;
    apply andb_true_iff in H as [H1 H2]; auto.
Qed.

Lemma aggr_signal_confidence data :
  Aggressive.signal_ok data = true -> 6 # 10 < get (ai_confidence data) (1 # 2).
Proof.
  unfold Aggressive.signal_ok.
  repeat match goal with
  | |- context [if ?c then _ else _] => destruct c
  end; try discriminate; intro H; apply andb_all_true in H;
    repeat match goal with
    | H : Forall _ (_ :: _) |- _ => inversion H; subst; clear H
    end; qprop; assumption.
Qed.

Lemma flip_signal_confidence data :
  Flip.check_signal data = true -> 6 # 10 < get (ai_confidence data) (1 # 2).
Proof.
  unfold Flip.check_signal. intro H.
  repeat (apply andb_true_iff in H as [H ?]). qprop. assumption.
Qed.

Lemma gain_nonneg (sz c lo p : Q) :
  0 < c -> 0 <= lo -> lo * c <= sz -> 0 <= p -> 0 <= sz * p.
Proof. intros. apply Qmult_le_0_compat; [nra|assumption]. Qed.

Lemma loss_bounded (sz c lo hi p cap : Q) :
  0 < c -> 0 <= lo -> lo * c <= sz -> sz <= hi * c -> p <= cap -> 0 <= cap ->
  sz * p <= hi * cap * c.
Proof.
  intros Hc Hlo H1 H2 Hp Hcap.
  assert (0 <= sz) by nra.
  assert (sz * p <= sz * cap) by nra.
  assert (sz * cap <= hi * c * cap) by nra.
  lra.
Qed.

(** Every entry of the regime tables, and their defaults, is positive or
    zero. *)
Ltac table_nonneg :=
  first [ apply dict_get_ind; [repeat constructor; cbn [snd]; lra | lra]
        | repeat match goal with
                 | |- context [if ?c then _ else _] => destruct c
                 end; lra ].

Ltac product_nonneg :=
  repeat (apply Qmult_le_0_compat); try lra; try table_nonneg.

Lemma aggr_sizing_bounds cfg data s q s1 :
  0 <= Aggressive.capital s ->
  Aggressive.calculate_position_size cfg data s = Ok (q, s1) ->
  (2 # 100) * Aggressive.capital s <= q /\ q <= (20 # 100) * Aggressive.capital s.
Proof.
  intros Hc H.
  apply (sizing_bounds (AggressiveBot cfg s) data q Hc).
  unfold calculate_position_size. now rewrite H.
Qed.

Lemma pydiv_raise (a b : Q) (e : exn) : pydiv a b = Raise e -> b == 0.
Proof.
  unfold pydiv. destruct (Qeq_bool b 0) eqn:E; [|discriminate].
  intros _. now apply Qeq_bool_iff.
Qed.

Lemma sizing_total b data :
  ~ initial_capital b == 0 -> exists sz, calculate_position_size b data = Ok sz.
Proof.
  intro H. destruct b; cbn [initial_capital] in H; unfold calculate_position_size.
  - unfold Aggressive.calculate_position_size, Aggressive.unbounded_size.
    rewrite (pydiv_ok _ _ H). cbn [bind fst]. eauto.
  - unfold Conservative.calculate_position_size.
    rewrite (pydiv_ok _ _ H). cbn [bind]. eauto.
  - unfold Flip.calculate_position_size.
    rewrite (pydiv_ok _ _ H). cbn [bind]. eauto.
Qed.

(** No [trade] fails on the drawdown, return or sizing divisions when the
    initial capital is positive. *)
Ltac no_raise :=
  match goal with
  | Hic : 0 < ?ic, H : pydiv _ ?ic = Raise _ |- _ =>
      apply pydiv_raise in H; lra
  | H : pydiv _ Flip.daily_target = Raise _ |- _ =>
      apply pydiv_raise in H; vm_compute in H; discriminate H
  | Hic : 0 < Aggressive.initial_capital ?s,
    H : Aggressive.calculate_position_size ?cfg ?data ?s = Raise _ |- _ =>
      destruct (sizing_total (AggressiveBot cfg s) data) as [? Hs];
      [cbn [initial_capital]; lra|];
      unfold calculate_position_size in Hs; rewrite H in Hs; discriminate Hs
  | Hic : 0 < Conservative.initial_capital ?s,
    H : Conservative.calculate_position_size ?cfg ?data ?s = Raise _ |- _ =>
      destruct (sizing_total (ConservativeBot cfg s) data) as [? Hs];
      [cbn [initial_capital]; lra|];
      unfold calculate_position_size in Hs; rewrite H in Hs; discriminate Hs
  | Hic : 0 < Flip.initial_capital ?s,
    H : Flip.calculate_position_size ?cfg ?data ?s = Raise _ |- _ =>
      destruct (sizing_total (FlipBotV2 cfg s) data) as [? Hs];
      [cbn [initial_capital]; lra|];
      unfold calculate_position_size in Hs; rewrite H in Hs; discriminate Hs
  end.

(** The size and the pieces of the percentage of an accepted trade. *)
Ltac payoff_facts Hu :=
  repeat match goal with
  | H : negb _ = false |- _ => apply negb_false_iff in H
  end;
  try match goal with
  | H : Aggressive.signal_ok _ = true |- _ =>
      pose proof (aggr_signal_confidence _ H)
  end;
  try match goal with
  | H : Flip.check_signal _ = true |- _ =>
      pose proof (flip_signal_confidence _ H)
  end;
  match goal with
  | w : world |- _ =>
      pose proof (Hu (rng_used w)); pose proof (Hu (S (rng_used w)))
  end;
  try match goal with
  | |- context [Qabs ?m] => pose proof (Qabs_nonneg m)
  end.

Lemma aggr_trade_healthy cfg data s w :
  0 < Aggressive.initial_capital s ->
  0 < Aggressive.capital s ->
  (0 <= Aggressive.consecutive_wins s)%Z ->
  unit_interval w ->
  exists o s' w',
    Aggressive.trade cfg data s w = Ok (o, s', w')
    /\ Aggressive.initial_capital s' = Aggressive.initial_capital s
    /\ (1 - (20 # 100) * (6 # 100)) * Aggressive.capital s <= Aggressive.capital s'
    /\ (0 <= Aggressive.consecutive_wins s')%Z.
Proof.
  intros Hic Hc Hw Hu.
  pose proof (inject_Z_nonneg _ Hw) as Hw'.
  destruct (Aggressive.trade cfg data s w) as [[[o s'] w']|e] eqn:E.
  - exists o, s', w'. split; [reflexivity|].
    unfold Aggressive.trade in E. split_trade E; injection E as <- <- <-;
      try (repeat split; trivial; lra);
      pose proof (aggr_sizing_state _ _ _ _ _ Heqr0); subst s0; fields;
      destruct (aggr_sizing_bounds _ _ _ _ _ (Qlt_le_weak _ _ Hc) Heqr0);
      payoff_facts Hu; (split; [reflexivity|split; [|lia]]).
    + match goal with
      | |- context [q * pymin ?cap ?p] =>
          assert (0 <= pymin cap p) by (apply pymin_glb; [lra|product_nonneg])
      end.
      match goal with
      | |- context [q * ?p] =>
          pose proof (gain_nonneg q (Aggressive.capital s) (2 # 100) p)
      end. lra.
    + match goal with
      | |- context [q * pymin ?cap ?p] =>
          pose proof (pymin_le_l cap p);
          pose proof (loss_bounded q (Aggressive.capital s) (2 # 100) (20 # 100)
                        (pymin cap p) cap)
      end. lra.
  - exfalso. unfold Aggressive.trade in E. split_trade E; no_raise.
Qed.

Lemma flip_sizing_bounds cfg data s q :
  0 <= Flip.capital s ->
  Flip.calculate_position_size cfg data s = Ok q ->
  (2 # 100) * Flip.capital s <= q /\ q <= (35 # 100) * Flip.capital s.
Proof.
  intros Hc H. exact (sizing_bounds (FlipBotV2 cfg s) data q Hc H).
Qed.

Lemma cons_sizing_bounds cfg data s q :
  0 <= Conservative.capital s ->
  Conservative.calculate_position_size cfg data s = Ok q ->
  (3 # 1000) * Conservative.capital s <= q /\ q <= (2 # 100) * Conservative.capital s.
Proof.
  intros Hc H. exact (sizing_bounds (ConservativeBot cfg s) data q Hc H).
Qed.

(** With the size [q] of an accepted trade between [lo] and [hi] times
    capital [c]: a loss takes [q] times a percentage that is at most the
    cap, a win adds [q] times a percentage that is not negative. *)
Ltac payoff_with cap p q c lo hi :=
  pose proof (pymin_le_l cap p);
  pose proof (loss_bounded q c lo hi (pymin cap p) cap);
  try (assert (0 <= pymin cap p) by (apply pymin_glb; [lra|product_nonneg]);
       pose proof (gain_nonneg q c lo (pymin cap p))).

Ltac payoff q c lo hi :=
  match goal with
  | |- context [q * pymin ?cap ?p] => payoff_with cap p q c lo hi
  | H : context [q * pymin ?cap ?p] |- _ => payoff_with cap p q c lo hi
  end.

Lemma flip_trade_healthy cfg data s w :
  0 < Flip.initial_capital s ->
  0 < Flip.capital s ->
  unit_interval w ->
  exists o s' w',
    Flip.trade cfg data s w = Ok (o, s', w')
    /\ Flip.initial_capital s' = Flip.initial_capital s
    /\ (1 - (35 # 100) * (4 # 100)) * Flip.capital s <= Flip.capital s'.
Proof.
  intros Hic Hc Hu.
  destruct (Flip.trade cfg data s w) as [[[o s'] w']|e] eqn:E.
  - exists o, s', w'. split; [reflexivity|].
    unfold Flip.trade in E. split_trade E; injection E as <- <- <-;
      try (repeat split; trivial; lra);
      fields;
      payoff_facts Hu;
      match goal with
      | S : Flip.calculate_position_size _ _ _ = Ok ?q |- _ =>
          destruct (flip_sizing_bounds _ _ _ _ (Qlt_le_weak _ _ Hc) S);
          payoff q (Flip.capital s) (2 # 100) (35 # 100)
      end;
      (split; [reflexivity|lra]).
  - exfalso. unfold Flip.trade in E. split_trade E; no_raise.
Qed.

Lemma cons_trade_healthy cfg data s w :
  0 < Conservative.initial_capital s ->
  0 < Conservative.capital s ->
  unit_interval w ->
  0 <= get (ai_confidence data) (1 # 2) ->
  exists o s' w',
    Conservative.trade cfg data s w = Ok (o, s', w')
    /\ Conservative.initial_capital s' = Conservative.initial_capital s
    /\ (1 - (2 # 100) * (8 # 1000)) * Conservative.capital s
       <= Conservative.capital s'.
Proof.
  intros Hic Hc Hu Hconf.
  destruct (Conservative.trade cfg data s w) as [[[o s'] w']|e] eqn:E.
  - exists o, s', w'. split; [reflexivity|].
    unfold Conservative.trade in E. split_trade E; injection E as <- <- <-;
      try (repeat split; trivial; fields; lra);
      fields;
      payoff_facts Hu;
      match goal with
      | S : Conservative.calculate_position_size _ _ _ = Ok ?q |- _ =>
          destruct (cons_sizing_bounds _ _ _ _ (Qlt_le_weak _ _ Hc) S);
          payoff q (Conservative.capital s) (3 # 1000) (2 # 100)
      end;
      (split; [reflexivity|lra]).
  - exfalso. unfold Conservative.trade in E. split_trade E; try no_raise;
      fields; payoff_facts Hu;
      match goal with
      | H : pydiv _ _ = Raise _ |- _ => apply pydiv_raise in H
      end;
      match goal with
      | S : Conservative.calculate_position_size _ _ _ = Ok ?q |- _ =>
          destruct (cons_sizing_bounds _ _ _ _ (Qlt_le_weak _ _ Hc) S);
          payoff q (Conservative.capital s) (3 # 1000) (2 # 100)
      end; lra.
Qed.

Lemma worst_case_factor_positive b : 986 # 1000 <= worst_case_factor b.
Proof. destruct b; vm_compute; discriminate. Qed.

Lemma trade_healthy data b w :
  healthy b -> unit_interval w -> admissible b (Trade data) ->
  exists o b' w',
    trade data b w = Ok (o, b', w')
    /\ healthy b'
    /\ worst_case_factor b * capital b <= capital b'.
Proof.
  intros (Hic & Hc & Hw) Hu Ha.
  destruct b; cbn [admissible] in Ha; unfold trade, healthy, worst_case_factor;
    cbn [initial_capital capital max_pct loss_cap] in *.
  - destruct (aggr_trade_healthy cfg data s w Hic Hc Hw Hu)
      as (o & s' & w' & -> & Hi & Hb & Hw').
    exists o, (AggressiveBot cfg s'), w'. cbn [bind initial_capital capital].
    rewrite Hi. repeat split; trivial; lra.
  - destruct (cons_trade_healthy cfg data s w Hic Hc Hu Ha)
      as (o & s' & w' & -> & Hi & Hb).
    exists o, (ConservativeBot cfg s'), w'. cbn [bind initial_capital capital].
    rewrite Hi. repeat split; trivial; lra.
  - destruct (flip_trade_healthy cfg data s w Hic Hc Hu)
      as (o & s' & w' & -> & Hi & Hb).
    exists o, (FlipBotV2 cfg s'), w'. cbn [bind initial_capital capital].
    rewrite Hi. repeat split; trivial; lra.
Qed.

Lemma call_healthy name b w b' w' :
  call name b w = Ok (b', w') -> healthy b -> healthy b'.
Proof.
  intro H. destruct b; unfold call in H;
    repeat match type of H with
    | (if ?c then _ else _) = _ => destruct c
    end;
    try discriminate H; injection H as <- <-; trivial.
Qed.

Lemma admissible_same b b' o :
  methods b' = methods b -> admissible b o -> admissible b' o.
Proof.
  intro E. destruct o as [data|name]; cbn [admissible].
  - destruct b, b'; cbn [methods] in E; try discriminate E; trivial.
  - now rewrite E.
Qed.

Lemma unit_interval_same w w' : rng w' = rng w -> unit_interval w -> unit_interval w'.
Proof. unfold unit_interval. now intros ->. Qed.

Lemma run_healthy ops :
  forall b w,
    healthy b -> unit_interval w -> Forall (admissible b) ops ->
    exists outs b' w',
      run ops b w = Ok (outs, b', w')
      /\ healthy b' /\ unit_interval w' /\ methods b' = methods b.
Proof.
  induction ops as [|[data|name] ops IH]; intros b w Hb Hu Hops.
  - exists [], b, w. exact (conj eq_refl (conj Hb (conj Hu eq_refl))).
  - inversion Hops as [|? ? Ha Hops']; subst.
    destruct (trade_healthy data b w Hb Hu Ha) as (o & b1 & w1 & Ht & Hb1 & _).
    destruct (trade_fixed _ _ _ _ _ _ Ht) as (_ & _ & _ & Hm & _ & _ & _ & _ & Hr).
    destruct (IH b1 w1 Hb1 (unit_interval_same _ _ Hr Hu))
      as (outs & b' & w' & Hrun & Hb' & Hu' & Hm').
    { eapply Forall_impl; [|exact Hops']. intro o'. now apply admissible_same. }
    exists (o :: outs), b', w'. refine (conj _ (conj Hb' (conj Hu' _))).
    + cbn [run]. rewrite Ht. cbn [bind]. rewrite Hrun. reflexivity.
    + congruence.
  - inversion Hops as [|? ? Ha Hops']; subst.
    destruct (call_supported name b w Ha) as (b1 & w1 & Hc).
    destruct (call_fixed _ _ _ _ _ Hc) as (_ & _ & _ & _ & _ & _ & Hm & _ & Hr & _).
    destruct (IH b1 w1 (call_healthy _ _ _ _ _ Hc Hb) (unit_interval_same _ _ Hr Hu))
      as (outs & b' & w' & Hrun & Hb' & Hu' & Hm').
    { eapply Forall_impl; [|exact Hops']. intro o'. now apply admissible_same. }
    exists outs, b', w'. refine (conj _ (conj Hb' (conj Hu' _))).
    + cbn [run]. rewrite Hc. exact Hrun.
    + congruence.
Qed.

(** C10.  An instance constructed with positive capital keeps its capital
    positive through any session: no call raises, and from every state
    reached a further trade returns and leaves at least the worst case
    fraction of capital (one minus the largest position fraction times the
    largest loss percentage, never below 0.986).  The generator returns
    values in [0, 1); a snapshot given to ConservativeBot carries a
    confidence that is not negative. *)
Theorem capital_stays_positive :
  forall (c : Q) (b0 : bot) (ops : list op) (w : world),
    0 < c ->
    constructed c b0 ->
    unit_interval w ->
    Forall (admissible b0) ops ->
    exists outs b w',
      run ops b0 w = Ok (outs, b, w')
      /\ 0 < capital b
      /\ 986 # 1000 <= worst_case_factor b
      /\ (forall data,
            admissible b (Trade data) ->
            exists o b' w'',
              trade data b w' = Ok (o, b', w'')
              /\ worst_case_factor b * capital b <= capital b'
              /\ 0 < capital b').
Proof.
  intros c b0 ops w Hc Hnew Hu Hops.
  assert (Hb0 : healthy b0).
  { destruct Hnew; repeat split; trivial; reflexivity. }
  destruct (run_healthy ops b0 w Hb0 Hu Hops)
    as (outs & b & w' & Hrun & Hb & Hu' & _).
  exists outs, b, w'. split; [exact Hrun|]. split; [apply Hb|].
  split; [apply worst_case_factor_positive|].
  intros data Ha.
  destruct (trade_healthy data b w' Hb Hu' Ha) as (o & b' & w'' & Ht & Hb' & Hf).
  exists o, b', w''. repeat split; trivial. apply Hb'.
Qed.

Lemma capital_stays_positive_witness :
  exists outs b w',
    run [Trade sample_conservative; Call "end_of_day_summary";
         Trade sample_conservative]
        (ConservativeBot Conservative.default_config (Conservative.init 10000))
        (constant_world (99 # 100) 0) = Ok (outs, b, w')
    /\ 0 < capital b
    /\ 986 # 1000 <= worst_case_factor b
    /\ (forall data,
          admissible b (Trade data) ->
          exists o b' w'',
            trade data b w' = Ok (o, b', w'')
            /\ worst_case_factor b * capital b <= capital b'
            /\ 0 < capital b').
Proof.
  apply (capital_stays_positive 10000).
  - reflexivity.
  - constructor.
  - intro n. split; vm_compute; [discriminate|reflexivity].
  - repeat constructor; vm_compute; discriminate.
Defined.

(** The condition on ConservativeBot's snapshots is needed: configured to
    accept any confidence and given a hugely negative one, a winning trade
    has a negative profit larger than the capital. *)
Lemma conservative_negative_confidence :
  match
    trade {| momentum := None; trend_strength := Some (7 # 10);
             breakout_score := None; volatility := Some (5 # 100);
             volume_spike := None; volume_ratio := None;
             ai_confidence := Some (- (100000000));
             regime := Some "trending_bull"%string;
             rsi := Some 50; confluence := Some (8 # 10);
             support_resistance := Some (8 # 10); spread := Some (1 # 1000);
             volume := Some 2000000; volume_profile := Some (9 # 10);
             position_size := None |}
          (ConservativeBot
             {| Conservative.daily_target := 1 # 100;
                Conservative.risk_cap := 15 # 1000;
                Conservative.max_drawdown := 3 # 100;
                Conservative.stop_loss := 5 # 1000;
                Conservative.max_daily_trades := 4;
                Conservative.min_confidence := - (1000000000);
                Conservative.min_win_rate_required := 75 # 100;
                Conservative.profit_target := 12 # 1000;
                Conservative.safety_first := true;
                Conservative.preserve_capital := true;
                Conservative.gradual_scaling := true |}
             (Conservative.init 10000))
          (constant_world 0 0)
  with
  | Ok (o, b', _) => is_win o = true /\ capital b' < 0
  | Raise _ => False
  end.
Proof.
  vm_compute. split; reflexivity.
Qed.

(** ** Replaying a session *)

Lemma clocks_agree_now view w1 w2 :
  clocks_agree view w1 w2 ->
  view (clock w1 (clock_used w1)) = view (clock w2 (clock_used w2)).
Proof. intro H. specialize (H 0%nat). now rewrite !Nat.add_0_r in H. Qed.

Lemma clocks_agree_tick view w1 w2 :
  clocks_agree view w1 w2 -> clocks_agree view (snd (utcnow w1)) (snd (utcnow w2)).
Proof.
  intros H k. cbn [utcnow snd clock clock_used].
  specialize (H (S k)). now rewrite !Nat.add_succ_r in H.
Qed.

Ltac sync_branches :=
  repeat match goal with
  | |- context [match pydiv ?a ?b with Ok _ => _ | Raise _ => _ end] =>
      destruct (pydiv a b)
  | |- context [if ?c then _ else _] => destruct c
  end.

Lemma aggr_trade_replay view data cfg s1 s2 w1 w2 :
  restamp view (AggressiveBot cfg s1) = restamp view (AggressiveBot cfg s2) ->
  same_rng w1 w2 -> clocks_agree view w1 w2 ->
  match Aggressive.trade cfg data s1 w1, Aggressive.trade cfg data s2 w2 with
  | Ok (o1, s1', w1'), Ok (o2, s2', w2') =>
      o1 = o2
      /\ restamp view (AggressiveBot cfg s1') = restamp view (AggressiveBot cfg s2')
      /\ same_rng w1' w2' /\ clocks_agree view w1' w2'
  | Raise e1, Raise e2 => e1 = e2
  | _, _ => False
  end.
Proof.
  intros Hb [Hr Hu] Hc.
  pose proof (clocks_agree_now _ _ _ Hc) as Hnow.
  pose proof (clocks_agree_tick _ _ _ Hc) as Htick.
  destruct s1, s2. cbn [restamp] in Hb. fields.
  injection Hb as -> -> -> -> -> -> Hth -> -> ->.
  unfold Aggressive.trade, Aggressive.calculate_position_size,
    Aggressive.unbounded_size, Aggressive.success_prob,
    Aggressive.next_hot_streak, Aggressive.with_hot_streak, Aggressive.momentum_mult.
  cbv beta iota zeta delta
    [bind random_random random_uniform utcnow
     Aggressive.capital Aggressive.initial_capital Aggressive.daily_trades
     Aggressive.consecutive_wins Aggressive.consecutive_losses
     Aggressive.max_consecutive_wins Aggressive.trade_history
     Aggressive.peak_capital Aggressive.daily_pnl
     Aggressive.hot_streak_multiplier].
  cbn [rng rng_used clock clock_used].
  rewrite <- Hu. repeat rewrite <- Hr.
  sync_branches; try reflexivity;
    (split; [reflexivity|split; [|split; [|first [exact Hc | exact Htick]]]]);
    first
    [ split; [exact Hr|cbn [rng_used]; congruence]
    | cbn [restamp Aggressive.capital Aggressive.initial_capital
           Aggressive.daily_trades Aggressive.consecutive_wins
           Aggressive.consecutive_losses Aggressive.max_consecutive_wins
           Aggressive.trade_history Aggressive.peak_capital Aggressive.daily_pnl
           Aggressive.hot_streak_multiplier];
      rewrite ?map_app, Hth; cbn [map]; unfold restamp_record;
      cbn [timestamp kind size amount pct confidence rec_regime streak
           hot_streak_mult];
      rewrite ?Hnow; reflexivity ].
Qed.

Lemma flip_trade_replay view data cfg s1 s2 w1 w2 :
  restamp view (FlipBotV2 cfg s1) = restamp view (FlipBotV2 cfg s2) ->
  same_rng w1 w2 -> clocks_agree view w1 w2 ->
  match Flip.trade cfg data s1 w1, Flip.trade cfg data s2 w2 with
  | Ok (o1, s1', w1'), Ok (o2, s2', w2') =>
      o1 = o2
      /\ restamp view (FlipBotV2 cfg s1') = restamp view (FlipBotV2 cfg s2')
      /\ same_rng w1' w2' /\ clocks_agree view w1' w2'
  | Raise e1, Raise e2 => e1 = e2
  | _, _ => False
  end.
Proof.
  intros Hb [Hr Hu] Hc. cbn [restamp] in Hb. injection Hb as ->.
  unfold Flip.trade.
  cbv beta iota zeta delta [bind random_random random_uniform utcnow].
  cbn [rng rng_used clock clock_used].
  rewrite <- Hu. repeat rewrite <- Hr.
  repeat match goal with
  | |- context [match pydiv ?a ?b with Ok _ => _ | Raise _ => _ end] =>
      destruct (pydiv a b)
  | |- context [match Flip.calculate_position_size ?c ?d ?s with
                | Ok _ => _ | Raise _ => _ end] =>
      destruct (Flip.calculate_position_size c d s)
  | |- context [if ?c then _ else _] => destruct c
  end; try reflexivity;
    (split; [reflexivity|split; [reflexivity|split; [|exact Hc]]]);
    (split; [exact Hr|cbn [rng_used]; congruence]).
Qed.

Lemma win_count_restamp view (l1 l2 : list trade_record) :
  map (restamp_record view) l1 = map (restamp_record view) l2 ->
  List.length l1 = List.length l2
  /\ List.length (filter Conservative.is_win_record l1)
     = List.length (filter Conservative.is_win_record l2).
Proof.
  revert l2. induction l1 as [|t1 l1 IH]; intros [|t2 l2] H; try discriminate H.
  - now split.
  - cbn [map] in H. injection H as _ Hk _ _ _ _ _ _ _ Hl.
    destruct (IH _ Hl) as [IH1 IH2].
    cbn [List.length filter].
    assert (Conservative.is_win_record t1 = Conservative.is_win_record t2) as ->
      by (unfold Conservative.is_win_record; now rewrite Hk).
    destruct (Conservative.is_win_record t2); cbn [List.length]; split; congruence.
Qed.

Lemma streak_mult_history view s1 s2 :
  map (restamp_record view) (Conservative.trade_history s1)
  = map (restamp_record view) (Conservative.trade_history s2) ->
  Conservative.streak_mult s1 = Conservative.streak_mult s2.
Proof.
  intro H.
  assert (Hrec : map (restamp_record view) (Conservative.recent_trades s1)
                 = map (restamp_record view) (Conservative.recent_trades s2)).
  { unfold Conservative.recent_trades.
    destruct (win_count_restamp _ _ _ H) as [<- _].
    destruct (10 <=? _)%nat; [|exact H].
    now rewrite <- !skipn_map, H. }
  unfold Conservative.streak_mult.
  destruct (win_count_restamp _ _ _ Hrec) as [Hlen Hwin].
  destruct (Conservative.recent_trades s1) as [|t1 l1],
           (Conservative.recent_trades s2) as [|t2 l2];
    try discriminate Hlen; [reflexivity|].
  now rewrite Hlen, Hwin.
Qed.

Lemma cons_sizing_history view cfg data s1 s2 :
  restamp view (ConservativeBot cfg s1) = restamp view (ConservativeBot cfg s2) ->
  Conservative.calculate_position_size cfg data s1
  = Conservative.calculate_position_size cfg data s2.
Proof.
  intro Hb. cbn [restamp] in Hb.
  injection Hb as Hc Hi _ Hp Hth _ _ _ Hpk _.
  unfold Conservative.calculate_position_size, Conservative.daily_return.
  now rewrite (streak_mult_history view s1 s2 Hth), Hc, Hi, Hp, Hpk.
Qed.

Lemma cons_trade_replay view data cfg s1 s2 w1 w2 :
  restamp view (ConservativeBot cfg s1) = restamp view (ConservativeBot cfg s2) ->
  same_rng w1 w2 -> clocks_agree view w1 w2 ->
  match Conservative.trade cfg data s1 w1, Conservative.trade cfg data s2 w2 with
  | Ok (o1, s1', w1'), Ok (o2, s2', w2') =>
      o1 = o2
      /\ restamp view (ConservativeBot cfg s1') = restamp view (ConservativeBot cfg s2')
      /\ same_rng w1' w2' /\ clocks_agree view w1' w2'
  | Raise e1, Raise e2 => e1 = e2
  | _, _ => False
  end.
Proof.
  intros Hb [Hr Hu] Hc.
  pose proof (clocks_agree_now _ _ _ Hc) as Hnow.
  pose proof (clocks_agree_tick _ _ _ Hc) as Htick.
  pose proof (cons_sizing_history view cfg data s1 s2 Hb) as Hsize.
  unfold Conservative.trade. rewrite Hsize. clear Hsize.
  unfold Conservative.daily_return, Conservative.with_safety_violation.
  destruct s1, s2. cbn [restamp] in Hb. fields.
  injection Hb as -> -> -> -> Hth Hdh -> -> -> ->.
  cbv beta iota zeta delta
    [bind random_random random_uniform utcnow
     Conservative.capital Conservative.initial_capital
     Conservative.daily_trades Conservative.daily_profit
     Conservative.trade_history Conservative.daily_history
     Conservative.consecutive_profitable_days
     Conservative.total_profitable_days Conservative.peak_capital
     Conservative.safety_violations].
  cbn [rng rng_used clock clock_used].
  rewrite <- Hu. repeat rewrite <- Hr.
  repeat match goal with
  | |- context [match pydiv ?a ?b with Ok _ => _ | Raise _ => _ end] =>
      destruct (pydiv a b)
  | |- context [match Conservative.calculate_position_size ?c ?d ?s with
                | Ok _ => _ | Raise _ => _ end] =>
      destruct (Conservative.calculate_position_size c d s)
  | |- context [if ?c then _ else _] => destruct c
  end; try reflexivity;
    (split; [reflexivity|split; [|split; [|first [exact Hc | exact Htick]]]]);
    first
    [ split; [exact Hr|cbn [rng_used]; congruence]
    | cbn [restamp Conservative.capital Conservative.initial_capital
           Conservative.daily_trades Conservative.daily_profit
           Conservative.trade_history Conservative.daily_history
           Conservative.consecutive_profitable_days
           Conservative.total_profitable_days Conservative.peak_capital
           Conservative.safety_violations];
      rewrite ?map_app, Hth, Hdh; cbn [map]; unfold restamp_record;
      cbn [timestamp kind size amount pct confidence rec_regime streak
           hot_streak_mult];
      rewrite ?Hnow; reflexivity ].
Qed.

(** One [trade] call on two instances that differ only in stored clock
    readings, in two worlds that differ only in their clocks. *)
Lemma trade_replay view data b1 b2 w1 w2 :
  restamp view b1 = restamp view b2 ->
  same_rng w1 w2 -> clocks_agree view w1 w2 ->
  match trade data b1 w1, trade data b2 w2 with
  | Ok (o1, b1', w1'), Ok (o2, b2', w2') =>
      o1 = o2 /\ restamp view b1' = restamp view b2'
      /\ same_rng w1' w2' /\ clocks_agree view w1' w2'
  | Raise e1, Raise e2 => e1 = e2
  | _, _ => False
  end.
Proof.
  intros Hb Hr Hc.
  destruct b1 as [c1 s1|c1 s1|c1 s1], b2 as [c2 s2|c2 s2|c2 s2];
    try discriminate Hb;
    assert (c1 = c2) as -> by (cbn [restamp] in Hb; congruence);
    unfold trade.
  - pose proof (aggr_trade_replay view data c2 s1 s2 w1 w2 Hb Hr Hc) as H.
    destruct (Aggressive.trade c2 data s1 w1) as [[[o1 s1'] w1']|e1],
             (Aggressive.trade c2 data s2 w2) as [[[o2 s2'] w2']|e2];
      cbn [bind]; exact H.
  - pose proof (cons_trade_replay view data c2 s1 s2 w1 w2 Hb Hr Hc) as H.
    destruct (Conservative.trade c2 data s1 w1) as [[[o1 s1'] w1']|e1],
             (Conservative.trade c2 data s2 w2) as [[[o2 s2'] w2']|e2];
      cbn [bind]; exact H.
  - pose proof (flip_trade_replay view data c2 s1 s2 w1 w2 Hb Hr Hc) as H.
    destruct (Flip.trade c2 data s1 w1) as [[[o1 s1'] w1']|e1],
             (Flip.trade c2 data s2 w2) as [[[o2 s2'] w2']|e2];
      cbn [bind]; exact H.
Qed.

Lemma call_replay view name b1 b2 w1 w2 :
  restamp view b1 = restamp view b2 ->
  same_rng w1 w2 -> clocks_agree view w1 w2 ->
  match call name b1 w1, call name b2 w2 with
  | Ok (b1', w1'), Ok (b2', w2') =>
      restamp view b1' = restamp view b2'
      /\ same_rng w1' w2' /\ clocks_agree view w1' w2'
  | Raise e1, Raise e2 => e1 = e2
  | _, _ => False
  end.
Proof.
  intros Hb Hr Hc.
  pose proof (clocks_agree_now _ _ _ Hc) as Hnow.
  pose proof (clocks_agree_tick _ _ _ Hc) as Htick.
  destruct b1 as [c1 s1|c1 s1|c1 s1], b2 as [c2 s2|c2 s2|c2 s2];
    try discriminate Hb;
    assert (c1 = c2) as -> by (cbn [restamp] in Hb; congruence);
    unfold call.
  - destruct (String.eqb name "reset_daily_stats").
    + refine (conj _ (conj Hr Hc)).
      cbn [restamp] in *. unfold Aggressive.reset_daily_stats. fields.
      injection Hb as -> -> _ -> -> -> -> -> _ ->. reflexivity.
    + destruct (String.eqb name "get_status"); [|reflexivity].
      refine (conj Hb (conj _ Htick)). exact Hr.
  - destruct (String.eqb name "end_of_day_summary").
    + unfold Conservative.end_of_day_summary, Conservative.daily_return.
      cbv beta iota zeta delta [utcnow].
      refine (conj _ (conj Hr Htick)).
      cbn [restamp] in *. fields.
      injection Hb as -> -> -> -> -> Hdh -> -> -> ->.
      rewrite !map_app, Hdh. cbn [map]. unfold restamp_day.
      cbn [Conservative.date Conservative.day_return Conservative.day_profit
           Conservative.day_trades Conservative.target_achieved
           Conservative.day_safety_violations].
      rewrite Hnow. reflexivity.
    + destruct (String.eqb name "get_status"); [|reflexivity].
      refine (conj Hb (conj _ Htick)). exact Hr.
  - destruct (String.eqb name "get_status"); [|reflexivity].
    exact (conj Hb (conj Hr Hc)).
Qed.

Lemma run_replay view ops :
  forall b1 b2 w1 w2,
    restamp view b1 = restamp view b2 ->
    same_rng w1 w2 -> clocks_agree view w1 w2 ->
    observe view (run ops b1 w1) = observe view (run ops b2 w2).
Proof.
  induction ops as [|[data|name] ops IH]; intros b1 b2 w1 w2 Hb Hr Hc.
  - cbn [run observe]. destruct Hr as [_ ->]. now rewrite Hb.
  - cbn [run].
    pose proof (trade_replay view data b1 b2 w1 w2 Hb Hr Hc) as H.
    destruct (trade data b1 w1) as [[[o1 b1'] w1']|e1],
             (trade data b2 w2) as [[[o2 b2'] w2']|e2];
      try contradiction; cbn [bind]; [|now subst].
    destruct H as (-> & Hb' & Hr' & Hc').
    specialize (IH _ _ _ _ Hb' Hr' Hc').
    destruct (run ops b1' w1') as [[[outs1 c1] v1]|x1],
             (run ops b2' w2') as [[[outs2 c2] v2]|x2];
      cbn [bind observe] in *; congruence.
  - cbn [run].
    pose proof (call_replay view name b1 b2 w1 w2 Hb Hr Hc) as H.
    destruct (call name b1 w1) as [[b1' w1']|e1],
             (call name b2 w2) as [[b2' w2']|e2];
      try contradiction; cbn [bind]; [|now subst].
    destruct H as (Hb' & Hr' & Hc'). now apply IH.
Qed.

Lemma restamp_same (b : bot) : restamp (fun t => t) b = b.
Proof.
  assert (Hrec : forall l, map (restamp_record (fun t => t)) l = l).
  { induction l as [|[] l IH]; cbn [map]; [reflexivity|].
    now rewrite IH. }
  assert (Hday : forall l, map (restamp_day (fun t => t)) l = l).
  { induction l as [|[] l IH]; cbn [map]; [reflexivity|].
    now rewrite IH. }
  destruct b as [cfg []|cfg []|cfg s]; cbn [restamp]; fields;
    rewrite ?Hrec, ?Hday; reflexivity.
Qed.

(** C9, as the code has it.  With the same random draws and the same
    calls, two runs from the same instance return the same outcomes (or raise
    the same exception), draw the same number of random values and end in
    states that agree in everything except the clock readings stored in
    [trade_history] (and in ConservativeBot's [daily_history]): the clock is
    a second outside input.  If the clock readings agree too, the final
    states are identical. *)
Theorem replay_determinism :
  forall (ops : list op) (b : bot) (w1 w2 : world),
    same_rng w1 w2 ->
    observe (fun _ => 0%Z) (run ops b w1) = observe (fun _ => 0%Z) (run ops b w2)
    /\ (clocks_agree (fun t => t) w1 w2 ->
        observe (fun t => t) (run ops b w1) = observe (fun t => t) (run ops b w2))
    /\ (forall b', restamp (fun t => t) b' = b').
Proof.
  intros ops b w1 w2 Hr. split; [|split].
  - apply run_replay; trivial. intro k. reflexivity.
  - intro Hc. now apply run_replay.
  - apply restamp_same.
Qed.

Lemma replay_determinism_witness :
  observe (fun _ => 0%Z)
    (run [Trade sample_aggressive; Call "reset_daily_stats"; Trade sample_aggressive]
         (AggressiveBot Aggressive.default_config (Aggressive.init 10000))
         (constant_world (1 # 2) 0))
  = observe (fun _ => 0%Z)
      (run [Trade sample_aggressive; Call "reset_daily_stats"; Trade sample_aggressive]
           (AggressiveBot Aggressive.default_config (Aggressive.init 10000))
           (constant_world (1 # 2) 1000)).
Proof.
  refine (proj1 (replay_determinism _ _ (constant_world (1 # 2) 0)
                   (constant_world (1 # 2) 1000) _)).
  split; [intro n|]; reflexivity.
Defined.

(** C9 as stated fails: the same draws and the same snapshot, replayed
    under another clock, give the same outcome but a different final state,
    because the appended trade record carries the time of the call. *)
Lemma replay_differs_in_timestamps :
  same_rng (constant_world (1 # 2) 0) (constant_world (1 # 2) 1000)
  /\ match
       run [Trade sample_aggressive]
           (AggressiveBot Aggressive.default_config (Aggressive.init 10000))
           (constant_world (1 # 2) 0),
       run [Trade sample_aggressive]
           (AggressiveBot Aggressive.default_config (Aggressive.init 10000))
           (constant_world (1 # 2) 1000)
     with
     | Ok (outs1, b1, _), Ok (outs2, b2, _) =>
         outs1 = outs2
         /\ Forall (fun o => is_blocked o = false) outs1
         /\ trade_history b1 <> trade_history b2
         /\ b1 <> b2
     | _, _ => False
     end.
Proof.
  split; [split; [intro n|]; reflexivity|].
  vm_compute. split; [reflexivity|]. split; [repeat constructor|].
  split; intro H; discriminate H.
Qed.

(** ** A remark on the sizing bounds *)

(** The two bounds also cross without any trade going wrong: an
    AggressiveBot constructed with negative capital accepts the trade, and
    its notional, 2% of capital, is above 20% of capital. *)
Lemma negative_capital_notional :
  match
    trade sample_aggressive
          (AggressiveBot Aggressive.default_config (Aggressive.init (- (100))))
          (constant_world 0 0)
  with
  | Ok (o, _, _) =>
      match outcome_size o with
      | Some sz => sz == (2 # 100) * - (100) /\ ~ sz <= (20 # 100) * - (100)
      | None => False
      end
  | Raise _ => False
  end.
Proof.
  vm_compute. split; [reflexivity|]. intro H. apply H. reflexivity.
Qed.

(** * Further properties of the code *)

(** ** Order of the checks in [trade] *)

Lemma trade_passed_checks :
  forall (data : snapshot) (b : bot) (w : world) o b' w',
    trade data b w = Ok (o, b', w') ->
    is_blocked o = false ->
    (daily_trades b < max_daily_trades b)%Z
    /\ gate b data = true
    /\ (exists d, drawdown b = Ok d /\ d <= drawdown_limit b)
    /\ match b with
       | AggressiveBot _ _ => True
       | ConservativeBot cfg s =>
           Conservative.daily_return s < Conservative.daily_target cfg
       | FlipBotV2 _ s =>
           (Flip.capital s - Flip.initial_capital s) / Flip.initial_capital s
           < Flip.daily_target
       end.
Proof.
  intros data b w o b' w' H Hb.
  trade_cases H; try discriminate Hb; qprop;
    repeat match goal with
    | H : negb _ = false |- _ => apply negb_false_iff in H
    end;
    (split; [assumption|]); (split; [assumption|]);
    unfold drawdown; fields;
    (split; [eexists; split; [eassumption|assumption]|]); trivial;
    repeat match goal with
    | H : pydiv _ _ = Ok _ |- _ => apply pydiv_inv in H as [_ H]
    end; subst; assumption.
Qed.

(** X1.  A trade that is executed passed every check [trade] makes before
    sizing: the daily limit, the target check of FlipBotV2 and
    ConservativeBot, the drawdown limit and the signal gate. *)
Theorem executed_trade_passed_every_check :
  forall (data : snapshot) (b : bot) (w : world) o b' w',
    trade data b w = Ok (o, b', w') ->
    is_blocked o = false ->
    (daily_trades b < max_daily_trades b)%Z
    /\ gate b data = true
    /\ (exists d, drawdown b = Ok d /\ d <= drawdown_limit b)
    /\ match b with
       | AggressiveBot _ _ => True
       | ConservativeBot cfg s =>
           Conservative.daily_return s < Conservative.daily_target cfg
       | FlipBotV2 _ s =>
           (Flip.capital s - Flip.initial_capital s) / Flip.initial_capital s
           < Flip.daily_target
       end.
Proof.
  intros data b w o b' w' H Hb. exact (trade_passed_checks data b w o b' w' H Hb).
Qed.

Lemma executed_trade_passed_every_check_witness :
  match
    trade sample_flip (FlipBotV2 Flip.default_config (Flip.init 10000))
          (constant_world 0 0)
  with
  | Ok (o, _, _) =>
      is_blocked o = false
      /\ gate (FlipBotV2 Flip.default_config (Flip.init 10000)) sample_flip = true
  | Raise _ => False
  end.
Proof.
  destruct (trade _ _ _) as [[[o b'] w']|e] eqn:E.
  - assert (Hb : is_blocked o = false).
    { vm_compute in E. now injection E as <- _ _. }
    split; [exact Hb|].
    exact (proj1 (proj2 (executed_trade_passed_every_check _ _ _ _ _ _ E Hb))).
  - vm_compute in E. discriminate E.
Defined.

(** X2.  The target check comes before the drawdown check and the gate:
    below the daily limit, a FlipBotV2 whose return has reached 100%, and a
    ConservativeBot whose daily return has reached its target, answer every
    snapshot with "target reached" and change nothing. *)
Theorem target_reached_blocks :
  (forall cfg s data w,
      (Flip.daily_trades s < Flip.max_daily_trades cfg)%Z ->
      ~ Flip.initial_capital s == 0 ->
      Flip.daily_target
      <= (Flip.capital s - Flip.initial_capital s) / Flip.initial_capital s ->
      trade data (FlipBotV2 cfg s) w = Ok (Blocked TargetReached, FlipBotV2 cfg s, w))
  /\ (forall cfg s data w,
        (Conservative.daily_trades s < Conservative.max_daily_trades cfg)%Z ->
        Conservative.daily_target cfg <= Conservative.daily_return s ->
        trade data (ConservativeBot cfg s) w
        = Ok (Blocked TargetReached, ConservativeBot cfg s, w)).
Proof.
  split.
  - intros cfg s data w Hd Hic Ht. unfold trade, Flip.trade.
    apply Z.leb_gt in Hd. rewrite Hd.
    rewrite (pydiv_ok _ _ Hic). cbn [bind].
    apply Qleb_true in Ht. rewrite Ht. reflexivity.
  - intros cfg s data w Hd Ht. unfold trade, Conservative.trade.
    apply Z.leb_gt in Hd. rewrite Hd.
    apply Qleb_true in Ht. rewrite Ht. reflexivity.
Qed.

Lemma target_reached_blocks_witness :
  trade sample_flip
        (FlipBotV2 Flip.default_config
           {| Flip.capital := 25000; Flip.initial_capital := 10000;
              Flip.consecutive_losses := 0; Flip.daily_trades := 6;
              Flip.trade_history := []; Flip.peak_capital := 25000;
              Flip.current_streak := 6; Flip.best_streak := 6 |})
        (constant_world 0 0)
  = Ok (Blocked TargetReached,
        FlipBotV2 Flip.default_config
           {| Flip.capital := 25000; Flip.initial_capital := 10000;
              Flip.consecutive_losses := 0; Flip.daily_trades := 6;
              Flip.trade_history := []; Flip.peak_capital := 25000;
              Flip.current_streak := 6; Flip.best_streak := 6 |},
        constant_world 0 0).
Proof.
  apply (proj1 target_reached_blocks).
  - reflexivity.
  - vm_compute. discriminate.
  - vm_compute. discriminate.
Defined.

(** ** The signal gates *)

Ltac all_true H :=
  apply andb_all_true in H;
  repeat match goal with
  | H : Forall _ (_ :: _) |- _ => inversion H; subst; clear H
  | H : Forall _ [] |- _ => clear H
  end;
  repeat match goal with
  | H : _ && _ = true |- _ => apply andb_true_iff in H as [? ?]
  end.

Lemma aggr_signal_thresholds data :
  Aggressive.signal_ok data = true ->
  6 # 10 < Qabs (get (momentum data) (1 # 2))
  /\ 55 # 100 < get (trend_strength data) (1 # 2)
  /\ 7 # 10 < get (breakout_score data) (1 # 2)
  /\ 4 # 100 < get (volatility data) (1 # 10)
  /\ 6 # 10 < get (ai_confidence data) (1 # 2)
  /\ (get (volume_spike data) false = true
      \/ 13 # 10 < get (volume_ratio data) 1)
  /\ (get (rsi data) 50 < 25 \/ 75 < get (rsi data) 50)
  /\ 65 # 100 < get (confluence data) (1 # 2).
Proof.
  unfold Aggressive.signal_ok.
  repeat match goal with
  | |- context [if ?c then _ else _] => destruct c
  end; try discriminate; intro H; all_true H;
    repeat match goal with
    | H : _ || _ = true |- _ => apply orb_true_iff in H
    end; qprop;
    repeat match goal with
    | |- _ /\ _ => split
    end; try assumption; try lra;
    match goal with
    | H : _ \/ _ |- _ \/ _ => destruct H; [left|right]; qprop; assumption
    end.
Qed.

Lemma cons_can_trade_thresholds cfg data :
  Conservative.can_trade cfg data = true ->
  get (spread data) (1 # 1000) < 2 # 1000
  /\ 1000000 < get (volume data) 1000000
  /\ 1 # 100 < get (volatility data) (1 # 10)
  /\ get (volatility data) (1 # 10) < 8 # 100
  /\ Conservative.min_confidence cfg <= get (ai_confidence data) (1 # 2)
  /\ In (get (regime data) "unknown"%string)
        ["trending_bull"; "low_volatility"; "sideways"]%string
  /\ 7 # 10 < get (support_resistance data) (1 # 2)
  /\ 6 # 10 < get (trend_strength data) (1 # 2)
  /\ 75 # 100 < get (confluence data) (1 # 2)
  /\ 35 < get (rsi data) 50 /\ get (rsi data) 50 < 65
  /\ 8 # 10 < get (volume_profile data) 1.
Proof.
  unfold Conservative.can_trade.
  destruct (String.eqb _ "high_volatility"); [discriminate|].
  intro H. all_true H. qprop.
  repeat match goal with
  | |- _ /\ _ => split
  end; try assumption.
  cbn [In].
  repeat match goal with
  | H : _ || _ = true |- _ => apply orb_true_iff in H as [H|H]
  | H : String.eqb _ _ = true |- _ => apply String.eqb_eq in H; rewrite H
  end; try discriminate; tauto.
Qed.

Lemma flip_check_signal_thresholds data :
  Flip.check_signal data = true ->
  3 # 100 < get (volatility data) 0
  /\ get (volatility data) 0 < 25 # 100
  /\ 75 # 100 < get (breakout_score data) 0
  /\ 6 # 10 < get (ai_confidence data) (1 # 2)
  /\ 4 # 10 < Qabs (get (momentum data) (1 # 2)).
Proof.
  unfold Flip.check_signal. intro H.
  repeat (apply andb_true_iff in H as [H ?]). qprop. tauto.
Qed.

(** A default that fails its threshold: the key must be present. *)
Ltac key_present H :=
  match goal with
  | |- ?f ?data <> None =>
      destruct (f data); [discriminate|];
      exfalso; cbn [get] in H; vm_compute in H; discriminate H
  end.

(** X3.  Which keys a snapshot must carry to pass each gate: where the
    default a gate substitutes for a missing key fails that gate's own
    threshold, a snapshot without the key is always rejected.
    AggressiveBot needs momentum, trend_strength, breakout_score,
    ai_confidence, rsi, confluence and one of volume_spike and volume_ratio;
    ConservativeBot needs regime, volume, volatility, support_resistance,
    trend_strength, confluence, and ai_confidence when [min_confidence]
    exceeds 0.5; FlipBotV2 needs volatility, breakout_score and
    ai_confidence. *)
Theorem gate_required_keys :
  forall (b : bot) (data : snapshot),
    gate b data = true ->
    match b with
    | AggressiveBot _ _ =>
        momentum data <> None /\ trend_strength data <> None
        /\ breakout_score data <> None /\ ai_confidence data <> None
        /\ rsi data <> None /\ confluence data <> None
        /\ (volume_spike data = Some true \/ volume_ratio data <> None)
    | ConservativeBot cfg _ =>
        regime data <> None /\ volume data <> None /\ volatility data <> None
        /\ support_resistance data <> None /\ trend_strength data <> None
        /\ confluence data <> None
        /\ (1 # 2 < Conservative.min_confidence cfg -> ai_confidence data <> None)
    | FlipBotV2 _ _ =>
        volatility data <> None /\ breakout_score data <> None
        /\ ai_confidence data <> None
    end.
Proof.
  intros [cfg s|cfg s|cfg s] data H; cbn [gate] in H.
  - apply aggr_signal_thresholds in H
      as (Hm & Ht & Hb & _ & Hc & Hv & Hr & Hf).
    repeat split; try (key_present Hm); try (key_present Ht);
      try (key_present Hb); try (key_present Hc); try (key_present Hf).
    + destruct (rsi data); [discriminate|]. exfalso. cbn [get] in Hr.
      destruct Hr as [Hr|Hr]; vm_compute in Hr; discriminate Hr.
    + destruct Hv as [Hv|Hv].
      * left. destruct (volume_spike data) as [[|]|]; cbn [get] in Hv;
          try discriminate Hv; reflexivity.
      * right. key_present Hv.
  - apply cons_can_trade_thresholds in H
      as (_ & Hvol & _ & Hvy & Hc & Hreg & Hsr & Ht & Hf & _).
    repeat split; try (key_present Hvol); try (key_present Hvy);
      try (key_present Hsr); try (key_present Ht); try (key_present Hf).
    + destruct (regime data); [discriminate|]. exfalso. cbn [get In] in Hreg.
      repeat destruct Hreg as [Hreg|Hreg]; try discriminate Hreg; contradiction.
    + intro Hmin. destruct (ai_confidence data); [discriminate|].
      exfalso. cbn [get] in Hc. lra.
  - apply flip_check_signal_thresholds in H as (Hv & _ & Hb & Hc & _).
    repeat split; try (key_present Hv); try (key_present Hb);
      try (key_present Hc).
Qed.

Lemma gate_required_keys_witness :
  volatility sample_flip <> None /\ breakout_score sample_flip <> None
  /\ ai_confidence sample_flip <> None.
Proof.
  apply (gate_required_keys
           (FlipBotV2 Flip.default_config (Flip.init 10000)) sample_flip).
  reflexivity.
Defined.

(** X4.  The regime filter of [signal_ok] matters for one regime only.
    Whatever the regime, other than 'sideways', the signal is judged as if
    no regime were given: the 'low_volatility' early return rejects nothing
    the volatility threshold would not reject anyway.  In 'sideways' the
    signal must, beyond that, have |momentum| above 0.75 and a breakout
    score above 0.8. *)
Theorem aggressive_regime_filter :
  forall data : snapshot,
    (get (regime data) "unknown"%string <> "sideways"%string ->
     Aggressive.signal_ok data = Aggressive.signal_ok (set_regime data None))
    /\ (get (regime data) "unknown"%string = "sideways"%string ->
        Aggressive.signal_ok data
        = Aggressive.signal_ok (set_regime data None)
          && Qltb (75 # 100) (Qabs (get (momentum data) (1 # 2)))
          && Qltb (8 # 10) (get (breakout_score data) (1 # 2))).
Proof.
  intro data. unfold Aggressive.signal_ok.
  cbn [set_regime momentum trend_strength breakout_score volatility
       volume_spike volume_ratio ai_confidence regime rsi confluence get].
  change (existsb (String.eqb "unknown")
            ["high_volatility"; "trending_bull"; "trending_bear"]%string)
    with false.
  change (String.eqb "unknown" "sideways") with false.
  change (String.eqb "unknown" "low_volatility") with false.
  cbv iota. unfold all. cbn [forallb].
  split.
  - intro Hreg.
    destruct (existsb _ _); [reflexivity|].
    destruct (String.eqb_spec (get (regime data) "unknown"%string) "sideways");
      [contradiction|].
    destruct (String.eqb _ "low_volatility"); [|reflexivity].
    destruct (Qltb (get (volatility data) (1 # 10)) (3 # 100)) eqn:Hv;
      [|reflexivity].
    destruct (Qltb (4 # 100) (get (volatility data) (1 # 10))) eqn:Hv'.
    + qprop. lra.
    + now rewrite !andb_false_r.
  - intros ->. cbn [get existsb String.eqb Ascii.eqb Bool.eqb orb andb].
    change (String.eqb "sideways" "sideways") with true. cbv iota.
    destruct (Qltb (75 # 100) (Qabs (get (momentum data) (1 # 2)))) eqn:Hm,
             (Qltb (8 # 10) (get (breakout_score data) (1 # 2))) eqn:Hb,
             (Qltb (6 # 10) (Qabs (get (momentum data) (1 # 2)))) eqn:Hm',
             (Qltb (7 # 10) (get (breakout_score data) (1 # 2))) eqn:Hb';
      qprop; try lra;
      repeat match goal with
      | |- context [Qltb ?a ?b] => destruct (Qltb a b)
      | |- context [get ?a ?b || ?c] => destruct (get a b || c)
      end; reflexivity.
Qed.

Lemma aggressive_regime_filter_witness :
  Aggressive.signal_ok sample_aggressive
  = Aggressive.signal_ok (set_regime sample_aggressive None).
Proof.
  apply (proj1 (aggressive_regime_filter sample_aggressive)).
  vm_compute. discriminate.
Defined.

(** ** The win or loss branch *)

Lemma aggr_success_prob_range data s :
  25 # 100 <= Aggressive.success_prob data s
  /\ Aggressive.success_prob data s <= 80 # 100.
Proof.
  unfold Aggressive.success_prob. split.
  - apply pymin_glb; [lra|apply pymax_ge_l].
  - apply pymin_le_l.
Qed.

Lemma cons_success_prob_range data :
  60 # 100 <= Conservative.success_prob data
  /\ Conservative.success_prob data <= 88 # 100.
Proof.
  unfold Conservative.success_prob. split.
  - apply pymin_glb; [lra|apply pymax_ge_l].
  - apply pymin_le_l.
Qed.

(** X5.  How the first random draw decides an executed trade.  A draw below
    the profile's floor (0.25 aggressive, 0.60 conservative, 0.70 flip) always
    wins; a draw at or above its ceiling (0.80, 0.88, and 0.80 for flip when
    the confidence is at most 1) always loses. *)
Theorem outcome_decided_by_draw :
  forall (data : snapshot) (b : bot) (w : world) o b' w',
    trade data b w = Ok (o, b', w') ->
    is_blocked o = false ->
    (rng w (rng_used w) < win_floor b -> is_win o = true)
    /\ (win_ceiling b <= rng w (rng_used w) ->
        get (ai_confidence data) (1 # 2) <= 1 ->
        is_loss o = true).
Proof.
  intros data b w o b' w' H Hb.
  trade_cases H; try discriminate Hb; cbn [win_floor win_ceiling]; qprop;
    repeat match goal with
    | H : negb _ = false |- _ => apply negb_false_iff in H
    end;
    try match goal with
    | H : Flip.check_signal _ = true |- _ =>
        apply flip_signal_confidence in H
    end;
    try match goal with
    | H : context [Aggressive.success_prob ?d ?s] |- _ =>
        pose proof (aggr_success_prob_range d s)
    end;
    try match goal with
    | H : context [Conservative.success_prob ?d] |- _ =>
        pose proof (cons_success_prob_range d)
    end;
    split; intros; try reflexivity; lra.
Qed.

Lemma outcome_decided_by_draw_witness :
  match
    trade sample_conservative
          (ConservativeBot Conservative.default_config (Conservative.init 10000))
          (constant_world (1 # 2) 0)
  with
  | Ok (o, _, _) => is_win o = true
  | Raise _ => False
  end.
Proof.
  destruct (trade _ _ _) as [[[o b'] w']|e] eqn:E.
  - refine (proj1 (outcome_decided_by_draw _ _ _ _ _ _ E _) _).
    + vm_compute in E. now injection E as <- _ _.
    + reflexivity.
  - vm_compute in E. discriminate E.
Defined.

(** ** The day's profit and loss *)

Lemma trade_pnl data b w o b' w' p :
  daily_pnl b = Ok p ->
  trade data b w = Ok (o, b', w') ->
  exists p', daily_pnl b' = Ok p' /\ capital b' - capital b == p' - p.
Proof.
  intros Hp H.
  trade_cases H; cbn [daily_pnl] in *; try discriminate Hp;
    injection Hp as <-; eexists; (split; [reflexivity|]);
    fields; ring.
Qed.

Lemma run_trades_pnl :
  forall (snaps : list snapshot) (b : bot) (w : world) outs b' w' (p : Q),
    daily_pnl b = Ok p ->
    run (map Trade snaps) b w = Ok (outs, b', w') ->
    exists p', daily_pnl b' = Ok p' /\ capital b' - capital b == p' - p.
Proof.
  induction snaps as [|data snaps IH]; intros b w outs b' w' p Hp H.
  - injection H as _ <- _. exists p. split; [exact Hp|ring].
  - cbn [map] in H.
    apply run_trade_inv in H as (o & b1 & w1 & outs' & H1 & H2 & _).
    destruct (trade_pnl _ _ _ _ _ _ _ Hp H1) as (p1 & Hp1 & E1).
    destruct (IH _ _ _ _ _ _ Hp1 H2) as (p' & Hp' & E').
    exists p'. split; [exact Hp'|]. lra.
Qed.

(** X7.  The day's profit and loss moves with capital: over any sequence
    of trades of an AggressiveBot ([daily_pnl]) or a ConservativeBot
    ([daily_profit]), the change of capital equals the change of the day's
    profit and loss. *)
Theorem daily_pnl_tracks_capital :
  forall (snaps : list snapshot) (b : bot) (w : world) outs b' w' (p : Q),
    daily_pnl b = Ok p ->
    run (map Trade snaps) b w = Ok (outs, b', w') ->
    exists p', daily_pnl b' = Ok p' /\ capital b' - capital b == p' - p.
Proof.
  intros snaps b w outs b' w' p Hp H.
  exact (run_trades_pnl snaps b w outs b' w' p Hp H).
Qed.

Lemma daily_pnl_tracks_capital_witness :
  match
    run (map Trade [sample_aggressive; no_metrics; sample_aggressive])
        (AggressiveBot Aggressive.default_config (Aggressive.init 10000))
        (constant_world (1 # 2) 0)
  with
  | Ok (_, b', _) => exists p', daily_pnl b' = Ok p' /\ capital b' - 10000 == p' - 0
  | Raise _ => False
  end.
Proof.
  destruct (run _ _ _) as [[[outs b'] w']|e] eqn:E.
  - exact (daily_pnl_tracks_capital
             [sample_aggressive; no_metrics; sample_aggressive]
             (AggressiveBot Aggressive.default_config (Aggressive.init 10000))
             (constant_world (1 # 2) 0) outs b' w' 0 eq_refl E).
  - vm_compute in E. discriminate E.
Defined.

(** ** The trade history *)

(** Two instances of one class: the classes differ in their methods. *)
Lemma same_class_flip (b b' : bot) (P Q : Prop) :
  methods b' = methods b ->
  match b with FlipBotV2 _ _ => P | _ => Q end ->
  match b' with FlipBotV2 _ _ => P | _ => Q end.
Proof.
  destruct b, b'; cbn [methods]; intro E; try discriminate E; trivial.
Qed.

Lemma trade_history_step data b w o b' w' :
  trade data b w = Ok (o, b', w') ->
  exists suffix,
    trade_history b' = trade_history b ++ suffix
    /\ match b with
       | FlipBotV2 _ _ => suffix = []
       | _ => map entry suffix = logged [o]
       end.
Proof.
  intro H.
  trade_cases H;
    first [ exists []; split; [now rewrite app_nil_r|reflexivity]
          | eexists [_]; split; reflexivity ].
Qed.

(** X8.  The trade history is append-only and is a faithful log.  Over
    any session the history only grows at its end; in AggressiveBot and
    ConservativeBot what is appended is one record per executed trade, in
    order, with the kind, size, amount and percentage of its message.
    FlipBotV2 never writes its history. *)
Theorem history_is_append_only :
  forall (ops : list op) (b : bot) (w : world) outs b' w',
    run ops b w = Ok (outs, b', w') ->
    exists suffix,
      trade_history b' = trade_history b ++ suffix
      /\ match b with
         | FlipBotV2 _ _ => suffix = []
         | _ => map entry suffix = logged outs
         end.
Proof.
  induction ops as [|[data|name] ops IH]; intros b w outs b' w' H.
  - injection H as <- <- _. exists []. split; [now rewrite app_nil_r|].
    now destruct b.
  - apply run_trade_inv in H as (o & b1 & w1 & outs' & H1 & H2 & ->).
    destruct (trade_history_step _ _ _ _ _ _ H1) as (s1 & E1 & L1).
    destruct (IH _ _ _ _ _ H2) as (s2 & E2 & L2).
    destruct (trade_fixed _ _ _ _ _ _ H1) as (_ & _ & _ & Hm & _).
    exists (s1 ++ s2). split; [now rewrite E2, E1, app_assoc|].
    assert (L2' : match b with
                  | FlipBotV2 _ _ => s2 = []
                  | _ => map entry s2 = logged outs'
                  end).
    { apply (same_class_flip b1 b); [now symmetry|exact L2]. }
    destruct b; try (subst; reflexivity);
      rewrite map_app, L1, L2'; unfold logged; cbn [flat_map];
      now rewrite app_nil_r.
  - apply run_call_inv in H as (b1 & w1 & H1 & H2).
    destruct (call_fixed _ _ _ _ _ H1) as (_ & _ & _ & Hh & _ & _ & Hm & _).
    destruct (IH _ _ _ _ _ H2) as (s2 & E2 & L2).
    exists s2. split; [now rewrite E2, Hh|].
    apply (same_class_flip b1 b); [now symmetry|exact L2].
Qed.

Lemma history_is_append_only_witness :
  match
    run [Trade sample_conservative; Trade no_metrics; Call "end_of_day_summary";
         Trade sample_conservative]
        (ConservativeBot Conservative.default_config (Conservative.init 10000))
        (constant_world (1 # 2) 0)
  with
  | Ok (outs, b', _) =>
      exists suffix,
        trade_history b' = [] ++ suffix /\ map entry suffix = logged outs
  | Raise _ => False
  end.
Proof.
  destruct (run _ _ _) as [[[outs b'] w']|e] eqn:E.
  - exact (history_is_append_only _ _ _ _ _ _ E).
  - vm_compute in E. discriminate E.
Defined.

(** ** Counters *)

Lemma next_hot_streak_range s :
  1 <= Aggressive.hot_streak_multiplier s ->
  Aggressive.hot_streak_multiplier s <= 2 ->
  1 <= Aggressive.next_hot_streak s /\ Aggressive.next_hot_streak s <= 2.
Proof.
  intros H1 H2. unfold Aggressive.next_hot_streak.
  destruct (3 <=? _)%Z eqn:E; qprop.
  - split; [|apply pymin_le_l].
    apply pymin_glb; [lra|].
    assert (3 <= inject_Z (Aggressive.consecutive_wins s))
      by (change 3 with (inject_Z 3); now rewrite <- Zle_Qle).
    lra.
  - split; [apply pymax_ge_l|apply pymax_lub; lra].
Qed.

(** X9.  The hot streak multiplier of an AggressiveBot stays between 1
    and 2 over any session that starts with it there (a new instance starts
    at 1). *)
Theorem hot_streak_multiplier_range :
  forall cfg (s : Aggressive.state) (ops : list op) (w : world) outs b' w',
    1 <= Aggressive.hot_streak_multiplier s ->
    Aggressive.hot_streak_multiplier s <= 2 ->
    run ops (AggressiveBot cfg s) w = Ok (outs, b', w') ->
    match b' with
    | AggressiveBot _ s' =>
        1 <= Aggressive.hot_streak_multiplier s'
        /\ Aggressive.hot_streak_multiplier s' <= 2
    | _ => False
    end.
Proof.
  intros cfg s ops w outs b' w' H1 H2 Hrun.
  pose (inv := fun b : bot =>
                 match b with
                 | AggressiveBot _ s' =>
                     1 <= Aggressive.hot_streak_multiplier s'
                     /\ Aggressive.hot_streak_multiplier s' <= 2
                 | _ => False
                 end).
  refine (run_rel (fun x y => inv (fst x) -> inv (fst y))
            _ _ _ _ ops _ w outs b' w' Hrun (conj H1 H2)).
  - auto.
  - auto.
  - cbn [fst]. intros data b0 w0 o b1 w1 Ht Hinv. unfold inv in *.
    trade_cases Ht; try contradiction; destruct Hinv as [Ha Hb];
      try (split; assumption);
      match goal with
      | |- context [Aggressive.next_hot_streak ?s0] =>
          destruct (next_hot_streak_range s0 Ha Hb) as [Hc Hd]
      end; try (split; assumption).
    split; [apply pymax_ge_l|apply pymax_lub; lra].
  - cbn [fst]. intros name b0 w0 b1 w1 Hc Hinv.
    destruct b0 as [c0 s0| |]; try contradiction.
    unfold call in Hc.
    repeat match type of Hc with
    | (if ?c then _ else _) = _ => destruct c
    end; try discriminate Hc; injection Hc as <- _; exact Hinv.
Qed.

Lemma hot_streak_multiplier_range_witness :
  match
    run [Trade sample_aggressive; Trade sample_aggressive; Trade sample_aggressive;
         Trade sample_aggressive; Trade sample_aggressive]
        (AggressiveBot Aggressive.default_config (Aggressive.init 10000))
        (constant_world 0 0)
  with
  | Ok (_, AggressiveBot _ s', _) =>
      1 <= Aggressive.hot_streak_multiplier s'
      /\ Aggressive.hot_streak_multiplier s' <= 2
  | _ => False
  end.
Proof.
  destruct (run _ _ _) as [[[outs b'] w']|e] eqn:E.
  - refine (hot_streak_multiplier_range _ _ _ _ _ _ _ _ _ E);
      vm_compute; discriminate.
  - vm_compute in E. discriminate E.
Defined.

Lemma counters_ok_constructed c b : constructed c b -> counters_ok b.
Proof. intros [cfg|cfg|cfg]; cbv; intuition discriminate. Qed.

Lemma trade_counters data b w o b' w' :
  trade data b w = Ok (o, b', w') -> counters_ok b -> counters_ok b'.
Proof.
  intros H (Hd & Hc). unfold counters_ok in *.
  trade_cases H; lia.
Qed.

Lemma call_counters name b w b' w' :
  call name b w = Ok (b', w') -> counters_ok b -> counters_ok b'.
Proof.
  intros H (Hd & Hc). unfold counters_ok in *.
  destruct b; unfold call in H;
    repeat match type of H with
    | (if ?c then _ else _) = _ => destruct c
    end; try discriminate H;
    unfold Aggressive.reset_daily_stats, Conservative.end_of_day_summary,
      utcnow in H;
    injection H as <- _; fields;
    try destruct (Qltb 0 (Conservative.daily_profit s)); lia.
Qed.

(** X10.  The counters of an instance stay in order over any session from
    a new instance: the daily trade count and the streak counters are never
    negative, the best streak ([max_consecutive_wins], [best_streak]) is
    never below the current one, and ConservativeBot's safety violations are
    never negative and its profitable days in a row never exceed its
    profitable days in all. *)
Theorem counters_stay_in_order :
  forall (c : Q) (b0 : bot) (ops : list op) (w : world) outs b w',
    constructed c b0 ->
    run ops b0 w = Ok (outs, b, w') ->
    counters_ok b.
Proof.
  intros c b0 ops w outs b w' Hnew Hrun.
  refine (run_rel (fun x y => counters_ok (fst x) -> counters_ok (fst y))
            _ _ _ _ ops b0 w outs b w' Hrun (counters_ok_constructed c b0 Hnew)).
  - auto.
  - auto.
  - cbn [fst]. intros. eapply trade_counters; eassumption.
  - cbn [fst]. intros. eapply call_counters; eassumption.
Qed.

Lemma counters_stay_in_order_witness :
  match
    run [Trade sample_flip; Trade sample_flip; Trade no_metrics; Trade sample_flip]
        (FlipBotV2 Flip.default_config (Flip.init 10000))
        (constant_world (72 # 100) 0)
  with
  | Ok (_, b, _) => counters_ok b
  | Raise _ => False
  end.
Proof.
  destruct (run _ _ _) as [[[outs b] w']|e] eqn:E.
  - exact (counters_stay_in_order 10000 _ _ _ _ _ _ (new_flip _ _) E).
  - vm_compute in E. discriminate E.
Defined.

Lemma call_daily name b w b' w' :
  call name b w = Ok (b', w') ->
  daily_trades b' = 0%Z \/ daily_trades b' = daily_trades b.
Proof.
  intro H. destruct b; unfold call in H;
    repeat match type of H with
    | (if ?c then _ else _) = _ => destruct c
    end; try discriminate H;
    unfold Aggressive.reset_daily_stats, Conservative.end_of_day_summary,
      utcnow in H;
    injection H as <- _; fields; auto.
Qed.

(** X11.  The daily limit is never exceeded: with a limit that is not
    negative, over any session from a new instance the daily trade count
    stays between 0 and [max_daily_trades]. *)
Theorem daily_trades_within_limit :
  forall (c : Q) (b0 : bot) (ops : list op) (w : world) outs b w',
    constructed c b0 ->
    (0 <= max_daily_trades b0)%Z ->
    run ops b0 w = Ok (outs, b, w') ->
    (0 <= daily_trades b <= max_daily_trades b0)%Z.
Proof.
  intros c b0 ops w outs b w' Hnew Hmax Hrun.
  assert (H0 : daily_trades b0 = 0%Z) by (now destruct Hnew).
  pose (inv := fun (m : Z) (b : bot) =>
                 max_daily_trades b = m /\ (0 <= daily_trades b <= m)%Z).
  assert (Hinv : inv (max_daily_trades b0) b).
  { refine (run_rel (fun x y => inv (max_daily_trades b0) (fst x)
                                -> inv (max_daily_trades b0) (fst y))
              _ _ _ _ ops b0 w outs b w' Hrun _).
    - auto.
    - auto.
    - cbn [fst]. unfold inv. intros data b1 w1 o b2 w2 Ht [Hm Hd].
      destruct (trade_daily _ _ _ _ _ _ Ht) as [Hd' Hlt].
      destruct (trade_fixed _ _ _ _ _ _ Ht) as (_ & _ & Hm' & _).
      split; [congruence|]. rewrite Hd'.
      destruct (is_blocked o); [lia|]. specialize (Hlt eq_refl). lia.
    - cbn [fst]. unfold inv. intros name b1 w1 b2 w2 Hc [Hm Hd].
      destruct (call_fixed _ _ _ _ _ Hc) as (_ & _ & _ & _ & _ & Hm' & _).
      split; [congruence|].
      destruct (call_daily _ _ _ _ _ Hc) as [-> | ->]; lia.
    - unfold inv. cbn [fst]. split; [reflexivity|lia]. }
  unfold inv in Hinv. apply Hinv.
Qed.

Lemma daily_trades_within_limit_witness :
  match
    run [Trade sample_flip; Trade sample_flip; Trade sample_flip]
        one_trade_flip (constant_world 0 0)
  with
  | Ok (_, b, _) => (0 <= daily_trades b <= 1)%Z
  | Raise _ => False
  end.
Proof.
  destruct (run _ _ _) as [[[outs b] w']|e] eqn:E.
  - refine (daily_trades_within_limit 10000 one_trade_flip _ _ _ _ _
              (new_flip _ _) _ E).
    vm_compute. discriminate.
  - vm_compute in E. discriminate E.
Defined.

(** ** What the drawdown stop guarantees *)

Lemma worst_case_factor_class b b' :
  methods b' = methods b -> worst_case_factor b' = worst_case_factor b.
Proof.
  destruct b, b'; cbn [methods]; intro E; try discriminate E; reflexivity.
Qed.

Lemma capital_floor_same b b' :
  methods b' = methods b ->
  drawdown_limit b' = drawdown_limit b ->
  initial_capital b' = initial_capital b ->
  capital_floor b' = capital_floor b.
Proof.
  intros Hm Hl Hi. unfold capital_floor.
  now rewrite (worst_case_factor_class _ _ Hm), Hl, Hi.
Qed.

(** Below the drawdown limit, capital is at least the protected share of
    the initial capital. *)
Lemma within_drawdown_limit (ic cap limit d : Q) :
  0 < ic -> pydiv (ic - cap) ic = Ok d -> d <= limit -> (1 - limit) * ic <= cap.
Proof.
  intros Hic Hd Hl. apply pydiv_inv in Hd as [Hnz ->].
  assert (E : (ic - cap) / ic * ic == ic - cap) by (field; exact Hnz).
  assert ((ic - cap) / ic * ic <= limit * ic) by nra.
  lra.
Qed.

Lemma trade_floor data b w o b' w' :
  healthy b -> unit_interval w -> admissible b (Trade data) ->
  capital_floor b <= capital b ->
  trade data b w = Ok (o, b', w') ->
  healthy b' /\ capital_floor b' <= capital b'.
Proof.
  intros Hh Hu Ha Hf Ht.
  destruct (trade_healthy data b w Hh Hu Ha) as (o1 & b1 & w1 & Ht1 & Hh1 & Hw).
  rewrite Ht in Ht1. injection Ht1 as <- <- <-. split; [exact Hh1|].
  destruct (trade_fixed _ _ _ _ _ _ Ht) as (Hi & Hl & _ & Hm & _).
  rewrite (capital_floor_same _ _ Hm Hl Hi).
  destruct (is_blocked o) eqn:Hb.
  - destruct o; try discriminate Hb.
    destruct (trade_blocked _ _ _ _ _ _ Ht) as (_ & -> & _). exact Hf.
  - destruct (trade_passed_checks _ _ _ _ _ _ Ht Hb)
      as (_ & _ & (d & Hd & Hdl) & _).
    destruct Hh as (Hic & Hc & _).
    pose proof (within_drawdown_limit _ _ _ _ Hic Hd Hdl) as Hcap.
    pose proof (worst_case_factor_positive b) as Hpos.
    unfold capital_floor.
    assert (worst_case_factor b * ((1 - drawdown_limit b) * initial_capital b)
            <= worst_case_factor b * capital b) by nra.
    lra.
Qed.

Lemma run_floor ops :
  forall b w outs b' w',
    healthy b -> unit_interval w -> Forall (admissible b) ops ->
    capital_floor b <= capital b ->
    run ops b w = Ok (outs, b', w') ->
    capital_floor b <= capital b'.
Proof.
  induction ops as [|[data|name] ops IH]; intros b w outs b' w' Hb Hu Hops Hf H.
  - now injection H as _ <- _.
  - inversion Hops as [|? ? Ha Hops']; subst.
    apply run_trade_inv in H as (o & b1 & w1 & outs' & H1 & H2 & _).
    destruct (trade_floor _ _ _ _ _ _ Hb Hu Ha Hf H1) as [Hb1 Hf1].
    destruct (trade_fixed _ _ _ _ _ _ H1)
      as (Hi & Hl & _ & Hm & _ & _ & _ & _ & Hr).
    rewrite <- (capital_floor_same _ _ Hm Hl Hi).
    apply (IH b1 w1 outs' b' w'); trivial.
    + exact (unit_interval_same _ _ Hr Hu).
    + eapply Forall_impl; [|exact Hops']. intro o'. now apply admissible_same.
  - inversion Hops as [|? ? Ha Hops']; subst.
    apply run_call_inv in H as (b1 & w1 & H1 & H2).
    destruct (call_fixed _ _ _ _ _ H1)
      as (Hc & Hi & _ & _ & Hl & _ & Hm & _ & Hr & _).
    rewrite <- (capital_floor_same _ _ Hm Hl Hi).
    apply (IH b1 w1 outs b' w'); trivial.
    + exact (call_healthy _ _ _ _ _ H1 Hb).
    + exact (unit_interval_same _ _ Hr Hu).
    + eapply Forall_impl; [|exact Hops']. intro o'. now apply admissible_same.
    + rewrite (capital_floor_same _ _ Hm Hl Hi), Hc. exact Hf.
Qed.

(** X12.  The drawdown stop bounds the total loss.  For an instance built
    with positive capital [c] and a drawdown limit that is not negative,
    capital never falls below [worst_case_factor * (1 - limit) * c] in any
    session: a trade is only taken while the drawdown is within the limit,
    and one trade costs at most the worst case fraction.  (Same conditions on
    the generator and on ConservativeBot's snapshots as for C10.) *)
Theorem drawdown_stop_bounds_loss :
  forall (c : Q) (b0 : bot) (ops : list op) (w : world) outs b w',
    0 < c ->
    constructed c b0 ->
    0 <= drawdown_limit b0 ->
    unit_interval w ->
    Forall (admissible b0) ops ->
    run ops b0 w = Ok (outs, b, w') ->
    worst_case_factor b0 * (1 - drawdown_limit b0) * c <= capital b.
Proof.
  intros c b0 ops w outs b w' Hc Hnew Hl Hu Hops Hrun.
  assert (Hb0 : healthy b0).
  { destruct Hnew; repeat split; trivial; reflexivity. }
  assert (Hi : initial_capital b0 = c) by (now destruct Hnew).
  assert (Hcap : capital b0 = c) by (now destruct Hnew).
  pose proof (run_floor ops b0 w outs b w' Hb0 Hu Hops) as H.
  unfold capital_floor in H. rewrite Hi, Hcap in H. apply H; trivial.
  assert (0 <= drawdown_limit b0 * c) by (apply Qmult_le_0_compat; lra).
  destruct Hnew; cbv [worst_case_factor max_pct loss_cap]; lra.
Qed.

Lemma drawdown_stop_bounds_loss_witness :
  match
    run [Trade sample_aggressive; Trade sample_aggressive; Call "reset_daily_stats";
         Trade sample_aggressive]
        (AggressiveBot Aggressive.default_config (Aggressive.init 10000))
        (constant_world (99 # 100) 0)
  with
  | Ok (_, b, _) =>
      (1 - (20 # 100) * (6 # 100)) * (1 - (18 # 100)) * 10000 <= capital b
  | Raise _ => False
  end.
Proof.
  destruct (run _ _ _) as [[[outs b] w']|e] eqn:E.
  - refine (drawdown_stop_bounds_loss 10000
              (AggressiveBot Aggressive.default_config (Aggressive.init 10000))
              _ _ _ _ _ _ (new_aggressive _ _) _ _ _ E).
    + reflexivity.
    + vm_compute. discriminate.
    + intro n. split; vm_compute; [discriminate|reflexivity].
    + repeat constructor.
  - vm_compute in E. discriminate E.
Defined.

(** ** The sign of a trade's result *)

Lemma pymin_pos (a b : Q) : 0 < a -> 0 < b -> 0 < pymin a b.
Proof. intros. unfold pymin. now destruct (Qltb b a). Qed.

Ltac table_pos :=
  first [ apply dict_get_ind; [repeat constructor; cbn [snd]; lra | lra]
        | repeat match goal with
                 | |- context [if ?c then _ else _] => destruct c
                 end; lra ].

Ltac product_pos :=
  repeat (apply Qmult_lt_0_compat); try lra; try table_pos.

(** The size of the accepted trade in the context, with its bounds. *)
Ltac sizing_facts Hc :=
  match goal with
  | S : Aggressive.calculate_position_size _ _ _ = Ok (?q, _) |- _ =>
      destruct (aggr_sizing_bounds _ _ _ _ _ (Qlt_le_weak _ _ Hc) S)
  | S : Conservative.calculate_position_size _ _ _ = Ok ?q |- _ =>
      destruct (cons_sizing_bounds _ _ _ _ (Qlt_le_weak _ _ Hc) S)
  | S : Flip.calculate_position_size _ _ _ = Ok ?q |- _ =>
      destruct (flip_sizing_bounds _ _ _ _ (Qlt_le_weak _ _ Hc) S)
  end.

(** X13.  A win always adds to capital and a FlipBotV2 loss always takes
    from it: for an instance in working order (positive capital, the
    generator in [0, 1), ConservativeBot's confidence not negative) a winning
    trade leaves strictly more capital than before, and a losing FlipBotV2
    trade strictly less. *)
Theorem win_raises_capital :
  forall (data : snapshot) (b : bot) (w : world) o b' w',
    healthy b -> unit_interval w -> admissible b (Trade data) ->
    trade data b w = Ok (o, b', w') ->
    (is_win o = true -> capital b < capital b')
    /\ (is_loss o = true ->
        match b with
        | FlipBotV2 _ _ => capital b' < capital b
        | _ => True
        end).
Proof.
  intros data b w o b' w' (Hic & Hc & Hw) Hu Ha H.
  trade_cases H; cbn [admissible] in Ha;
    (split; intro Ho; try discriminate Ho; trivial);
    try pose proof (inject_Z_nonneg _ Hw);
    payoff_facts Hu; sizing_facts Hc; unfold Flip.stop_loss in *;
    match goal with
    | |- context [?q * pymin ?cap ?p] =>
        assert (0 < pymin cap p) by (apply pymin_pos; [lra|product_pos]);
        assert (0 < q * pymin cap p) by (apply Qmult_lt_0_compat; lra)
    end; lra.
Qed.

Lemma win_raises_capital_witness :
  match
    trade sample_flip (FlipBotV2 Flip.default_config (Flip.init 10000))
          (constant_world 0 0)
  with
  | Ok (o, b', _) => is_win o = true /\ 10000 < capital b'
  | Raise _ => False
  end.
Proof.
  destruct (trade _ _ _) as [[[o b'] w']|e] eqn:E.
  - assert (Ho : is_win o = true).
    { vm_compute in E. now injection E as <- _ _. }
    split; [exact Ho|].
    refine (proj1 (win_raises_capital sample_flip
              (FlipBotV2 Flip.default_config (Flip.init 10000))
              (constant_world 0 0) o b' w' _ _ _ E) Ho).
    + repeat split; vm_compute; reflexivity.
    + intro n. split; vm_compute; [discriminate|reflexivity].
    + exact I.
  - vm_compute in E. discriminate E.
Defined.

(** ** Zero initial capital *)

Lemma pydiv_zero (a b : Q) : b == 0 -> pydiv a b = Raise ZeroDivisionError.
Proof.
  intro H. unfold pydiv.
  destruct (Qeq_bool b 0) eqn:E; [reflexivity|].
  apply Qeq_bool_false in E. contradiction.
Qed.

Lemma Qltb_zero_false (x : Q) : x == 0 -> Qltb 0 x = false.
Proof. intro H. apply Qltb_false. rewrite H. apply Qle_refl. Qed.

(** X14.  With an initial capital of zero, [trade] raises
    ZeroDivisionError as soon as it gets past the daily limit (and, in
    ConservativeBot, past the daily target check, which comes before the
    division), whatever the snapshot; [get_status] guards the same divisions
    and reports a drawdown and a total return of 0. *)
Theorem zero_initial_capital_raises :
  forall (data : snapshot) (b : bot) (w : world),
    initial_capital b == 0 ->
    (daily_trades b < max_daily_trades b)%Z ->
    match b with
    | ConservativeBot cfg s =>
        Conservative.daily_return s < Conservative.daily_target cfg
    | _ => True
    end ->
    trade data b w = Raise ZeroDivisionError
    /\ reported_drawdown b w = 0
    /\ reported_return b w = 0.
Proof.
  intros data b w Hic Hd Ht.
  destruct b as [cfg s|cfg s|cfg s];
    cbn [initial_capital daily_trades max_daily_trades] in Hic, Hd;
    apply Z.leb_gt in Hd.
  - split.
    + unfold trade, Aggressive.trade. rewrite Hd, (pydiv_zero _ _ Hic). reflexivity.
    + unfold reported_drawdown, reported_return, Aggressive.get_status, utcnow.
      cbn [fst Aggressive.st_drawdown Aggressive.st_total_return].
      rewrite (Qltb_zero_false _ Hic). split; reflexivity.
  - split.
    + apply Qleb_false in Ht.
      unfold trade, Conservative.trade. rewrite Hd, Ht, (pydiv_zero _ _ Hic).
      reflexivity.
    + unfold reported_drawdown, reported_return, Conservative.get_status, utcnow.
      cbn [fst Conservative.st_drawdown Conservative.st_total_return].
      rewrite (Qltb_zero_false _ Hic). split; reflexivity.
  - split.
    + unfold trade, Flip.trade. rewrite Hd, (pydiv_zero _ _ Hic). reflexivity.
    + unfold reported_drawdown, reported_return, Flip.get_status.
      cbn [Flip.st_drawdown Flip.st_total_return].
      rewrite (Qltb_zero_false _ Hic). split; reflexivity.
Qed.

Lemma zero_initial_capital_raises_witness :
  trade sample_conservative
        (ConservativeBot Conservative.default_config (Conservative.init 0))
        (constant_world 0 0)
  = Raise ZeroDivisionError
  /\ reported_drawdown
       (ConservativeBot Conservative.default_config (Conservative.init 0))
       (constant_world 0 0) = 0
  /\ reported_return
       (ConservativeBot Conservative.default_config (Conservative.init 0))
       (constant_world 0 0) = 0.
Proof.
  apply (zero_initial_capital_raises sample_conservative
           (ConservativeBot Conservative.default_config (Conservative.init 0))).
  - reflexivity.
  - reflexivity.
  - reflexivity.
Defined.

(** ** What [get_status] reports *)

(** X15.  The drawdown [get_status] reports is the opposite of the total
    return it reports, in every class and for every state: both are 0 when
    the initial capital is not positive, and otherwise they are
    [(initial - capital) / initial] and [(capital - initial) / initial]. *)
Theorem reported_drawdown_mirrors_return :
  forall (b : bot) (w : world),
    reported_drawdown b w == - reported_return b w.
Proof.
  intros [cfg s|cfg s|cfg s] w;
    unfold reported_drawdown, reported_return, Aggressive.get_status,
      Conservative.get_status, Flip.get_status, utcnow;
    cbn [fst Aggressive.st_drawdown Aggressive.st_total_return
         Conservative.st_drawdown Conservative.st_total_return
         Flip.st_drawdown Flip.st_total_return];
    match goal with
    | |- context [Qltb 0 ?x] => destruct (Qltb 0 x) eqn:E
    end; qprop; try reflexivity; field; lra.
Qed.

Lemma py_len_nonneg {A : Type} (xs : list A) : 0 <= py_len xs.
Proof. unfold py_len. apply inject_Z_nonneg. lia. Qed.

Lemma py_len_cons_pos {A : Type} (x : A) (xs : list A) : 0 < py_len (x :: xs).
Proof.
  unfold py_len. change 0 with (inject_Z 0). rewrite <- Zlt_Qlt.
  cbn [List.length]. lia.
Qed.

Lemma py_len_filter {A : Type} (f : A -> bool) (xs : list A) :
  py_len (filter f xs) <= py_len xs.
Proof.
  unfold py_len. rewrite <- Zle_Qle. apply Nat2Z.inj_le, filter_length_le.
Qed.

(** The share of a list that passes a test, as the status functions compute
    it, is a fraction. *)
Lemma share_range {A : Type} (f : A -> bool) (xs : list A) :
  0 <= match xs with
       | [] => 0
       | x :: t => py_len (filter f (x :: t)) / py_len (x :: t)
       end <= 1.
Proof.
  destruct xs as [|x xs]; [lra|].
  pose proof (py_len_cons_pos x xs) as Hp.
  pose proof (py_len_nonneg (filter f (x :: xs))) as Hn.
  pose proof (py_len_filter f (x :: xs)) as Hf.
  split.
  - apply Qle_shift_div_l; [exact Hp|lra].
  - apply Qle_shift_div_r; [exact Hp|lra].
Qed.

(** X16.  Every rate in a status is a fraction: AggressiveBot's win rate
    (over its last 25 trades), ConservativeBot's win rate (over its whole
    history) and its target achievement rate lie between 0 and 1 for every
    state, the empty histories included, where they are 0. *)
Theorem status_rates_are_fractions :
  (forall cfg s w,
      0 <= Aggressive.st_win_rate (fst (Aggressive.get_status cfg s w)) <= 1)
  /\ (forall cfg s w,
         0 <= Conservative.st_win_rate (fst (Conservative.get_status cfg s w)) <= 1
         /\ 0 <= Conservative.st_target_achievement_rate
                   (fst (Conservative.get_status cfg s w)) <= 1)
  /\ (forall cfg cfg' w c,
         Aggressive.st_win_rate
           (fst (Aggressive.get_status cfg (Aggressive.init c) w)) = 0
         /\ Conservative.st_win_rate
              (fst (Conservative.get_status cfg' (Conservative.init c) w)) = 0).
Proof.
  split; [|split].
  - intros cfg s w. unfold Aggressive.get_status, utcnow.
    cbn [fst Aggressive.st_win_rate]. unfold Aggressive.win_rate.
    apply share_range.
  - intros cfg s w. unfold Conservative.get_status, utcnow.
    cbn [fst Conservative.st_win_rate Conservative.st_target_achievement_rate].
    unfold Conservative.win_rate, Conservative.target_achievement_rate.
    split; apply share_range.
  - intros cfg cfg' w c. split; reflexivity.
Qed.

Lemma recent_trades_window (s : Aggressive.state) (old recent : list trade_record) :
  List.length recent = 25%nat ->
  Aggressive.recent_trades (aggressive_with_history s (old ++ recent)) = recent.
Proof.
  intro H. unfold Aggressive.recent_trades, aggressive_with_history.
  cbn [Aggressive.trade_history].
  rewrite length_app, H.
  replace (25 <=? List.length old + 25)%nat with true
    by (symmetry; apply Nat.leb_le; lia).
  replace (List.length old + 25 - 25)%nat with (List.length old + 0)%nat by lia.
  rewrite skipn_app, Nat.add_0_r, skipn_all.
  replace (List.length old - List.length old)%nat with 0%nat by lia.
  reflexivity.
Qed.

(** X17.  AggressiveBot's status statistics look at the last 25 trades
    only: once the history holds 25 trades, the win rate, the average win and
    the average loss are those of the last 25, whatever came before, while
    ['total_trades'] still counts the whole history. *)
Theorem aggressive_status_window :
  forall cfg (s : Aggressive.state) (old recent : list trade_record) (w : world),
    List.length recent = 25%nat ->
    let st := fst (Aggressive.get_status cfg
                     (aggressive_with_history s (old ++ recent)) w) in
    let st25 := fst (Aggressive.get_status cfg
                       (aggressive_with_history s recent) w) in
    Aggressive.st_win_rate st = Aggressive.st_win_rate st25
    /\ Aggressive.st_avg_win st = Aggressive.st_avg_win st25
    /\ Aggressive.st_avg_loss st = Aggressive.st_avg_loss st25
    /\ Aggressive.st_total_trades st = (List.length old + 25)%nat.
Proof.
  intros cfg s old recent w H. cbv zeta.
  unfold Aggressive.get_status, utcnow.
  cbn [fst Aggressive.st_win_rate Aggressive.st_avg_win Aggressive.st_avg_loss
       Aggressive.st_total_trades].
  unfold Aggressive.win_rate, Aggressive.avg_win, Aggressive.avg_loss.
  rewrite (recent_trades_window s old recent H).
  rewrite (recent_trades_window s [] recent H : Aggressive.recent_trades
             (aggressive_with_history s recent) = recent).
  repeat split.
  unfold aggressive_with_history. cbn [Aggressive.trade_history].
  now rewrite length_app, H.
Qed.

Lemma aggressive_status_window_witness :
  let old := repeat {| timestamp := 0; kind := LOSS; size := 100; amount := 5;
                       pct := 5 # 100; confidence := 1 # 2;
                       rec_regime := "unknown"; streak := None;
                       hot_streak_mult := None |} 40 in
  let recent := repeat {| timestamp := 0; kind := WIN; size := 100; amount := 7;
                          pct := 7 # 100; confidence := 1 # 2;
                          rec_regime := "unknown"; streak := None;
                          hot_streak_mult := None |} 25 in
  Aggressive.st_win_rate
    (fst (Aggressive.get_status Aggressive.default_config
            (aggressive_with_history (Aggressive.init 10000) (old ++ recent))
            (constant_world 0 0)))
  = Aggressive.st_win_rate
      (fst (Aggressive.get_status Aggressive.default_config
              (aggressive_with_history (Aggressive.init 10000) recent)
              (constant_world 0 0))).
Proof.
  cbv zeta.
  refine (proj1 (aggressive_status_window Aggressive.default_config
                   (Aggressive.init 10000) (repeat _ 40) (repeat _ 25)
                   (constant_world 0 0) _)).
  reflexivity.
Defined.

(** ** ConservativeBot's safety violations *)

Lemma cons_trade_violations cfg data s w o s' w' :
  Conservative.trade cfg data s w = Ok (o, s', w') ->
  Conservative.safety_violations s'
  = (Conservative.safety_violations s + (if is_rejected o then 1 else 0))%Z.
Proof.
  intro H.
  assert (Ht : trade data (ConservativeBot cfg s) w
               = Ok (o, ConservativeBot cfg s', w')).
  { unfold trade. now rewrite H. }
  clear H. revert Ht.
  generalize (eq_refl (ConservativeBot cfg s)).
  generalize (ConservativeBot cfg s) at 1 3 as b.
  generalize (eq_refl (ConservativeBot cfg s')).
  generalize (ConservativeBot cfg s') at 1 3 as b'.
  intros b' Hb' b Hb H.
  trade_cases H; try discriminate Hb;
    injection Hb as <- <-; injection Hb' as <-; cbn [is_rejected];
    fields; lia.
Qed.

Lemma cons_trade_inv cfg data s w o b' w' :
  trade data (ConservativeBot cfg s) w = Ok (o, b', w') ->
  exists s', b' = ConservativeBot cfg s'
             /\ Conservative.trade cfg data s w = Ok (o, s', w').
Proof.
  unfold trade.
  destruct (Conservative.trade cfg data s w) as [[[o1 s1] w1]|e];
    cbn; intro H; [|discriminate H].
  injection H as <- <- <-. eauto.
Qed.

Lemma run_cons_violations snaps :
  forall cfg s w outs b' w',
    run (map Trade snaps) (ConservativeBot cfg s) w = Ok (outs, b', w') ->
    exists s', b' = ConservativeBot cfg s'
      /\ Conservative.safety_violations s'
         = (Conservative.safety_violations s
            + Z.of_nat (List.length (filter is_rejected outs)))%Z.
Proof.
  induction snaps as [|data snaps IH]; intros cfg s w outs b' w' H.
  - injection H as <- <- <-. exists s. split; [reflexivity|]. cbn. lia.
  - cbn [map] in H.
    apply run_trade_inv in H as (o & b1 & w1 & outs' & H1 & H2 & ->).
    apply cons_trade_inv in H1 as (s1 & -> & H1).
    destruct (IH _ _ _ _ _ _ H2) as (s' & -> & Hv).
    exists s'. split; [reflexivity|].
    rewrite Hv, (cons_trade_violations _ _ _ _ _ _ _ H1). cbn [filter].
    destruct (is_rejected o); cbn [List.length]; lia.
Qed.

(** X18.  The daily summary reports the day.  For a ConservativeBot at the
    start of a day (its three daily counters at 0, as after [__init__] and
    after every [end_of_day_summary]), the summary taken after a sequence of
    trades holds the number of executed trades, the number of snapshots the
    safety filters turned down, and the day's change of capital as profit;
    the day counts as profitable exactly when capital grew; and the instance
    is at the start of a day again. *)
Theorem day_summary_reports_the_day :
  forall cfg (s : Conservative.state) (snaps : list snapshot) (w : world)
         outs s' w',
    Conservative.daily_trades s = 0%Z ->
    Conservative.daily_profit s = 0 ->
    Conservative.safety_violations s = 0%Z ->
    run (map Trade snaps) (ConservativeBot cfg s) w
    = Ok (outs, ConservativeBot cfg s', w') ->
    let '(d, s'', _) := Conservative.end_of_day_summary cfg s' w' in
    Conservative.day_trades d = Z.of_nat (executed outs)
    /\ Conservative.day_safety_violations d
       = Z.of_nat (List.length (filter is_rejected outs))
    /\ Conservative.day_profit d
       == Conservative.capital s' - Conservative.capital s
    /\ Conservative.total_profitable_days s''
       = (Conservative.total_profitable_days s'
          + (if Qltb (Conservative.capital s) (Conservative.capital s')
             then 1 else 0))%Z
    /\ Conservative.daily_trades s'' = 0%Z
    /\ Conservative.daily_profit s'' = 0
    /\ Conservative.safety_violations s'' = 0%Z.
Proof.
  intros cfg s snaps w outs s' w' Hd Hp Hv Hrun.
  destruct (run_trades_daily _ _ _ _ _ _ Hrun) as [Hd' _].
  destruct (run_trades_pnl snaps (ConservativeBot cfg s) w outs _ w'
              (Conservative.daily_profit s) eq_refl Hrun) as (p' & Hp' & Hcap).
  destruct (run_cons_violations _ _ _ _ _ _ _ Hrun) as (s1 & Hs1 & Hv').
  injection Hs1 as <-.
  cbn [daily_trades daily_pnl capital] in Hd', Hp', Hcap.
  injection Hp' as <-. rewrite Hp in Hcap. rewrite Hd in Hd'. rewrite Hv in Hv'.
  unfold Conservative.end_of_day_summary, utcnow.
  cbn [Conservative.day_trades Conservative.day_safety_violations
       Conservative.day_profit Conservative.total_profitable_days
       Conservative.daily_trades Conservative.daily_profit
       Conservative.safety_violations].
  repeat split; try assumption; try lra.
  destruct (Qltb 0 (Conservative.daily_profit s')) eqn:E1,
           (Qltb (Conservative.capital s) (Conservative.capital s')) eqn:E2;
    qprop; try lia; exfalso; lra.
Qed.

Lemma day_summary_reports_the_day_witness :
  match
    run (map Trade [sample_conservative; no_metrics; sample_conservative])
        (ConservativeBot Conservative.default_config (Conservative.init 10000))
        (constant_world 0 0)
  with
  | Ok (outs, ConservativeBot cfg s', w') =>
      let '(d, _, _) := Conservative.end_of_day_summary cfg s' w' in
      Conservative.day_trades d = Z.of_nat (executed outs)
      /\ Conservative.day_safety_violations d = 1%Z
  | _ => False
  end.
Proof.
  destruct (run _ _ _) as [[[outs b'] w']|e] eqn:E.
  - destruct (run_cons_violations _ _ _ _ _ _ _ E) as (s' & -> & _).
    assert (Hr : List.length (filter is_rejected outs) = 1%nat).
    { vm_compute in E. now injection E as <- _ _. }
    pose proof (day_summary_reports_the_day Conservative.default_config
                  (Conservative.init 10000)
                  [sample_conservative; no_metrics; sample_conservative]
                  (constant_world 0 0) outs s' w' eq_refl eq_refl eq_refl E) as H.
    destruct (Conservative.end_of_day_summary _ s' w') as [[d s''] w''].
    destruct H as (H1 & H2 & _). rewrite Hr in H2. split; assumption.
  - vm_compute in E. discriminate E.
Defined.

Lemma safety_score_range (s : Conservative.state) :
  (0 <= Conservative.daily_trades s)%Z ->
  (0 <= Conservative.safety_violations s)%Z ->
  0 <= Conservative.safety_score s <= 1
  /\ (Conservative.safety_violations s = 0%Z -> Conservative.safety_score s == 1).
Proof.
  intros Hd Hv. unfold Conservative.safety_score.
  set (v := Conservative.safety_violations s) in *.
  set (m := Z.max 1 (Conservative.daily_trades s + v)).
  assert (Hm : (1 <= m)%Z) by (unfold m; lia).
  assert (Hvm : (v <= m)%Z) by (unfold m; lia).
  assert (Qm : 0 < inject_Z m).
  { change 0 with (inject_Z 0). rewrite <- Zlt_Qlt. lia. }
  assert (Qv : 0 <= inject_Z v) by (apply inject_Z_nonneg; exact Hv).
  assert (Qvm : inject_Z v <= inject_Z m) by (rewrite <- Zle_Qle; exact Hvm).
  assert (H0 : 0 <= inject_Z v / inject_Z m)
    by (apply Qle_shift_div_l; [exact Qm|lra]).
  assert (H1 : inject_Z v / inject_Z m <= 1)
    by (apply Qle_shift_div_r; [exact Qm|lra]).
  split; [split; lra|].
  intros ->. change (inject_Z 0) with 0. unfold Qdiv. rewrite Qmult_0_l. reflexivity.
Qed.

(** X19.  The safety score in a ConservativeBot status is a fraction over
    any session from a new instance: it lies between 0 and 1, and it is 1
    while no snapshot has been turned down by the safety filters since the
    last [end_of_day_summary]. *)
Theorem safety_score_is_a_fraction :
  forall (c : Q) cfg (ops : list op) (w : world) outs s' w',
    run ops (ConservativeBot cfg (Conservative.init c)) w
    = Ok (outs, ConservativeBot cfg s', w') ->
    let sc := Conservative.st_safety_score
                (fst (Conservative.get_status cfg s' w')) in
    0 <= sc <= 1
    /\ (Conservative.safety_violations s' = 0%Z -> sc == 1).
Proof.
  intros c cfg ops w outs s' w' Hrun. cbv zeta.
  assert (Hc : counters_ok (ConservativeBot cfg s')).
  { refine (run_rel (fun x y => counters_ok (fst x) -> counters_ok (fst y))
              _ _ _ _ ops _ w outs _ w' Hrun
              (counters_ok_constructed c _ (new_conservative c cfg))).
    - auto.
    - auto.
    - cbn [fst]. intros. eapply trade_counters; eassumption.
    - cbn [fst]. intros. eapply call_counters; eassumption. }
  destruct Hc as (Hd & Hv & _). cbn [daily_trades] in Hd.
  unfold Conservative.get_status, utcnow. cbn [fst Conservative.st_safety_score].
  apply safety_score_range; assumption.
Qed.

Lemma safety_score_is_a_fraction_witness :
  match
    run [Trade sample_conservative; Trade no_metrics; Trade no_metrics;
         Call "get_status"]
        (ConservativeBot Conservative.default_config (Conservative.init 10000))
        (constant_world 0 0)
  with
  | Ok (_, ConservativeBot cfg s', w') =>
      0 <= Conservative.st_safety_score
             (fst (Conservative.get_status cfg s' w')) <= 1
  | _ => False
  end.
Proof.
  destruct (run _ _ _) as [[[outs b'] w']|e] eqn:E.
  - assert (exists s', b' = ConservativeBot Conservative.default_config s')
      as (s' & ->).
    { vm_compute in E. injection E as _ <- _. eauto. }
    exact (proj1 (safety_score_is_a_fraction 10000 Conservative.default_config
                    _ _ _ _ _ E)).
  - vm_compute in E. discriminate E.
Defined.

(** ** Capital and its peak *)

Lemma trade_stop_loss data b w o b' w' :
  trade data b w = Ok (o, b', w') -> stop_loss b' = stop_loss b.
Proof. intro H. trade_cases H; reflexivity. Qed.

Lemma call_stop_loss name b w b' w' :
  call name b w = Ok (b', w') -> stop_loss b' = stop_loss b.
Proof.
  intro H. destruct b; unfold call in H;
    repeat match type of H with
    | (if ?c then _ else _) = _ => destruct c
    end; try discriminate H;
    unfold Aggressive.reset_daily_stats, Conservative.end_of_day_summary,
      utcnow in H;
    injection H as <- _; reflexivity.
Qed.

Lemma trade_below_peak data b w o b' w' :
  healthy b -> unit_interval w -> admissible b (Trade data) ->
  0 <= stop_loss b ->
  capital b <= peak_capital b ->
  trade data b w = Ok (o, b', w') ->
  capital b' <= peak_capital b'.
Proof.
  intros (Hic & Hc & Hw) Hu Ha Hs Hp H.
  trade_cases H; cbn [admissible stop_loss] in *; try assumption;
    try (match goal with
         | |- context [if Qltb ?x ?y then _ else _] => destruct (Qltb x y) eqn:?
         end; qprop; lra).
  all: payoff_facts Hu; sizing_facts Hc; unfold Flip.stop_loss in *;
    match goal with
    | |- context [?q * pymin ?cap ?p] =>
        assert (0 <= pymin cap p) by (apply pymin_glb; [lra|product_nonneg]);
        assert (0 <= q * pymin cap p) by (apply Qmult_le_0_compat; lra)
    end; lra.
Qed.

Lemma run_below_peak ops :
  forall b w outs b' w',
    healthy b -> unit_interval w -> Forall (admissible b) ops ->
    0 <= stop_loss b ->
    capital b <= peak_capital b ->
    run ops b w = Ok (outs, b', w') ->
    capital b' <= peak_capital b'.
Proof.
  induction ops as [|[data|name] ops IH]; intros b w outs b' w' Hb Hu Hops Hs Hp H.
  - now injection H as _ <- _.
  - inversion Hops as [|? ? Ha Hops']; subst.
    apply run_trade_inv in H as (o & b1 & w1 & outs' & H1 & H2 & _).
    destruct (trade_healthy data b w Hb Hu Ha) as (o2 & b2 & w2 & Ht & Hb2 & _).
    rewrite H1 in Ht. injection Ht as <- <- <-.
    destruct (trade_fixed _ _ _ _ _ _ H1)
      as (_ & _ & _ & Hm & _ & _ & _ & _ & Hr).
    apply (IH b1 w1 outs' b' w'); trivial.
    + exact (unit_interval_same _ _ Hr Hu).
    + eapply Forall_impl; [|exact Hops']. intro o'. now apply admissible_same.
    + now rewrite (trade_stop_loss _ _ _ _ _ _ H1).
    + exact (trade_below_peak _ _ _ _ _ _ Hb Hu Ha Hs Hp H1).
  - inversion Hops as [|? ? Ha Hops']; subst.
    apply run_call_inv in H as (b1 & w1 & H1 & H2).
    destruct (call_fixed _ _ _ _ _ H1)
      as (Hc & _ & Hpk & _ & _ & _ & Hm & _ & Hr & _).
    apply (IH b1 w1 outs b' w'); trivial.
    + exact (call_healthy _ _ _ _ _ H1 Hb).
    + exact (unit_interval_same _ _ Hr Hu).
    + eapply Forall_impl; [|exact Hops']. intro o'. now apply admissible_same.
    + now rewrite (call_stop_loss _ _ _ _ _ H1).
    + now rewrite Hc, Hpk.
Qed.

(** X20.  Capital never exceeds its recorded peak.  For an instance built
    with positive capital and a stop loss that is not negative, over any
    session [capital <= peak_capital]: a win moves the peak up with capital
    and a loss only takes from capital.  (Same conditions on the generator
    and on ConservativeBot's snapshots as for C10.) *)
Theorem capital_never_exceeds_peak :
  forall (c : Q) (b0 : bot) (ops : list op) (w : world) outs b w',
    0 < c ->
    constructed c b0 ->
    0 <= stop_loss b0 ->
    unit_interval w ->
    Forall (admissible b0) ops ->
    run ops b0 w = Ok (outs, b, w') ->
    capital b <= peak_capital b.
Proof.
  intros c b0 ops w outs b w' Hc Hnew Hs Hu Hops Hrun.
  assert (Hb0 : healthy b0).
  { destruct Hnew; repeat split; trivial; reflexivity. }
  refine (run_below_peak ops b0 w outs b w' Hb0 Hu Hops Hs _ Hrun).
  destruct Hnew; apply Qle_refl.
Qed.

Lemma capital_never_exceeds_peak_witness :
  match
    run [Trade sample_aggressive; Trade sample_aggressive; Call "get_status";
         Trade sample_aggressive]
        (AggressiveBot Aggressive.default_config (Aggressive.init 10000))
        (constant_world (5 # 10) 0)
  with
  | Ok (_, b, _) => capital b <= peak_capital b
  | Raise _ => False
  end.
Proof.
  destruct (run _ _ _) as [[[outs b] w']|e] eqn:E.
  - refine (capital_never_exceeds_peak 10000
              (AggressiveBot Aggressive.default_config (Aggressive.init 10000))
              _ _ _ _ _ _ (new_aggressive _ _) _ _ _ E).
    + reflexivity.
    + vm_compute. discriminate.
    + intro n. split; vm_compute; [discriminate|reflexivity].
    + repeat first [apply Forall_nil | apply Forall_cons; [cbn; auto|]].
  - vm_compute in E. discriminate E.
Defined.

(** ** The order of the trade history *)

Lemma chronological_app (ts : list Z) (t : Z) :
  chronological ts -> Forall (fun x => (x <= t)%Z) ts -> chronological (ts ++ [t]).
Proof.
  induction ts as [|x ts IH]; intros Hc Hf.
  - cbn. split; [constructor|exact I].
  - cbn [app chronological] in *. destruct Hc as [Hx Hc].
    inversion Hf as [|? ? Hxt Hf']; subst. split.
    + apply Forall_app. split; [exact Hx|]. constructor; [exact Hxt|constructor].
    + apply IH; assumption.
Qed.

Lemma trade_clock data b w o b' w' :
  trade data b w = Ok (o, b', w') ->
  clock w' = clock w
  /\ (clock_used w <= clock_used w')%nat
  /\ (trade_history b' = trade_history b
      \/ exists r, trade_history b' = trade_history b ++ [r]
                   /\ timestamp r = clock w (clock_used w)).
Proof.
  intro H. trade_cases H; cbn; repeat split; try lia; eauto.
Qed.

Lemma call_clock name b w b' w' :
  call name b w = Ok (b', w') ->
  clock w' = clock w /\ (clock_used w <= clock_used w')%nat.
Proof.
  intro H. destruct b; unfold call in H;
    repeat match type of H with
    | (if ?c then _ else _) = _ => destruct c
    end; try discriminate H;
    unfold Aggressive.reset_daily_stats, Conservative.end_of_day_summary,
      utcnow in H;
    injection H as _ <-; cbn; split; try reflexivity; lia.
Qed.

(** X21.  The trade history is in chronological order.  With a clock
    that never runs backwards, over any session from a new instance the
    timestamps of the history never go back, whatever else reads the clock in
    between ([get_status], [end_of_day_summary]). *)
Theorem history_is_chronological :
  forall (c : Q) (b0 : bot) (ops : list op) (w : world) outs b w',
    constructed c b0 ->
    monotone_clock w ->
    run ops b0 w = Ok (outs, b, w') ->
    chronological (map timestamp (trade_history b)).
Proof.
  intros c b0 ops w outs b w' Hnew Hmono Hrun.
  pose (inv := fun x : bot * world =>
                 monotone_clock (snd x)
                 /\ chronological (map timestamp (trade_history (fst x)))
                 /\ Forall (fun t => (t <= clock (snd x) (clock_used (snd x)))%Z)
                      (map timestamp (trade_history (fst x)))).
  assert (H : inv (b, w')).
  { refine (run_rel (fun x y => inv x -> inv y) _ _ _ _ ops b0 w outs b w' Hrun _).
    - auto.
    - auto.
    - unfold inv. cbn [fst snd].
      intros data b1 w1 o b2 w2 Ht (Hm & Hc & Hf).
      destruct (trade_clock _ _ _ _ _ _ Ht) as (Hk & Hu & Hh).
      assert (Hm2 : monotone_clock w2).
      { unfold monotone_clock. rewrite Hk. exact Hm. }
      assert (Hstep : (clock w1 (clock_used w1) <= clock w2 (clock_used w2))%Z).
      { rewrite Hk. apply Hm. exact Hu. }
      split; [exact Hm2|].
      destruct Hh as [-> | (r & -> & Hr)].
      + split; [exact Hc|].
        eapply Forall_impl; [|exact Hf]. cbv beta. intros; lia.
      + rewrite map_app. cbn [map]. rewrite Hr. split.
        * apply chronological_app; assumption.
        * apply Forall_app. split.
          -- eapply Forall_impl; [|exact Hf]. cbv beta. intros; lia.
          -- constructor; [exact Hstep|constructor].
    - unfold inv. cbn [fst snd].
      intros name b1 w1 b2 w2 Hcall (Hm & Hc & Hf).
      destruct (call_clock _ _ _ _ _ Hcall) as (Hk & Hu).
      destruct (call_fixed _ _ _ _ _ Hcall) as (_ & _ & _ & Hh & _).
      rewrite Hh. split; [|split; [exact Hc|]].
      + unfold monotone_clock. rewrite Hk. exact Hm.
      + eapply Forall_impl; [|exact Hf]. cbv beta. intros t Ht.
        rewrite Hk. specialize (Hm _ _ Hu). lia.
    - unfold inv. cbn [fst snd]. split; [exact Hmono|].
      destruct Hnew; cbn; split; constructor. }
  apply H.
Qed.

Lemma history_is_chronological_witness :
  match
    run [Trade sample_aggressive; Call "get_status"; Trade sample_aggressive;
         Trade sample_aggressive]
        (AggressiveBot Aggressive.default_config (Aggressive.init 10000))
        (constant_world (5 # 10) 0)
  with
  | Ok (_, b, _) => chronological (map timestamp (trade_history b))
  | Raise _ => False
  end.
Proof.
  destruct (run _ _ _) as [[[outs b] w']|e] eqn:E.
  - refine (history_is_chronological 10000
              (AggressiveBot Aggressive.default_config (Aggressive.init 10000))
              [Trade sample_aggressive; Call "get_status"; Trade sample_aggressive;
               Trade sample_aggressive]
              (constant_world (5 # 10) 0) outs b w' (new_aggressive _ _) _ E).
    intros n m Hnm. unfold constant_world, clock. lia.
  - vm_compute in E. discriminate E.
Defined.

(** ** Confidence and the size of a position *)

Lemma clamp_mono (x y lo hi : Q) :
  x <= y -> pymax (pymin x hi) lo <= pymax (pymin y hi) lo.
Proof.
  intro H. unfold pymax, pymin.
  destruct (Qltb hi x) eqn:E1, (Qltb hi y) eqn:E2;
    repeat match goal with
    | |- context [Qltb ?a ?b] => destruct (Qltb a b) eqn:?
    end; qprop; lra.
Qed.

(** A product with a factor that is not negative grows with the other
    factor. *)
Lemma scale_mono (k m1 m2 : Q) : 0 <= k -> m1 <= m2 -> k * m1 <= k * m2.
Proof. intros. nra. Qed.

Lemma cons_streak_mult_pos (s : Conservative.state) : 0 < Conservative.streak_mult s.
Proof.
  unfold Conservative.streak_mult.
  destruct (Conservative.recent_trades s); [lra|].
  cbv zeta.
  repeat match goal with
  | |- context [if ?c then _ else _] => destruct c
  end; lra.
Qed.

Lemma cons_confidence_mult_mono (c1 c2 : Q) :
  c1 <= c2 ->
  0 < (if Qltb (8 # 10) c1 then 1 + (c1 - (8 # 10)) * (1 # 2) else 8 # 10)
  /\ (if Qltb (8 # 10) c1 then 1 + (c1 - (8 # 10)) * (1 # 2) else 8 # 10)
     <= (if Qltb (8 # 10) c2 then 1 + (c2 - (8 # 10)) * (1 # 2) else 8 # 10).
Proof.
  intro H. destruct (Qltb (8 # 10) c1) eqn:E1, (Qltb (8 # 10) c2) eqn:E2;
    qprop; split; lra.
Qed.

Lemma aggr_next_hot_streak_pos (s : Aggressive.state) :
  0 <= Aggressive.next_hot_streak s.
Proof.
  unfold Aggressive.next_hot_streak.
  destruct (3 <=? _)%Z eqn:E.
  - apply pymin_glb; [lra|]. apply Z.leb_le in E.
    assert (0 <= inject_Z (Aggressive.consecutive_wins s))
      by (apply inject_Z_nonneg; lia).
    lra.
  - pose proof (pymax_ge_l 1 (Aggressive.hot_streak_multiplier s * (95 # 100))).
    lra.
Qed.

Lemma aggr_cold_streak_nonneg (n : Z) :
  0 <= (if (2 <=? n)%Z then pymax (3 # 10) (1 - inject_Z n * (15 # 100)) else 1).
Proof.
  destruct (2 <=? n)%Z; [|lra].
  pose proof (pymax_ge_l (3 # 10) (1 - inject_Z n * (15 # 100))). lra.
Qed.

Lemma aggr_leverage_nonneg (cfg : Aggressive.config) (data : snapshot) :
  - (1 # 2) <= get (volatility data) (1 # 10) ->
  0 <= (if Aggressive.use_leverage_scaling cfg
        then pymin (15 # 10) (1 + get (volatility data) (1 # 10) * 2)
             * dict_get Aggressive.regime_leverage
                 (get (regime data) "unknown"%string) 1
        else 1).
Proof.
  intro H. destruct (Aggressive.use_leverage_scaling cfg); [|lra].
  apply Qmult_le_0_compat.
  - apply pymin_glb; lra.
  - table_nonneg.
Qed.

Lemma aggr_base_size_nonneg (cfg : Aggressive.config) (data : snapshot)
  (s : Aggressive.state) :
  0 < Aggressive.capital s -> 0 <= Aggressive.max_position_size cfg ->
  0 <= match position_size data with
       | Some p =>
           pymax (Aggressive.capital s * Aggressive.max_position_size cfg)
             (p * Aggressive.capital s)
       | None => Aggressive.capital s * Aggressive.max_position_size cfg
       end.
Proof.
  intros Hc Hm.
  assert (0 <= Aggressive.capital s * Aggressive.max_position_size cfg)
    by (apply Qmult_le_0_compat; lra).
  destruct (position_size data) as [p|]; [|assumption].
  pose proof (pymax_ge_l (Aggressive.capital s * Aggressive.max_position_size cfg)
                (p * Aggressive.capital s)).
  lra.
Qed.

Lemma aggr_cold_streak_nonneg_half (n : Z) :
  0 <= (if (2 <=? n)%Z then pymax (1 # 2) (1 - inject_Z n * (15 # 100)) else 1).
Proof.
  destruct (2 <=? n)%Z; [|lra].
  pose proof (pymax_ge_l (1 # 2) (1 - inject_Z n * (15 # 100))). lra.
Qed.

Lemma flip_factors_nonneg (cfg : Flip.config) (s : Flip.state) (r : Q) :
  0 < Flip.capital s ->
  0 <= (if Qltb 0 (pymax 0 (Flip.daily_target - r))
        then Flip.capital s
             * pymin (pymax 0 (Flip.daily_target - r)
                      / inject_Z (Z.max 1 (Flip.max_daily_trades cfg
                                            - Flip.daily_trades s)))
                 Flip.max_position_size
        else Flip.capital s * (5 # 100))
  /\ 0 <= (if (0 <? Flip.current_streak s)%Z
           then pymin (15 # 10) (1 + inject_Z (Flip.current_streak s) * (1 # 10))
           else 1)
  /\ 0 <= (if (2 <=? Flip.consecutive_losses s)%Z
           then pymax (1 # 2) (1 - inject_Z (Flip.consecutive_losses s) * (15 # 100))
           else 1).
Proof.
  intro Hc. split; [|split].
  - destruct (Qltb 0 _) eqn:E; qprop.
    + apply Qmult_le_0_compat; [lra|]. apply pymin_glb.
      * apply Qle_shift_div_l; [|lra].
        change 0 with (inject_Z 0). rewrite <- Zlt_Qlt. lia.
      * unfold Flip.max_position_size. lra.
    + apply Qmult_le_0_compat; lra.
  - destruct (0 <? _)%Z eqn:E; [|lra].
    apply Z.ltb_lt in E. apply pymin_glb; [lra|].
    assert (0 <= inject_Z (Flip.current_streak s)) by (apply inject_Z_nonneg; lia).
    lra.
  - apply aggr_cold_streak_nonneg_half.
Qed.

Lemma product_mono_2nd_of_7 (B m1 m2 M H C L R : Q) :
  0 <= B -> 0 <= M -> 0 <= H -> 0 <= C -> 0 <= L -> 0 <= R -> m1 <= m2 ->
  B * m1 * M * H * C * L * R <= B * m2 * M * H * C * L * R.
Proof.
  intros HB HM HH HC HL HR Hm.
  assert (HK : 0 <= B * M * H * C * L * R)
    by (repeat apply Qmult_le_0_compat; assumption).
  setoid_replace (B * m1 * M * H * C * L * R) with ((B * M * H * C * L * R) * m1)
    by ring.
  setoid_replace (B * m2 * M * H * C * L * R) with ((B * M * H * C * L * R) * m2)
    by ring.
  apply scale_mono; assumption.
Qed.

Lemma product_mono_2nd_of_4 (B m1 m2 S L : Q) :
  0 <= B -> 0 <= S -> 0 <= L -> m1 <= m2 ->
  B * m1 * S * L <= B * m2 * S * L.
Proof.
  intros HB HS HL Hm.
  assert (HK : 0 <= B * S * L) by (repeat apply Qmult_le_0_compat; assumption).
  setoid_replace (B * m1 * S * L) with ((B * S * L) * m1) by ring.
  setoid_replace (B * m2 * S * L) with ((B * S * L) * m2) by ring.
  apply scale_mono; assumption.
Qed.

(** Below the floor the clamp returns the floor. *)
Lemma clamp_floor (x lo hi : Q) : x <= lo -> pymax (pymin x hi) lo == lo.
Proof.
  intro H. unfold pymax, pymin.
  destruct (Qltb hi x) eqn:E1;
    match goal with
    | |- context [Qltb ?a ?b] => destruct (Qltb a b) eqn:E2
    end; qprop; lra.
Qed.

Lemma product_nonpos_7 (B m M H C L R : Q) :
  B <= 0 -> 0 <= m -> 0 <= M -> 0 <= H -> 0 <= C -> 0 <= L -> 0 <= R ->
  B * m * M * H * C * L * R <= 0.
Proof.
  intros HB Hm HM HH HC HL HR.
  assert (HK : 0 <= (- B) * m * M * H * C * L * R)
    by (repeat apply Qmult_le_0_compat; try assumption; lra).
  setoid_replace (B * m * M * H * C * L * R)
    with (- ((- B) * m * M * H * C * L * R)) by ring.
  lra.
Qed.

Ltac pymax_floor :=
  match goal with
  | |- 0 <= pymax ?a ?b => pose proof (pymax_ge_l a b); lra
  end.

(** X22.  A higher confidence never gives a smaller position.  With
    positive capital, of two snapshots that differ in ['ai_confidence'] only,
    the one with the higher confidence is sized at least as large by each
    class.  (AggressiveBot: with a configured [max_position_size] that is
    not negative and a volatility of at least -0.5, below which its leverage
    factor changes sign.) *)
Theorem higher_confidence_never_smaller_size :
  forall (b : bot) (data : snapshot) (c1 c2 q1 q2 : Q),
    0 < capital b ->
    match b with
    | AggressiveBot cfg _ =>
        0 <= Aggressive.max_position_size cfg
        /\ - (1 # 2) <= get (volatility data) (1 # 10)
    | _ => True
    end ->
    c1 <= c2 ->
    calculate_position_size b (set_confidence data (Some c1)) = Ok q1 ->
    calculate_position_size b (set_confidence data (Some c2)) = Ok q2 ->
    q1 <= q2.
Proof.
  intros b data c1 c2 q1 q2 Hc Hb Hle H1 H2.
  destruct b as [cfg s|cfg s|cfg s]; cbn [capital] in Hc;
    unfold calculate_position_size in H1, H2.
  - destruct Hb as [Hm Hv].
    unfold Aggressive.calculate_position_size, Aggressive.unbounded_size,
      Aggressive.momentum_mult in H1, H2.
    cbn [set_confidence ai_confidence position_size volatility regime momentum get]
      in H1, H2.
    destruct (pydiv _ _) as [d|e]; [|discriminate H1].
    cbn [bind fst] in H1, H2. injection H1 as <-. injection H2 as <-.
    apply clamp_mono. apply product_mono_2nd_of_7.
    + exact (aggr_base_size_nonneg cfg data s Hc Hm).
    + pose proof (Qabs_nonneg (get (momentum data) (1 # 2))). unfold get in *. lra.
    + exact (aggr_next_hot_streak_pos s).
    + exact (aggr_cold_streak_nonneg (Aggressive.consecutive_losses s)).
    + exact (aggr_leverage_nonneg cfg data Hv).
    + destruct (Qltb _ d); lra.
    + lra.
  - unfold Conservative.calculate_position_size in H1, H2.
    cbn [set_confidence ai_confidence position_size get] in H1, H2.
    destruct (pydiv _ _) as [d|e]; [|discriminate H1].
    cbn [bind] in H1, H2. injection H1 as <-. injection H2 as <-.
    destruct (cons_confidence_mult_mono c1 c2 Hle) as [Hpos Hmono].
    match goal with
    | |- pymax (pymin (?B * ?m1 * ?D * ?DM * ?PM * ?SM * ?R) ?hi) ?lo
         <= pymax (pymin (_ * ?m2 * _ * _ * _ * _ * _) _) _ =>
        assert (HD : 0 <= D) by pymax_floor;
        assert (HDM : 0 <= DM)
          by (repeat match goal with
                     | |- context [if ?c then _ else _] => destruct c
                     end; lra);
        assert (HPM : 0 <= PM) by pymax_floor;
        assert (HSM : 0 <= SM) by (pose proof (cons_streak_mult_pos s); lra);
        assert (HR : 0 <= R) by (destruct (Qltb _ d); lra);
        destruct (Qlt_le_dec B 0) as [HBn|HBp]
    end.
    + match goal with
      | |- pymax (pymin ?x ?hi) ?lo <= pymax ?y ?lo =>
          assert (Hx : x <= lo);
          [ assert (x <= 0)
              by (apply product_nonpos_7; try assumption; lra); lra
          | rewrite (clamp_floor x lo hi Hx); apply pymax_ge_r ]
      end.
    + apply clamp_mono. apply product_mono_2nd_of_7; assumption.
  - unfold Flip.calculate_position_size in H1, H2.
    cbn [set_confidence ai_confidence get] in H1, H2.
    destruct (pydiv _ _) as [r|e]; [|discriminate H1].
    cbn [bind] in H1, H2. injection H1 as <-. injection H2 as <-.
    destruct (flip_factors_nonneg cfg s r Hc) as (HB & HS & HL).
    apply clamp_mono. apply product_mono_2nd_of_4; try assumption. lra.
Qed.

Lemma higher_confidence_never_smaller_size_witness :
  match
    calculate_position_size
      (ConservativeBot Conservative.default_config (Conservative.init 10000))
      (set_confidence sample_conservative (Some (75 # 100))),
    calculate_position_size
      (ConservativeBot Conservative.default_config (Conservative.init 10000))
      (set_confidence sample_conservative (Some (95 # 100)))
  with
  | Ok q1, Ok q2 => q1 <= q2
  | _, _ => False
  end.
Proof.
  destruct (calculate_position_size _ (set_confidence _ (Some (75 # 100))))
    as [q1|e1] eqn:E1;
    [|vm_compute in E1; discriminate E1].
  destruct (calculate_position_size _ (set_confidence _ (Some (95 # 100))))
    as [q2|e2] eqn:E2;
    [|vm_compute in E2; discriminate E2].
  refine (higher_confidence_never_smaller_size
            (ConservativeBot Conservative.default_config (Conservative.init 10000))
            sample_conservative (75 # 100) (95 # 100) q1 q2 _ I _ E1 E2).
  - reflexivity.
  - vm_compute. discriminate.
Defined.

(** ** Reads of the clock *)

Lemma trade_clock_reads data b w o b' w' :
  trade data b w = Ok (o, b', w') ->
  match b with
  | FlipBotV2 _ _ => clock_used w' = clock_used w
  | _ => clock_used w' = (clock_used w + (if is_blocked o then 0 else 1))%nat
  end.
Proof.
  intro H. trade_cases H; cbn; lia.
Qed.

(** X23.  Only an executed trade of AggressiveBot or ConservativeBot reads
    the clock, once, for the timestamp of its record: over a sequence of
    trades the number of clock reads is the number of executed trades, and
    FlipBotV2 never reads the clock. *)
Theorem clock_reads_count_executed_trades :
  forall (snaps : list snapshot) (b : bot) (w : world) outs b' w',
    run (map Trade snaps) b w = Ok (outs, b', w') ->
    match b with
    | FlipBotV2 _ _ => clock_used w' = clock_used w
    | _ => clock_used w' = (clock_used w + executed outs)%nat
    end.
Proof.
  induction snaps as [|data snaps IH]; intros b w outs b' w' H.
  - injection H as <- _ <-. destruct b; cbn; lia.
  - cbn [map] in H.
    apply run_trade_inv in H as (o & b1 & w1 & outs' & H1 & H2 & ->).
    pose proof (trade_clock_reads _ _ _ _ _ _ H1) as Hc.
    destruct (trade_fixed _ _ _ _ _ _ H1) as (_ & _ & _ & Hm & _).
    pose proof (IH _ _ _ _ _ H2) as Hi.
    apply (same_class_flip b1 b) in Hi; [|now symmetry].
    unfold executed in *. cbn [filter].
    destruct b; destruct (is_blocked o); cbn [negb List.length]; lia.
Qed.

Lemma clock_reads_count_executed_trades_witness :
  match
    run (map Trade [sample_conservative; no_metrics; sample_conservative])
        (ConservativeBot Conservative.default_config (Conservative.init 10000))
        (constant_world 0 0)
  with
  | Ok (outs, _, w') => clock_used w' = (0 + executed outs)%nat
  | Raise _ => False
  end.
Proof.
  destruct (run _ _ _) as [[[outs b'] w']|e] eqn:E.
  - exact (clock_reads_count_executed_trades
             [sample_conservative; no_metrics; sample_conservative]
             (ConservativeBot Conservative.default_config (Conservative.init 10000))
             (constant_world 0 0) outs b' w' E).
  - vm_compute in E. discriminate E.
Defined.
